(** * comparison_app: the sheet loader and the duplicate matcher

    A shallow embedding of [src/comparison_app.py] and the properties of its
    stages that the specification states.

    The program is a Streamlit script on top of pandas.  The embedding keeps
    the script's own control flow (the loader's loop over sheet names, the
    matcher's loop over [range(0, total, chunk_size)], the guards of the
    button handler) and models the pandas calls it makes by list functions:

    - a cell is a tagged value: a string, a Python integer or the missing
      marker (pandas' NaN); floats and dates, and so the columns pandas
      reads as floats, are outside the model;
    - a [DataFrame] is a list of column labels and a list of rows, every
      row a list of cells in column order; labels are looked up at their
      first position ([read_excel] makes them distinct); a cell carries
      its own tag, and two join keys are equal when they are the same
      tagged value;
    - columns carry no dtype.  Where pandas decides by the dtype of a
      column, in the check [merge] makes of its keys, the dtype is the one
      [read_excel] infers from the cells: object for a column that holds a
      string, a numeric one otherwise.  Where pandas changes a dtype,
      handing an int64 column back as float64 once a missing value is put
      into it ([pd.concat] of sheets with different columns, a left join
      with a row that finds no partner), the model keeps the integer
      cells: what is stated below about the cells of a result is stated
      for text and missing cells, or for runs in which no missing value
      is filled in;
    - text is a [string] with one [ascii] per code point below 256, and
      [str.strip] removes what Python's [str.isspace] accepts in that
      range; the texts of the messages are kept as the bytes of the source;
    - [astype(str)] applies Python's [str] to every element, so the missing
      marker becomes the three-letter string [nan] (pandas 1.x and 2.x);
    - a workbook is given by the frames [read_excel] parses its sheets into;
    - Streamlit calls are recorded, in order, in a log of [st_event]s, and a
      Python exception is carried as [Raise]; the exceptions are those of
      pandas 2.x ([merge]) and of pyarrow behind [st.dataframe]. *)

From Stdlib Require Import Ascii String ZArith Lia.
From stdpp Require Import gmap strings list pretty.

Open Scope string_scope.
Open Scope Z_scope.
Open Scope list_scope.

(** ** Cells and text *)

Inductive cell : Type :=
| VStr (s : string)
| VInt (z : Z)
| VMissing.

#[global] Instance cell_eq_dec : EqDecision cell.
Proof. solve_decision. Defined.

#[global] Instance cell_countable : Countable cell.
Proof.
  refine (inj_countable'
    (λ v, match v with
          | VStr s => inl s
          | VInt z => inr (inl z)
          | VMissing => inr (inr tt)
          end)
    (λ x, match x with
          | inl s => VStr s
          | inr (inl z) => VInt z
          | inr (inr _) => VMissing
          end) _).
  by intros [].
Defined.

#[global] Instance cell_inhabited : Inhabited cell := populate VMissing.

(** Python's [str.isspace] on the code points below 256. *)
Definition is_space (c : ascii) : bool :=
  let n := nat_of_ascii c in
  ((9 <=? n)%nat && (n <=? 13)%nat)
  || ((28 <=? n)%nat && (n <=? 32)%nat)
  || (n =? 133)%nat || (n =? 160)%nat.

Fixpoint lstrip (s : string) : string :=
  match s with
  | EmptyString => EmptyString
  | String c s' => if is_space c then lstrip s' else s
  end.

Fixpoint rstrip (s : string) : string :=
  match s with
  | EmptyString => EmptyString
  | String c s' =>
      match rstrip s' with
      | EmptyString => if is_space c then EmptyString else String c EmptyString
      | r => String c r
      end
  end.

(** [str.strip()] *)
Definition strip (s : string) : string := rstrip (lstrip s).

(** Python's [str(x)] on a cell. *)
Definition py_str (v : cell) : string :=
  match v with
  | VStr s => s
  | VInt z => pretty z
  | VMissing => "nan"
  end.

(** ** Exceptions and the Streamlit log *)

Inductive exn : Type :=
| KeyError (key : string)
| ValueError (msg : string)
| ExcelError (msg : string)
| MergeError (msg : string).

(** [str(e)] as the f-strings of the script print it. *)
Definition exn_str (e : exn) : string :=
  match e with
  | KeyError k => "'" +:+ k +:+ "'"
  | ValueError m => m
  | ExcelError m => m
  | MergeError m => m
  end.

Inductive result (A : Type) : Type :=
| Ok (a : A)
| Raise (e : exn).
Arguments Ok {A} a.
Arguments Raise {A} e.

Record DataFrame : Type := mkDataFrame {
  columns : list string;
  rows : list (list cell)
}.

#[global] Instance DataFrame_eq_dec : EqDecision DataFrame.
Proof. solve_decision. Defined.

Inductive widget : Type := progress_bar | status_text.

Inductive st_event : Type :=
| st_progress (num den : Z)          (* [st.progress(0)], [progress_bar.progress(end / total)] *)
| st_placeholder                     (* [st.empty()] *)
| st_clear (w : widget)              (* [w.empty()] *)
| st_info (text : string)
| st_warning (text : string)
| st_error (text : string)
| st_success (text : string)
| st_header (text : string)
| st_spinner (text : string)
| st_dataframe (df : DataFrame)
| st_download_button (label : string) (data : list (list string))
                     (file_name mime : string).

(** A computation of the script: the events it has sent to the page, and
    its value or the exception that stopped it. *)
Definition St (A : Type) : Type := list st_event * result A.

#[global] Instance St_ret : MRet St := λ A a, ([], Ok a).
#[global] Instance St_bind : MBind St := λ A B f m,
  match m with
  | (log, Ok a) => let '(log', r) := f a in (log ++ log', r)
  | (log, Raise e) => (log, Raise e)
  end.

Definition emit (e : st_event) : St () := ([e], Ok ()).
Definition lift {A} (r : result A) : St A := ([], r).

(** [try: body except Exception as e: handler(e)] *)
Definition try_except {A} (body : St A) (handler : exn → St A) : St A :=
  match body with
  | (log, Ok a) => (log, Ok a)
  | (log, Raise e) => let '(log', r) := handler e in (log ++ log', r)
  end.

(** The [for] statement: the body is run on each element in turn and
    threads the local variable it rebinds. *)
Fixpoint for_each {A B} (l : list A) (body : A → B → St B) (acc : B) : St B :=
  match l with
  | [] => mret acc
  | x :: l' => acc' ← body x acc; for_each l' body acc'
  end.

(** ** The pandas operations the script calls *)

Definition len (df : DataFrame) : Z := Z.of_nat (length (rows df)).

(** [pd.DataFrame()] *)
Definition empty_frame : DataFrame := mkDataFrame [] [].

(** [df.empty]: some axis has length 0. *)
Definition empty (df : DataFrame) : bool :=
  bool_decide (columns df = []) || bool_decide (rows df = []).

(** [df.columns.get_loc(c)], first position of the label. *)
Definition get_loc (c : string) (cols : list string) : option nat :=
  fst <$> list_find (λ x, x = c) cols.

Definition at_loc (i : nat) (r : list cell) : cell := default VMissing (r !! i).

(** [df[c]]: the column as a list of cells, [KeyError] when absent. *)
Definition getitem (df : DataFrame) (c : string) : result (list cell) :=
  match get_loc c (columns df) with
  | Some i => Ok (at_loc i <$> rows df)
  | None => Raise (KeyError c)
  end.

(** [df[c] = values]: overwrites the column, or appends it as the last one. *)
Definition setitem (df : DataFrame) (c : string) (values : list cell) : DataFrame :=
  match get_loc c (columns df) with
  | Some i => mkDataFrame (columns df) (zip_with (λ r v, <[i:=v]> r) (rows df) values)
  | None => mkDataFrame (columns df ++ [c]) (zip_with (λ r v, r ++ [v]) (rows df) values)
  end.

(** [series.astype(str)] *)
Definition astype_str (s : list cell) : list cell := (λ v, VStr (py_str v)) <$> s.

(** [series.str.strip()]: an element that is no string becomes missing. *)
Definition str_strip (s : list cell) : list cell :=
  (λ v, match v with VStr x => VStr (strip x) | _ => VMissing end) <$> s.

(** [series.dropna()] *)
Definition dropna (s : list cell) : list cell := filter (λ v, v ≠ VMissing) s.

(** [set(series.tolist())] *)
Definition to_set (s : list cell) : gset cell := list_to_set s.

(** [series.isin(values)] *)
Definition isin (s : list cell) (values : gset cell) : list bool :=
  (λ v, bool_decide (v ∈ values)) <$> s.

(** [df[mask]]: the rows whose mask entry is true. *)
Definition select (df : DataFrame) (mask : list bool) : DataFrame :=
  mkDataFrame (columns df)
    (omap (λ '(r, b), if b : bool then Some r else None) (zip (rows df) mask)).

(** [df.iloc[start:stop].copy()] for [0 <= start]: the script never passes a
    negative bound. *)
Definition iloc (df : DataFrame) (start stop : Z) : DataFrame :=
  mkDataFrame (columns df)
    (take (Z.to_nat (stop - start)) (drop (Z.to_nat start) (rows df))).

(** [range(start, stop, step)] as the list it iterates over. *)
Fixpoint range_from (fuel : nat) (i stop step : Z) : list Z :=
  match fuel with
  | O => []
  | S fuel' =>
      if bool_decide (0 < step ∧ i < stop ∨ step < 0 ∧ stop < i)
      then i :: range_from fuel' (i + step) stop step
      else []
  end.

Definition range (start stop step : Z) : result (list Z) :=
  if bool_decide (step = 0) then Raise (ValueError "range() arg 3 must not be zero")
  else Ok (range_from (Z.to_nat (Z.abs (stop - start))) start stop step).

(** A label that occurs on both sides of a join gets the side's suffix. *)
Definition suffixed (other : list string) (suffix c : string) : string :=
  if bool_decide (c ∈ other) then c +:+ suffix else c.

(** The rows a left join makes of the left row [l]: one per row of [right]
    holding its key, in the order of [right], or one with [width] missing
    cells when there is none.  (When some row gets missing cells pandas
    hands the integers of the columns of [right] back as floats; the cells
    of the other rows are kept as they are here.) *)
Definition join_row (right_rows : list (list cell)) (li ri width : nat)
    (rcells : list cell → list cell) (l : list cell) : list (list cell) :=
  match filter (λ r, at_loc ri r = at_loc li l) right_rows with
  | [] => [l ++ replicate width VMissing]
  | ms => (λ r, l ++ rcells r) <$> ms
  end.

Definition is_text (v : cell) : bool :=
  match v with
  | VStr _ => true
  | _ => false
  end.

Definition is_int (v : cell) : bool :=
  match v with
  | VInt _ => true
  | _ => false
  end.

(** The dtype of a column with the cells [s]: object when it holds a
    string (and when it has no cell), int64 for integers only, float64 for
    integers and missing values. *)
Definition dtype (s : list cell) : string :=
  if bool_decide (s = []) || existsb is_text s then "object"
  else if forallb is_int s then "int64"
  else "float64".

(** A key column of strings, and a key column of numbers. *)
Definition text_key (s : list cell) : bool :=
  negb (bool_decide (s = [])) && forallb is_text s.

Definition numeric_key (s : list cell) : bool :=
  negb (bool_decide (s = [])) && negb (existsb is_text s).

(** The check [merge] makes of its two key columns: strings are not joined
    with numbers. *)
Definition incompatible_keys (lk rk : list cell) : bool :=
  text_key lk && numeric_key rk || numeric_key lk && text_key rk.

(** [Index.duplicated()]: true at every position of a label but its first. *)
Definition duplicated (labels : list string) : list bool :=
  imap (λ j c, bool_decide (c ∈ take j labels)) labels.

(** [renamed[renamed.duplicated() & ~labels.duplicated()].tolist()]: the
    labels a suffix has made a duplicate of an earlier one. *)
Definition new_duplicates (labels renamed : list string) : list string :=
  omap (λ '(c, (d', d)), if (d' : bool) && negb d then Some c else None)
       (zip renamed (zip (duplicated renamed) (duplicated labels))).

Definition quote (c : string) : string := "'" +:+ c +:+ "'".

(** The message of the [MergeError]; Python prints the set of labels in an
    order of its own, here it is the order in which they are found. *)
Definition duplicate_columns_message (dups : list string) : string :=
  "Passing 'suffixes' which cause duplicate columns {"
    +:+ String.concat ", " (quote <$> remove_dups dups) +:+ "} is not allowed.".

Definition merge_keys_message (ldtype rdtype key : string) : string :=
  "You are trying to merge on " +:+ ldtype +:+ " and " +:+ rdtype
    +:+ " columns for key '" +:+ key
    +:+ "'. If you wish to proceed you should use pd.concat".

(** [left.merge(right, left_on=.., right_on=.., how='left', suffixes=..)]:
    the rows of [left] in order, each joined by [join_row].  When both keys
    have the same label the key column of [right] is dropped.  A string key
    and a numeric key are refused with [ValueError], and suffixes that
    make two labels of one side equal with [MergeError]; labels that are
    equal across the two sides, or were equal before, are let through. *)
Definition merge (left right : DataFrame) (left_on right_on : string)
    (suffixes : string * string) : result DataFrame :=
  match get_loc left_on (columns left), get_loc right_on (columns right) with
  | Some li, Some ri =>
      let lk := at_loc li <$> rows left in
      let rk := at_loc ri <$> rows right in
      if incompatible_keys lk rk
      then Raise (ValueError (merge_keys_message (dtype lk) (dtype rk) left_on))
      else
        let same := bool_decide (left_on = right_on) in
        let rcols := if same then delete ri (columns right) else columns right in
        let rcells := λ r : list cell, if same then delete ri r else r in
        let llabels := suffixed rcols suffixes.1 <$> columns left in
        let rlabels := suffixed (columns left) suffixes.2 <$> rcols in
        match new_duplicates (columns left) llabels ++ new_duplicates rcols rlabels with
        | [] =>
            Ok (mkDataFrame (llabels ++ rlabels)
                  (rows left ≫= join_row (rows right) li ri (length rcols) rcells))
        | dups => Raise (MergeError (duplicate_columns_message dups))
        end
  | None, _ => Raise (KeyError left_on)
  | _, None => Raise (KeyError right_on)
  end.

(** The union of the column labels, in order of first appearance. *)
Definition union_labels (labels : list string) : list string :=
  foldl (λ acc c, if bool_decide (c ∈ acc) then acc else acc ++ [c]) [] labels.

(** [row[c]], the cell of a row under a column label; missing when the row
    has no such column. *)
Definition row_get (cols : list string) (c : string) (r : list cell) : cell :=
  match get_loc c cols with
  | Some i => at_loc i r
  | None => VMissing
  end.

(** The rows of [df] laid out on the columns [cols]; a column [df] lacks is
    filled with the missing marker. *)
Definition reindex (cols : list string) (df : DataFrame) : list (list cell) :=
  (λ r : list cell, (λ c, row_get (columns df) c r) <$> cols) <$> rows df.

(** [pd.concat(dfs, ignore_index=True)]: the rows of the frames one after
    the other, on the union of their columns when these differ.  (pandas
    hands the integers of a column that some frame lacks back as floats;
    they are kept as they are here.) *)
Definition concat (dfs : list DataFrame) : result DataFrame :=
  match dfs with
  | [] => Raise (ValueError "No objects to concatenate")
  | d :: _ =>
      if bool_decide (Forall (λ d', columns d' = columns d) dfs)
      then Ok (mkDataFrame (columns d) (dfs ≫= rows))
      else let cols := union_labels (dfs ≫= columns) in
           Ok (mkDataFrame cols (dfs ≫= reindex cols))
  end.

(** A cell as [to_csv] writes it: the missing marker as the empty field. *)
Definition csv_field (v : cell) : string :=
  match v with
  | VStr s => s
  | VInt z => pretty z
  | VMissing => ""
  end.

(** [df.to_csv(index=False)]: the header record and one record per row, each
    a list of fields; quoting, line breaks inside a field and the byte
    encoding are left out. *)
Definition to_csv (df : DataFrame) : list (list string) :=
  columns df :: ((λ r : list cell, csv_field <$> r) <$> rows df).

(** The exception of pyarrow for a frame with a repeated column label. *)
Definition duplicate_labels_error (df : DataFrame) : exn :=
  ValueError ("Duplicate column names found: ["
                +:+ String.concat ", " (quote <$> columns df) +:+ "]").

(** [st.dataframe(df)]: the frame is sent to the page as an Arrow table,
    which pyarrow refuses to make of a frame with a repeated column label. *)
Definition dataframe (df : DataFrame) : St () :=
  if bool_decide (NoDup (columns df)) then emit (st_dataframe df)
  else lift (Raise (duplicate_labels_error df)).

(** ** Workbooks *)

(** An opened workbook ([pd.ExcelFile]): its sheets in file order, each
    given by what [pd.read_excel] parses it into for a header row. *)
Record ExcelFile : Type := mkExcelFile {
  sheets : list (string * (nat → result DataFrame))
}.

Definition sheet_names (xls : ExcelFile) : list string := (sheets xls).*1.

Definition read_excel (xls : ExcelFile) (sheet_name : string) (header : nat)
    : result DataFrame :=
  match list_find (λ s, s.1 = sheet_name) (sheets xls) with
  | Some (_, (_, parse)) => parse header
  | None => Raise (ValueError ("Worksheet named '" +:+ sheet_name +:+ "' not found"))
  end.

(** An uploaded file: its name, and what opening its bytes as a workbook
    gives. *)
Record UploadedFile : Type := mkUploadedFile {
  name : string;
  open_excel : result ExcelFile
}.

(** ** The three stages *)

Definition get_sheet_names (uploaded_file : option UploadedFile) : St (list string) :=
  match uploaded_file with
  | Some f =>
      try_except
        (xls ← lift (open_excel f);
         mret (sheet_names xls))
        (λ e,
         emit (st_error ("Error reading sheet names from " +:+ name f +:+ ": " +:+ exn_str e));;
         mret [])
  | None => mret []
  end.

(** The body of the loop of [load_dataframe_from_selected_sheets]: one
    requested sheet name. *)
Definition load_sheet (uploaded_file : UploadedFile) (xls : ExcelFile)
    (id_column : string) (header_row : nat)
    (sheet_name : string) (all_dfs : list DataFrame) : St (list DataFrame) :=
  if bool_decide (sheet_name ∈ sheet_names xls) then
    df ← lift (read_excel xls sheet_name header_row);
    if bool_decide (id_column ∈ columns df) then
      ids ← lift (getitem df id_column);
      let df := setitem df id_column (str_strip (astype_str ids)) in
      emit (st_info ("Loaded data from sheet '" +:+ sheet_name +:+ "' of '"
                       +:+ name uploaded_file +:+ "' with " +:+ pretty (len df)
                       +:+ " rows."));;
      mret (all_dfs ++ [df])
    else
      emit (st_warning ("Column '" +:+ id_column +:+ "' not found in sheet '"
                          +:+ sheet_name +:+ "'. Skipping this sheet."));;
      mret all_dfs
  else
    emit (st_warning ("Sheet '" +:+ sheet_name +:+ "' not found in '"
                        +:+ name uploaded_file +:+ "'. Skipping."));;
    mret all_dfs.

Definition load_dataframe_from_selected_sheets (uploaded_file : UploadedFile)
    (sheet_names_to_load : list string) (id_column : string) (header_row : nat)
    : St DataFrame :=
  try_except
    (xls ← lift (open_excel uploaded_file);
     all_dfs ← for_each sheet_names_to_load
       (load_sheet uploaded_file xls id_column header_row) [];
     if bool_decide (all_dfs = []) then
       emit (st_error ("ID column '" +:+ id_column +:+ "' not found in any of the selected sheets. Please check your column name and sheet selections."));;
       mret empty_frame
     else
       combined_df ← lift (concat all_dfs);
       mret combined_df)
    (λ e,
     emit (st_error ("Error loading '" +:+ name uploaded_file +:+ "': " +:+ exn_str e));;
     mret empty_frame).

(** The body of the loop of [find_duplicates]: the chunk that starts at
    [start]. *)
Definition find_duplicates_chunk (df1 df2 : DataFrame) (id_column_1 id_column_2 : string)
    (chunk_size total : Z) (valid_ids_set : gset cell)
    (start : Z) (duplicates : list DataFrame) : St (list DataFrame) :=
  let end_ := Z.min (start + chunk_size) total in
  let chunk := iloc df1 start end_ in
  ids ← lift (getitem chunk id_column_1);
  let chunk := setitem chunk "Standard_ID" (str_strip (astype_str ids)) in
  standard ← lift (getitem chunk "Standard_ID");
  let matched_chunk := select chunk (isin standard valid_ids_set) in
  duplicates ←
    (if empty matched_chunk then mret duplicates
     else
       enriched ← lift (merge matched_chunk df2 "Standard_ID" id_column_2
                          ("_File1", "_File2"));
       mret (duplicates ++ [enriched]));
  emit (st_progress end_ total);;
  emit (st_info ("Processing... Checked " +:+ pretty end_ +:+ " of "
                   +:+ pretty total +:+ " rows from the first file."));;
  mret duplicates.

Definition find_duplicates (df1 df2 : DataFrame) (id_column_1 id_column_2 : string)
    (chunk_size : Z) : St DataFrame :=
  let total := len df1 in
  emit (st_progress 0 1);;
  emit st_placeholder;;
  ids ← lift (getitem df2 id_column_2);
  let valid_ids_set := to_set (str_strip (astype_str (dropna ids))) in
  emit (st_info ("Created a lookup set with " +:+ pretty (size valid_ids_set)
                   +:+ " unique IDs from the second file."));;
  starts ← lift (range 0 total chunk_size);
  duplicates ← for_each starts
    (find_duplicates_chunk df1 df2 id_column_1 id_column_2 chunk_size total valid_ids_set) [];
  emit (st_clear progress_bar);;
  emit (st_clear status_text);;
  if bool_decide (duplicates ≠ []) then
    result ← lift (concat duplicates);
    emit (st_success ("✅ Comparison complete! Found " +:+ pretty (len result)
                        +:+ " duplicate records."));;
    mret result
  else
    emit (st_success "✅ Comparison complete! No duplicates were found.");;
    mret empty_frame.

(** The body of [if st.button("Find Duplicates")]: both files are loaded
    with the default header row, compared with the default chunk size, and
    a non-empty result is shown and offered for download. *)
Definition on_find_duplicates (file1 file2 : UploadedFile)
    (file1_selected_sheets file2_selected_sheets : list string)
    (file1_id_col file2_id_col : string) : St () :=
  if bool_decide (file1_selected_sheets = []) || bool_decide (file2_selected_sheets = [])
  then emit (st_warning "Please select at least one sheet for each file.")
  else
    emit (st_spinner "Loading data... This may take a moment.");;
    df1 ← load_dataframe_from_selected_sheets file1 file1_selected_sheets file1_id_col 0;
    df2 ← load_dataframe_from_selected_sheets file2 file2_selected_sheets file2_id_col 0;
    if negb (empty df1) && negb (empty df2) then
      emit (st_header "Processing and Finding Duplicates...");;
      duplicates_df ← find_duplicates df1 df2 file1_id_col file2_id_col 500;
      if negb (empty duplicates_df) then
        emit (st_header "Results: Duplicate Records Found");;
        dataframe duplicates_df;;
        let csv := to_csv duplicates_df in
        emit (st_download_button "📥 Download Results as CSV" csv
                "duplicate_report.csv" "text/csv")
      else mret ()
    else mret ().

(** ** The matcher, row by row

    What the loop of [find_duplicates] computes, written without chunks;
    the lemmas below relate the two. *)

(** The identifier as both stages standardize it: [astype(str).str.strip()]. *)
Definition standard_id (v : cell) : cell := VStr (strip (py_str v)).

(** The lookup set built from the identifier cells of the second frame. *)
Definition lookup_set (ids : list cell) : gset cell :=
  list_to_set (standard_id <$> dropna ids).

(** The columns, the rows and the position of [Standard_ID] in a chunk,
    for first-frame columns [cols] with the identifier at position [i]. *)
Definition chunk_columns (cols : list string) : list string :=
  match get_loc "Standard_ID" cols with
  | Some _ => cols
  | None => cols ++ ["Standard_ID"]
  end.

Definition chunk_row (cols : list string) (i : nat) (r : list cell) : list cell :=
  match get_loc "Standard_ID" cols with
  | Some j => <[j:=standard_id (at_loc i r)]> r
  | None => r ++ [standard_id (at_loc i r)]
  end.

Definition standard_loc (cols : list string) : nat :=
  match get_loc "Standard_ID" cols with
  | Some j => j
  | None => length cols
  end.

(** The second frame as the join lays it out. *)
Definition right_columns (df2 : DataFrame) (id2 : string) (ri : nat) : list string :=
  if bool_decide ("Standard_ID" = id2) then delete ri (columns df2) else columns df2.

Definition right_cells (id2 : string) (ri : nat) (r : list cell) : list cell :=
  if bool_decide ("Standard_ID" = id2) then delete ri r else r.

Definition result_columns (cols : list string) (df2 : DataFrame) (id2 : string)
    (ri : nat) : list string :=
  (suffixed (right_columns df2 id2 ri) "_File1" <$> chunk_columns cols)
    ++ (suffixed (chunk_columns cols) "_File2" <$> right_columns df2 id2 ri).

(** The output rows of the first-frame rows [rs]. *)
Definition enrich_rows (cols : list string) (i : nat) (df2 : DataFrame) (id2 : string)
    (ri : nat) (rs : list (list cell)) : list (list cell) :=
  filter (λ r, at_loc (standard_loc cols) r ∈ lookup_set (at_loc ri <$> rows df2))
         (chunk_row cols i <$> rs)
    ≫= join_row (rows df2) (standard_loc cols) ri
         (length (right_columns df2 id2 ri)) (right_cells id2 ri).

(** The frame a chunk with rows [rs] appends to [duplicates], if any. *)
Definition chunk_frames (cols : list string) (i : nat) (df2 : DataFrame) (id2 : string)
    (ri : nat) (rs : list (list cell)) : list DataFrame :=
  match enrich_rows cols i df2 id2 ri rs with
  | [] => []
  | out => [mkDataFrame (result_columns cols df2 id2 ri) out]
  end.

(** The cells of a column, top to bottom. *)
Definition column (df : DataFrame) (c : string) : list cell :=
  row_get (columns df) c <$> rows df.

(** The row has one cell per column. *)
Definition rectangular (cols : list string) (r : list cell) : Prop :=
  length r = length cols.

(** The loader's standardization of a sheet: the identifier column cast to
    text and stripped. *)
Definition standardize (df : DataFrame) (id_column : string) : DataFrame :=
  setitem df id_column (str_strip (astype_str (column df id_column))).

(** The identifier cells of [df] are standardized text, as in every
    collection the loader returns. *)
Definition standardized (df : DataFrame) (id_column : string) : Prop :=
  Forall (λ r, ∃ v, row_get (columns df) id_column r = standard_id v) (rows df).

(** The sheets the loader keeps, standardized, in the order of the
    requested names: those the workbook has and whose schema has the
    identifier column. *)
Definition retained_sheets (xls : ExcelFile) (sheet_names_to_load : list string)
    (id_column : string) (header_row : nat) : list DataFrame :=
  omap (λ sheet_name,
          if bool_decide (sheet_name ∈ sheet_names xls) then
            match read_excel xls sheet_name header_row with
            | Ok df =>
                if bool_decide (id_column ∈ columns df)
                then Some (standardize df id_column) else None
            | Raise _ => None
            end
          else None)
       sheet_names_to_load.

(** Every requested sheet the workbook has can be parsed. *)
Definition readable (xls : ExcelFile) (sheet_names_to_load : list string)
    (header_row : nat) : Prop :=
  Forall (λ sheet_name,
            sheet_name ∈ sheet_names xls →
            ∃ df, read_excel xls sheet_name header_row = Ok df)
         sheet_names_to_load.

(** The error the loader reports when it retains no sheet. *)
Definition no_sheet_error (id_column : string) : st_event :=
  st_error ("ID column '" +:+ id_column +:+ "' not found in any of the selected sheets. Please check your column name and sheet selections.").

(** The rows a run of the matcher returns; none when it raises. *)
Definition result_rows (m : St DataFrame) : list (list cell) :=
  match m.2 with
  | Ok df => rows df
  | Raise _ => []
  end.

(** A computation that runs after the events [log]. *)
Definition logged {A} (log : list st_event) (m : St A) : St A := (log ++ m.1, m.2).

(** What the loop of the matcher reports after the chunk that ends at
    [end_]. *)
Definition chunk_log (total end_ : Z) : list st_event :=
  [st_progress end_ total;
   st_info ("Processing... Checked " +:+ pretty end_ +:+ " of "
              +:+ pretty total +:+ " rows from the first file.")].

(** The events that report an error to the page. *)
Definition is_error (e : st_event) : bool :=
  match e with
  | st_error _ => true
  | _ => false
  end.

(** The labels that the suffixes of the matcher make duplicates of another
    label of their side, for the labels [lcols] of the chunk and [rcols]
    of the second frame as the join lays it out. *)
Definition suffix_clashes (lcols rcols : list string) : list string :=
  new_duplicates lcols (suffixed rcols "_File1" <$> lcols)
    ++ new_duplicates rcols (suffixed lcols "_File2" <$> rcols).

(** What stops the join of a chunk with a match, whose key is text, with
    the second frame: the exception [merge] raises for the two schemas and
    the key column of the second frame, if it raises one. *)
Definition merge_check (cols : list string) (df2 : DataFrame) (id2 : string)
    (ri : nat) : option exn :=
  if numeric_key (at_loc ri <$> rows df2)
  then Some (ValueError (merge_keys_message "object" (dtype (at_loc ri <$> rows df2))
                           "Standard_ID"))
  else
    match suffix_clashes (chunk_columns cols) (right_columns df2 id2 ri) with
    | [] => None
    | dups => Some (MergeError (duplicate_columns_message dups))
    end.

(** The Match Result holding the output rows [out]: [pd.DataFrame()] when
    there is none. *)
Definition match_frame (cols : list string) (df2 : DataFrame) (id2 : string)
    (ri : nat) (out : list (list cell)) : DataFrame :=
  match out with
  | [] => empty_frame
  | _ => mkDataFrame (result_columns cols df2 id2 ri) out
  end.

(** The matcher without chunks: what [find_duplicates] returns or raises
    for a positive chunk size.  The join is only made, and so only fails,
    when a row passes the filter. *)
Definition match_result (df1 df2 : DataFrame) (id1 id2 : string) : result DataFrame :=
  match get_loc id2 (columns df2) with
  | None => Raise (KeyError id2)
  | Some ri =>
      match rows df1, get_loc id1 (columns df1) with
      | [], _ => Ok empty_frame
      | _, None => Raise (KeyError id1)
      | rs, Some i =>
          match enrich_rows (columns df1) i df2 id2 ri rs,
                merge_check (columns df1) df2 id2 ri with
          | _ :: _, Some e => Raise e
          | out, _ => Ok (match_frame (columns df1) df2 id2 ri out)
          end
      end
  end.

(** ** Sample data *)

Definition frame_3 : DataFrame :=
  mkDataFrame ["ID"; "Name"]
    [[VStr " A7 "; VStr "x"]; [VStr "A9"; VStr "x"]; [VStr "B2"; VStr "y"]].

Definition frame_A7 : DataFrame :=
  mkDataFrame ["Key"; "Flat"]
    [[VStr "A7"; VInt 1]; [VStr "B2"; VInt 2]; [VStr "A7"; VInt 3]].

Definition frame_A1 : DataFrame :=
  mkDataFrame ["ID"; "Name"] [[VStr "A1"; VStr "x"]].

(** A second collection that did not go through the loader, and the same
    with its identifier column standardized. *)
Definition frame_A1_padded : DataFrame :=
  mkDataFrame ["Key"; "Flat"] [[VStr " A1 "; VInt 7]].

Definition frame_A1_trimmed : DataFrame :=
  mkDataFrame ["Key"; "Flat"] [[VStr "A1"; VInt 7]].

(** A workbook whose only sheet has the header line and no record. *)
Definition file_header_only : UploadedFile :=
  mkUploadedFile "list.xlsx"
    (Ok (mkExcelFile [("Sheet1", λ _, Ok (mkDataFrame ["ID"; "Name"] []))])).

(** A workbook with three sheets; the second one has no identifier column. *)
Definition file_three_sheets : UploadedFile :=
  mkUploadedFile "flats.xlsx"
    (Ok (mkExcelFile
           [("North", λ _, Ok (mkDataFrame ["ID"; "Name"]
                                  [[VStr " A7 "; VStr "x"]; [VInt 12; VStr "y"]]));
            ("Notes", λ _, Ok (mkDataFrame ["Remark"] [[VStr "n/a"]]));
            ("South", λ _, Ok (mkDataFrame ["Name"; "ID"; "Floor"]
                                  [[VStr "z"; VStr "B2"; VStr "3rd"]]))])).

(** Two workbooks whose identifier cell is blank: whitespace only in the
    first, a single space in the second. *)
Definition file_blank_1 : UploadedFile :=
  mkUploadedFile "waiting.xlsx"
    (Ok (mkExcelFile [("Waiting", λ _, Ok (mkDataFrame ["ID"; "Name"]
                                              [[VStr "  "; VStr "x"]]))])).

Definition file_blank_2 : UploadedFile :=
  mkUploadedFile "flats.xlsx"
    (Ok (mkExcelFile [("Flats", λ _, Ok (mkDataFrame ["Key"; "Flat"]
                                            [[VStr " "; VInt 4]; [VStr "A7"; VInt 5]]))])).

(** Two workbooks whose identifier cell is missing. *)
Definition file_missing_1 : UploadedFile :=
  mkUploadedFile "waiting.xlsx"
    (Ok (mkExcelFile [("Waiting", λ _, Ok (mkDataFrame ["ID"; "Name"]
                                              [[VMissing; VStr "x"]]))])).

Definition file_missing_2 : UploadedFile :=
  mkUploadedFile "flats.xlsx"
    (Ok (mkExcelFile [("Flats", λ _, Ok (mkDataFrame ["Key"; "Flat"]
                                            [[VMissing; VInt 4]; [VStr "A7"; VInt 5]]))])).

(** Workbooks whose labels meet the suffixes of the join: the first has a
    label Name_File1 beside Name, the third a label Name_File2, and the
    second shares the label Name with both. *)
Definition file_suffix_1 : UploadedFile :=
  mkUploadedFile "waiting.xlsx"
    (Ok (mkExcelFile [("Waiting", λ _, Ok (mkDataFrame ["ID"; "Name"; "Name_File1"]
                                              [[VStr "A7"; VStr "x"; VStr "old"]]))])).

Definition file_suffix_2 : UploadedFile :=
  mkUploadedFile "flats.xlsx"
    (Ok (mkExcelFile [("Flats", λ _, Ok (mkDataFrame ["Key"; "Name"]
                                            [[VStr "A7"; VStr "y"]]))])).

Definition file_suffix_3 : UploadedFile :=
  mkUploadedFile "waiting.xlsx"
    (Ok (mkExcelFile [("Waiting", λ _, Ok (mkDataFrame ["ID"; "Name"; "Name_File2"]
                                              [[VStr "A7"; VStr "x"; VStr "old"]]))])).

(** ** Further definitions for the stages as a whole *)

(** What the loader reports for one requested sheet name: the sheet as
    loaded with its number of rows, or the reason it is skipped. *)
Definition sheet_message (uploaded_file : UploadedFile) (xls : ExcelFile)
    (id_column : string) (header_row : nat) (sheet_name : string) : list st_event :=
  if bool_decide (sheet_name ∈ sheet_names xls) then
    match read_excel xls sheet_name header_row with
    | Ok df =>
        if bool_decide (id_column ∈ columns df) then
          [st_info ("Loaded data from sheet '" +:+ sheet_name +:+ "' of '"
                      +:+ name uploaded_file +:+ "' with " +:+ pretty (len df)
                      +:+ " rows.")]
        else
          [st_warning ("Column '" +:+ id_column +:+ "' not found in sheet '"
                         +:+ sheet_name +:+ "'. Skipping this sheet.")]
    | Raise _ => []
    end
  else
    [st_warning ("Sheet '" +:+ sheet_name +:+ "' not found in '"
                   +:+ name uploaded_file +:+ "'. Skipping.")].

(** A progress value the progress bar accepts: a fraction between 0 and 1. *)
Definition progress_in_range (e : st_event) : Prop :=
  match e with
  | st_progress num den => 0 ≤ num ≤ den ∧ 0 < den
  | _ => True
  end.

(** The rows of the first collection that pass the matcher's filter. *)
Definition matched_rows (df1 df2 : DataFrame) (id1 id2 : string) : list (list cell) :=
  filter (λ r, standard_id (row_get (columns df1) id1 r) ∈ lookup_set (column df2 id2))
         (rows df1).

(** The warning of the loader for a requested sheet the workbook lacks. *)
Definition sheet_not_found (uploaded_file : UploadedFile) (sheet_name : string)
    : st_event :=
  st_warning ("Sheet '" +:+ sheet_name +:+ "' not found in '"
                +:+ name uploaded_file +:+ "'. Skipping.").

(** The message the matcher ends with, for the Match Result [result]. *)
Definition success_text (result : DataFrame) : string :=
  match rows result with
  | [] => "✅ Comparison complete! No duplicates were found."
  | _ => "✅ Comparison complete! Found " +:+ pretty (len result)
           +:+ " duplicate records."
  end.

(** * Properties *)

Example find_duplicates_frame_3 :
  (find_duplicates frame_3 frame_A7 "ID" "Key" 2).2
  = Ok (mkDataFrame ["ID"; "Name"; "Standard_ID"; "Key"; "Flat"]
          [[VStr " A7 "; VStr "x"; VStr "A7"; VStr "A7"; VInt 1];
           [VStr " A7 "; VStr "x"; VStr "A7"; VStr "A7"; VInt 3];
           [VStr "B2"; VStr "y"; VStr "B2"; VStr "B2"; VInt 2]]).
Proof. vm_compute. reflexivity. Qed.

(** ** Text normalization *)

Lemma rstrip_cons_nonspace c s :
  is_space c = false → rstrip (String c s) = String c (rstrip s).
Proof. intros Hc. simpl. rewrite Hc. by destruct (rstrip s). Qed.

Lemma lstrip_head s :
  lstrip s = EmptyString ∨ ∃ c s', lstrip s = String c s' ∧ is_space c = false.
Proof.
  induction s as [|c s IH]; simpl; [by left|].
  destruct (is_space c) eqn:Hc; [done|]. right. eauto.
Qed.

Lemma rstrip_idem s : rstrip (rstrip s) = rstrip s.
Proof.
  induction s as [|c s IH]; [done|]. simpl.
  destruct (rstrip s) as [|c' r] eqn:Hr.
  - destruct (is_space c) eqn:Hc; [done|]. simpl. by rewrite Hc.
  - change (rstrip (String c (String c' r)) = String c (String c' r)).
    simpl rstrip at 1. simpl in IH. by rewrite IH.
Qed.

Lemma strip_idem s : strip (strip s) = strip s.
Proof.
  unfold strip. destruct (lstrip_head s) as [->|(c & s' & -> & Hc)]; [done|].
  rewrite rstrip_cons_nonspace by done. simpl lstrip. rewrite Hc.
  rewrite rstrip_cons_nonspace by done. by rewrite rstrip_idem.
Qed.

Lemma str_strip_astype_str (s : list cell) :
  str_strip (astype_str s) = standard_id <$> s.
Proof. unfold str_strip, astype_str. rewrite <- list_fmap_compose. done. Qed.

Lemma standard_id_idem v : standard_id (standard_id v) = standard_id v.
Proof. unfold standard_id. simpl. by rewrite strip_idem. Qed.

(** ** Column positions *)

Lemma get_loc_Some c cols i :
  get_loc c cols = Some i → cols !! i = Some c ∧ ∀ j, (j < i)%nat → cols !! j ≠ Some c.
Proof.
  unfold get_loc. destruct (list_find _ cols) as [[j y]|] eqn:Hf; [|done].
  simpl. intros [= ->]. apply list_find_Some in Hf as (Hl & -> & Hlt).
  split; [done|]. intros j Hj Hc. by eapply Hlt.
Qed.

Lemma get_loc_None c cols : get_loc c cols = None ↔ c ∉ cols.
Proof.
  unfold get_loc. destruct (list_find _ cols) as [[j y]|] eqn:Hf; simpl.
  - apply list_find_Some in Hf as (Hl & -> & _).
    split; [done|]. intros []. by eapply list_elem_of_lookup_2.
  - split; [|done]. intros _ Hin.
    eapply list_find_None, Forall_forall in Hf; [|exact Hin]. done.
Qed.

Lemma get_loc_is_Some c cols : is_Some (get_loc c cols) ↔ c ∈ cols.
Proof.
  rewrite <- not_eq_None_Some, get_loc_None.
  split; [apply dec_stable | by intros ? ?].
Qed.

Lemma get_loc_lt c cols i : get_loc c cols = Some i → (i < length cols)%nat.
Proof. intros [H _]%get_loc_Some. by eapply lookup_lt_Some. Qed.

Lemma get_loc_app_new c cols :
  get_loc c cols = None → get_loc c (cols ++ [c]) = Some (length cols).
Proof.
  intros Hn%get_loc_None. unfold get_loc.
  assert (list_find (λ x, x = c) (cols ++ [c]) = Some (length cols, c)) as ->; [|done].
  apply list_find_Some. split_and!; [|done|].
  - by rewrite lookup_app_r, Nat.sub_diag.
  - intros j y Hy Hj ->. rewrite lookup_app_l in Hy by done.
    apply Hn. by eapply list_elem_of_lookup_2.
Qed.

(** ** One chunk *)

Lemma setitem_standard cols rs i :
  setitem (mkDataFrame cols rs) "Standard_ID" (standard_id <$> (at_loc i <$> rs))
  = mkDataFrame (chunk_columns cols) (chunk_row cols i <$> rs).
Proof.
  unfold setitem, chunk_columns, chunk_row. simpl.
  rewrite <- list_fmap_compose.
  destruct (get_loc "Standard_ID" cols); f_equal;
    by rewrite zip_with_fmap_r, zip_with_diag.
Qed.

Lemma get_loc_chunk_columns cols :
  get_loc "Standard_ID" (chunk_columns cols) = Some (standard_loc cols).
Proof.
  unfold chunk_columns, standard_loc.
  destruct (get_loc "Standard_ID" cols) eqn:H; [done|]. by apply get_loc_app_new.
Qed.

Lemma select_isin cols (rs : list (list cell)) j (S : gset cell) :
  select (mkDataFrame cols rs) (isin (at_loc j <$> rs) S)
  = mkDataFrame cols (filter (λ r, at_loc j r ∈ S) rs).
Proof.
  unfold select, isin. simpl. f_equal. rewrite <- list_fmap_compose.
  induction rs as [|r rs IH]; [done|].
  rewrite fmap_cons, filter_cons. cbn [zip zip_with omap list_omap]. rewrite IH.
  simpl. by destruct (decide (at_loc j r ∈ S));
    [rewrite bool_decide_eq_true_2|rewrite bool_decide_eq_false_2].
Qed.

Lemma lookup_set_eq ids :
  to_set (str_strip (astype_str (dropna ids))) = lookup_set ids.
Proof. unfold to_set, lookup_set. by rewrite str_strip_astype_str. Qed.

Lemma join_row_nonempty rrows li ri w f l : join_row rrows li ri w f l ≠ [].
Proof. unfold join_row. by destruct (filter _ rrows). Qed.

Lemma bind_join_row_nil rrows li ri w f (ls : list (list cell)) :
  ls ≫= join_row rrows li ri w f = [] ↔ ls = [].
Proof.
  split; [|by intros ->]. destruct ls as [|l ls]; [done|]. simpl.
  intros [H _]%app_eq_nil. by apply join_row_nonempty in H.
Qed.

Lemma enrich_rows_app cols i df2 id2 ri rs1 rs2 :
  enrich_rows cols i df2 id2 ri (rs1 ++ rs2)
  = enrich_rows cols i df2 id2 ri rs1 ++ enrich_rows cols i df2 id2 ri rs2.
Proof. unfold enrich_rows. by rewrite fmap_app, filter_app, bind_app. Qed.

Lemma enrich_rows_nil cols i df2 id2 ri : enrich_rows cols i df2 id2 ri [] = [].
Proof. done. Qed.

(** ** The script monad *)

Lemma lift_Ok_bind {A B} (a : A) (f : A → St B) : lift (Ok a) ≫= f = f a.
Proof. unfold lift. cbn. by destruct (f a). Qed.

Lemma lift_Raise_bind {A B} (e : exn) (f : A → St B) :
  lift (Raise e) ≫= f = ([], Raise e).
Proof. done. Qed.

Lemma mret_bind {A B} (a : A) (f : A → St B) : mret a ≫= f = f a.
Proof. cbn. by destruct (f a). Qed.

Lemma emit_bind {B} (e : st_event) (f : () → St B) :
  emit e ≫= f = logged [e] (f ()).
Proof. unfold emit, logged. cbn. by destruct (f ()). Qed.

Lemma bind_pair {A B} (log : list st_event) (a : A) (f : A → St B) :
  (log, Ok a) ≫= f = logged log (f a).
Proof. unfold logged. cbn. by destruct (f a). Qed.

Lemma logged_logged {A} (l1 l2 : list st_event) (m : St A) :
  logged l1 (logged l2 m) = logged (l1 ++ l2) m.
Proof. unfold logged. simpl. by rewrite app_assoc. Qed.

Lemma logged_pair {A} (l1 l2 : list st_event) (r : result A) :
  logged l1 (l2, r) = (l1 ++ l2, r).
Proof. done. Qed.

Lemma logged_mret {A} (l : list st_event) (a : A) : logged l (mret a) = (l, Ok a).
Proof. unfold logged. simpl. by rewrite app_nil_r. Qed.

Lemma getitem_Some df c i :
  get_loc c (columns df) = Some i → getitem df c = Ok (at_loc i <$> rows df).
Proof. unfold getitem. by intros ->. Qed.

Lemma getitem_None df c :
  get_loc c (columns df) = None → getitem df c = Raise (KeyError c).
Proof. unfold getitem. by intros ->. Qed.

Lemma chunk_frames_spec cols i df2 id2 ri rs :
  chunk_frames cols i df2 id2 ri rs ≫= rows = enrich_rows cols i df2 id2 ri rs
  ∧ Forall (λ d, columns d = result_columns cols df2 id2 ri ∧ rows d ≠ [])
           (chunk_frames cols i df2 id2 ri rs).
Proof.
  unfold chunk_frames. destruct (enrich_rows _ _ _ _ _ _) eqn:E; [done|].
  split; [simpl; by rewrite app_nil_r|]. by repeat constructor.
Qed.

Lemma range_positive total c :
  0 < c → range 0 total c = Ok (range_from (Z.to_nat (Z.abs (total - 0))) 0 total c).
Proof. intros Hc. unfold range. by rewrite bool_decide_eq_false_2 by lia. Qed.

Lemma concat_same_columns cols d ds :
  Forall (λ d', columns d' = cols ∧ rows d' ≠ []) (d :: ds) →
  concat (d :: ds) = Ok (mkDataFrame cols ((d :: ds) ≫= rows)).
Proof.
  intros Hall. unfold concat.
  pose proof (Forall_inv Hall) as [Hd _].
  rewrite bool_decide_eq_true_2; [by rewrite Hd|].
  eapply Forall_impl; [exact Hall|]. simpl. intros d' [-> _]. done.
Qed.

(** ** The join of a chunk *)

Lemma text_key_dtype s : text_key s = true → dtype s = "object".
Proof.
  unfold text_key, dtype. destruct s as [|v s]; [done|].
  destruct v; simpl; done.
Qed.

Lemma text_key_fmap j (rs : list (list cell)) :
  rs ≠ [] →
  Forall (λ r, ∃ s, at_loc j r = VStr s) rs →
  text_key (at_loc j <$> rs) = true.
Proof.
  intros Hne Hall. unfold text_key.
  rewrite bool_decide_eq_false_2 by (by destruct rs). simpl.
  induction Hall as [|r rs' [s Hs] _ IH]; [done|].
  simpl. rewrite Hs. simpl. destruct rs' as [|r' rs'']; [done|]. by apply IH.
Qed.

Lemma incompatible_keys_text lk rk :
  text_key lk = true → incompatible_keys lk rk = numeric_key rk.
Proof.
  intros Hl. unfold incompatible_keys. rewrite Hl. simpl.
  assert (numeric_key lk = false) as ->; [|by rewrite orb_false_r].
  unfold text_key, numeric_key in *. destruct lk as [|v lk]; [done|].
  destruct v; simpl in *; done.
Qed.

(** The join of the matched rows of a chunk with the second frame. *)
Lemma merge_matched cols df2 id2 ri matched :
  get_loc id2 (columns df2) = Some ri →
  matched ≠ [] →
  Forall (λ r, ∃ s, at_loc (standard_loc cols) r = VStr s) matched →
  merge (mkDataFrame (chunk_columns cols) matched) df2 "Standard_ID" id2
    ("_File1", "_File2")
  = match merge_check cols df2 id2 ri with
    | Some e => Raise e
    | None =>
        Ok (mkDataFrame (result_columns cols df2 id2 ri)
              (matched ≫= join_row (rows df2) (standard_loc cols) ri
                            (length (right_columns df2 id2 ri)) (right_cells id2 ri)))
    end.
Proof.
  intros Hri Hne Htext. unfold merge, merge_check. simpl columns. simpl rows.
  rewrite get_loc_chunk_columns, Hri.
  rewrite incompatible_keys_text by (by apply text_key_fmap).
  rewrite (text_key_dtype (at_loc _ <$> matched)) by (by apply text_key_fmap).
  fold (right_columns df2 id2 ri).
  destruct (numeric_key _); [done|]. simpl fst. simpl snd.
  unfold suffix_clashes. by destruct (_ ++ _).
Qed.

Lemma match_ok {A} (out : list (list cell)) (check : option exn) (X : exn → A) (Y : A) :
  check = None ∨ out = [] →
  match out, check with
  | _ :: _, Some e => X e
  | _, _ => Y
  end = Y.
Proof. intros [-> | ->]; [by destruct out|done]. Qed.

Lemma enrich_rows_app_nil cols i df2 id2 ri rs1 rs2 :
  enrich_rows cols i df2 id2 ri (rs1 ++ rs2) = [] →
  enrich_rows cols i df2 id2 ri rs1 = [] ∧ enrich_rows cols i df2 id2 ri rs2 = [].
Proof. rewrite enrich_rows_app. apply app_eq_nil. Qed.

(** The rows from [start] on: those of the chunk that starts there, and the
    rows from the next chunk on. *)
Lemma chunk_split {A} (l : list A) (start c : Z) :
  0 ≤ start → 0 < c →
  take (Z.to_nat (Z.min (start + c) (Z.of_nat (length l)) - start))
       (drop (Z.to_nat start) l)
    ++ drop (Z.to_nat (start + c)) l
  = drop (Z.to_nat start) l.
Proof.
  intros Hs Hc.
  destruct (Z.min_spec (start + c) (Z.of_nat (length l))) as [[? ->]|[? ->]].
  - replace (Z.to_nat (start + c - start)) with (Z.to_nat c) by lia.
    replace (Z.to_nat (start + c)) with (Z.to_nat start + Z.to_nat c)%nat by lia.
    rewrite <- drop_drop. apply take_drop.
  - rewrite (drop_ge _ (Z.to_nat (start + c))) by lia.
    rewrite app_nil_r. apply take_ge. rewrite length_drop. lia.
Qed.

(** The chunk-free matcher when no join fails, and when it fails. *)
Lemma match_result_ok df1 df2 id1 id2 i ri :
  get_loc id1 (columns df1) = Some i →
  get_loc id2 (columns df2) = Some ri →
  merge_check (columns df1) df2 id2 ri = None
  ∨ enrich_rows (columns df1) i df2 id2 ri (rows df1) = [] →
  match_result df1 df2 id1 id2
  = Ok (match_frame (columns df1) df2 id2 ri
          (enrich_rows (columns df1) i df2 id2 ri (rows df1))).
Proof.
  intros Hi Hri Hok. unfold match_result. rewrite Hri, Hi.
  revert Hok. destruct (rows df1) as [|r rs]; intros [Hok|Hok]; [done..| |].
  - rewrite Hok. by destruct (enrich_rows _ _ _ _ _ _).
  - by rewrite Hok.
Qed.

Lemma match_result_raise df1 df2 id1 id2 i ri e :
  get_loc id1 (columns df1) = Some i →
  get_loc id2 (columns df2) = Some ri →
  merge_check (columns df1) df2 id2 ri = Some e →
  enrich_rows (columns df1) i df2 id2 ri (rows df1) ≠ [] →
  match_result df1 df2 id1 id2 = Raise e.
Proof.
  intros Hi Hri He Hne. unfold match_result. rewrite Hri, Hi, He.
  revert Hne. destruct (rows df1) as [|r rs]; intros Hne; [done|].
  by destruct (enrich_rows _ _ _ _ _ _).
Qed.

(** ** The loop over the chunks

    Both identifier columns exist and the chunk size is positive. *)

Section chunks.
Context (df1 df2 : DataFrame) (id1 id2 : string) (c : Z) (i ri : nat).
Hypothesis Hc : 0 < c.
Hypothesis Hi : get_loc id1 (columns df1) = Some i.
Hypothesis Hri : get_loc id2 (columns df2) = Some ri.

(** One chunk: the join of its matched rows fails, before anything is
    reported, or its output rows are appended and the progress is
    reported. *)
Lemma find_duplicates_chunk_ok start dups :
  let end_ := Z.min (start + c) (len df1) in
  let rs := take (Z.to_nat (end_ - start)) (drop (Z.to_nat start) (rows df1)) in
  find_duplicates_chunk df1 df2 id1 id2 c (len df1)
    (lookup_set (at_loc ri <$> rows df2)) start dups
  = match enrich_rows (columns df1) i df2 id2 ri rs,
          merge_check (columns df1) df2 id2 ri with
    | _ :: _, Some e => ([], Raise e)
    | _, _ => (chunk_log (len df1) end_,
               Ok (dups ++ chunk_frames (columns df1) i df2 id2 ri rs))
    end.
Proof.
  intros end_ rs. unfold find_duplicates_chunk, chunk_log.
  fold end_. unfold iloc. fold rs.
  rewrite (getitem_Some (mkDataFrame (columns df1) rs) id1 i Hi), lift_Ok_bind.
  rewrite str_strip_astype_str, setitem_standard.
  rewrite (getitem_Some (mkDataFrame (chunk_columns (columns df1)) _) "Standard_ID" _
             (get_loc_chunk_columns _)), lift_Ok_bind.
  rewrite select_isin. cbn [rows columns].
  unfold chunk_frames, enrich_rows.
  set (matched := filter _ _).
  assert (Forall (λ r, ∃ s, at_loc (standard_loc (columns df1)) r = VStr s) matched)
    as Htext.
  { apply Forall_forall. intros r [Hin _]%list_elem_of_filter.
    apply elem_of_list_to_set, list_elem_of_fmap in Hin as (x & -> & _).
    unfold standard_id. eauto. }
  unfold empty. simpl columns. simpl rows.
  rewrite (bool_decide_eq_false_2 (chunk_columns _ = [])); last first.
  { unfold chunk_columns. destruct (get_loc "Standard_ID" _) eqn:E.
    - intros Hn. rewrite Hn in E. done.
    - by destruct (columns df1). }
  simpl orb. destruct matched as [|m ms] eqn:Hm.
  - rewrite bool_decide_eq_true_2 by done.
    rewrite mret_bind, !emit_bind, logged_logged, logged_mret.
    simpl. by rewrite app_nil_r.
  - rewrite bool_decide_eq_false_2 by done.
    rewrite (merge_matched _ _ _ ri) by done.
    match goal with
    | |- context [?l ≫= join_row ?rr ?li ?rj ?w ?f] =>
        destruct (l ≫= join_row rr li rj w f) as [|o os] eqn:Hb
    end.
    { apply bind_join_row_nil in Hb. done. }
    destruct (merge_check _ _ _ _) as [e|]; [done|].
    by rewrite lift_Ok_bind, mret_bind, !emit_bind, logged_logged, logged_mret.
Qed.

(** The loop from the chunk that starts at [start] on, when no join fails:
    it appends one frame per chunk with a match, and together they hold
    the output rows of the rows from [start] on, in order.  The fuel of
    [range] suffices. *)
Lemma for_each_chunks fuel :
  ∀ start dups,
    0 ≤ start → len df1 - start ≤ Z.of_nat fuel →
    merge_check (columns df1) df2 id2 ri = None
    ∨ enrich_rows (columns df1) i df2 id2 ri (drop (Z.to_nat start) (rows df1)) = [] →
    ∃ log new,
      for_each (range_from fuel start (len df1) c)
        (find_duplicates_chunk df1 df2 id1 id2 c (len df1)
           (lookup_set (at_loc ri <$> rows df2))) dups
      = (log, Ok (dups ++ new))
      ∧ Forall (λ e, is_error e = false) log
      ∧ new ≫= rows
        = enrich_rows (columns df1) i df2 id2 ri (drop (Z.to_nat start) (rows df1))
      ∧ Forall (λ d, columns d = result_columns (columns df1) df2 id2 ri ∧ rows d ≠ [])
               new.
Proof.
  assert (len df1 = Z.of_nat (length (rows df1))) as Hlen by done.
  induction fuel as [|fuel IH]; intros start dups Hs Hf Hok.
  - exists [], []. simpl. rewrite app_nil_r.
    rewrite drop_ge by lia. done.
  - simpl range_from. case_bool_decide as Hlt.
    + simpl for_each. rewrite find_duplicates_chunk_ok.
      set (end_ := Z.min _ _).
      set (rs := take _ _).
      assert (rs ++ drop (Z.to_nat (start + c)) (rows df1)
              = drop (Z.to_nat start) (rows df1)) as Hsplit.
      { subst rs end_. rewrite Hlen. by apply chunk_split. }
      rewrite match_ok; last first.
      { destruct Hok as [?|Hnil]; [by left|right].
        rewrite <- Hsplit in Hnil. by apply enrich_rows_app_nil in Hnil as [? _]. }
      destruct (IH (start + c) (dups ++ chunk_frames (columns df1) i df2 id2 ri rs))
        as (log & new & Heq & Hlog & Hrows & Hnew); [lia|lia| |].
      { destruct Hok as [?|Hnil]; [by left|right].
        rewrite <- Hsplit in Hnil. by apply enrich_rows_app_nil in Hnil as [_ ?]. }
      rewrite bind_pair, Heq, logged_pair.
      exists (chunk_log (len df1) end_ ++ log),
        (chunk_frames (columns df1) i df2 id2 ri rs ++ new).
      destruct (chunk_frames_spec (columns df1) i df2 id2 ri rs) as [Hr Hall].
      split_and!.
      * by rewrite app_assoc.
      * apply Forall_app. split; [by repeat constructor|done].
      * by rewrite bind_app, Hr, Hrows, <- enrich_rows_app, Hsplit.
      * by apply Forall_app.
    + exists [], []. simpl. rewrite app_nil_r.
      rewrite drop_ge by lia. done.
Qed.

(** The loop when the join fails: the first chunk with a match stops it
    with the exception of the join. *)
Lemma for_each_chunks_raise e fuel :
  merge_check (columns df1) df2 id2 ri = Some e →
  ∀ start dups,
    0 ≤ start → len df1 - start ≤ Z.of_nat fuel →
    enrich_rows (columns df1) i df2 id2 ri (drop (Z.to_nat start) (rows df1)) ≠ [] →
    ∃ log,
      for_each (range_from fuel start (len df1) c)
        (find_duplicates_chunk df1 df2 id1 id2 c (len df1)
           (lookup_set (at_loc ri <$> rows df2))) dups
      = (log, Raise e)
      ∧ Forall (λ ev, is_error ev = false) log.
Proof.
  intros He.
  assert (len df1 = Z.of_nat (length (rows df1))) as Hlen by done.
  induction fuel as [|fuel IH]; intros start dups Hs Hf Hne.
  - rewrite drop_ge in Hne by lia. done.
  - simpl range_from. case_bool_decide as Hlt; last first.
    { rewrite drop_ge in Hne by lia. done. }
    simpl for_each. rewrite find_duplicates_chunk_ok, He.
    set (end_ := Z.min _ _).
    set (rs := take _ _).
    assert (rs ++ drop (Z.to_nat (start + c)) (rows df1)
            = drop (Z.to_nat start) (rows df1)) as Hsplit.
    { subst rs end_. rewrite Hlen. by apply chunk_split. }
    destruct (enrich_rows (columns df1) i df2 id2 ri rs) as [|o os] eqn:Hrs.
    + destruct (IH (start + c) (dups ++ chunk_frames (columns df1) i df2 id2 ri rs))
        as (log & Heq & Hlog); [lia|lia| |].
      { rewrite <- Hsplit, enrich_rows_app, Hrs in Hne. done. }
      rewrite bind_pair, Heq, logged_pair.
      eexists. split; [done|].
      apply Forall_app. split; [by repeat constructor|done].
    + exists []. split; [done|constructor].
Qed.

(** The run as a whole when no join fails: the value is the one of the
    chunk-free matcher, the last event is the success message, and no
    event is an error. *)
Lemma find_duplicates_ok :
  merge_check (columns df1) df2 id2 ri = None
  ∨ enrich_rows (columns df1) i df2 id2 ri (rows df1) = [] →
  ∃ log text,
    find_duplicates df1 df2 id1 id2 c
    = (log ++ [st_success text], match_result df1 df2 id1 id2)
    ∧ Forall (λ e, is_error e = false) log
    ∧ (enrich_rows (columns df1) i df2 id2 ri (rows df1) = [] →
       text = "✅ Comparison complete! No duplicates were found.").
Proof.
  intros Hok. unfold find_duplicates.
  rewrite !emit_bind, (getitem_Some _ _ _ Hri), lift_Ok_bind, emit_bind.
  rewrite lookup_set_eq, range_positive, lift_Ok_bind by done.
  destruct (for_each_chunks (Z.to_nat (Z.abs (len df1 - 0))) 0 [])
    as (log & new & Heq & Hlog & Hrows & Hnew); [lia|unfold len; lia|done|].
  rewrite Heq, bind_pair, !emit_bind, !logged_logged.
  change (Z.to_nat 0) with 0%nat in Hrows. rewrite drop_0 in Hrows.
  rewrite (match_result_ok _ _ _ _ _ _ Hi Hri Hok).
  match goal with |- context [logged ?l (if _ then _ else _)] => set (log' := l) end.
  assert (Forall (λ e, is_error e = false) log') as Hlog'.
  { subst log'. repeat (apply Forall_app; split); by repeat constructor. }
  destruct new as [|d ds].
  - simpl in Hrows.
    rewrite bool_decide_eq_false_2 by (intros H; by apply H).
    rewrite logged_logged, logged_mret.
    exists log'. eexists. split; [|done]. by rewrite <- Hrows.
  - change ([] ++ d :: ds) with (d :: ds).
    rewrite bool_decide_eq_true_2 by done.
    rewrite (concat_same_columns _ _ _ Hnew), lift_Ok_bind, emit_bind.
    rewrite !logged_logged, logged_mret, Hrows.
    assert (enrich_rows (columns df1) i df2 id2 ri (rows df1) ≠ []) as Hne.
    { rewrite <- Hrows. simpl. pose proof (Forall_inv Hnew) as [_ Hd].
      intros [? _]%app_eq_nil. done. }
    exists log'. eexists. split; [f_equal|by split].
    by destruct (enrich_rows _ _ _ _ _ _).
Qed.

(** The run as a whole when the join fails and some row passes the filter:
    the exception of the join, after events none of which is an error. *)
Lemma find_duplicates_raise e :
  merge_check (columns df1) df2 id2 ri = Some e →
  enrich_rows (columns df1) i df2 id2 ri (rows df1) ≠ [] →
  ∃ log,
    find_duplicates df1 df2 id1 id2 c = (log, Raise e)
    ∧ Forall (λ ev, is_error ev = false) log.
Proof.
  intros He Hne. unfold find_duplicates.
  rewrite !emit_bind, (getitem_Some _ _ _ Hri), lift_Ok_bind, emit_bind.
  rewrite lookup_set_eq, range_positive, lift_Ok_bind by done.
  destruct (for_each_chunks_raise e (Z.to_nat (Z.abs (len df1 - 0))) He 0 [])
    as (log & Heq & Hlog); [lia|unfold len; lia|done|].
  rewrite Heq. rewrite !logged_logged. unfold logged. simpl.
  eexists. split; [done|]. by repeat constructor.
Qed.

End chunks.

(** ** The matcher as a whole *)

Lemma find_duplicates_no_rows df1 df2 id1 id2 c ri :
  c ≠ 0 →
  rows df1 = [] →
  get_loc id2 (columns df2) = Some ri →
  ∃ log,
    find_duplicates df1 df2 id1 id2 c
    = (log ++ [st_success "✅ Comparison complete! No duplicates were found."],
       Ok empty_frame)
    ∧ Forall (λ e, is_error e = false) log.
Proof.
  intros Hc Hrows Hri.
  assert (range 0 (len df1) c = Ok []) as Hrange.
  { unfold range, len. rewrite Hrows. by rewrite bool_decide_eq_false_2. }
  unfold find_duplicates.
  rewrite !emit_bind, (getitem_Some _ _ _ Hri), lift_Ok_bind, emit_bind.
  rewrite Hrange, lift_Ok_bind. simpl for_each. rewrite mret_bind, !emit_bind.
  rewrite bool_decide_eq_false_2 by (intros H; by apply H).
  rewrite !logged_logged, logged_mret.
  eexists. split; [done|]. by repeat constructor.
Qed.

Lemma find_duplicates_KeyError_2 df1 df2 id1 id2 c :
  get_loc id2 (columns df2) = None →
  (find_duplicates df1 df2 id1 id2 c).2 = Raise (KeyError id2).
Proof.
  intros Hri. unfold find_duplicates.
  by rewrite !emit_bind, (getitem_None _ _ Hri), lift_Raise_bind.
Qed.

Lemma find_duplicates_chunk_KeyError df1 df2 id1 id2 c total ids start dups :
  get_loc id1 (columns df1) = None →
  find_duplicates_chunk df1 df2 id1 id2 c total ids start dups
  = ([], Raise (KeyError id1)).
Proof.
  intros Hi. unfold find_duplicates_chunk, iloc.
  by rewrite (getitem_None (mkDataFrame (columns df1) _) id1 Hi), lift_Raise_bind.
Qed.

Lemma find_duplicates_KeyError_1 df1 df2 id1 id2 c ri :
  0 < c →
  rows df1 ≠ [] →
  get_loc id1 (columns df1) = None →
  get_loc id2 (columns df2) = Some ri →
  (find_duplicates df1 df2 id1 id2 c).2 = Raise (KeyError id1).
Proof.
  intros Hc Hrows Hi Hri. unfold find_duplicates.
  rewrite !emit_bind, (getitem_Some _ _ _ Hri), lift_Ok_bind, emit_bind.
  rewrite range_positive, lift_Ok_bind by done.
  assert (0 < len df1) as Hlen.
  { unfold len. destruct (rows df1); [done|]. simpl length. lia. }
  destruct (Z.to_nat (Z.abs (len df1 - 0))) as [|fuel] eqn:Hfuel; [lia|].
  simpl range_from. rewrite bool_decide_eq_true_2 by lia. simpl for_each.
  by rewrite (find_duplicates_chunk_KeyError _ _ _ _ _ _ _ _ _ Hi).
Qed.

(** For a positive chunk size the value of [find_duplicates], or the
    exception it raises, is the one of the chunk-free matcher. *)
Lemma find_duplicates_result df1 df2 id1 id2 c :
  0 < c → (find_duplicates df1 df2 id1 id2 c).2 = match_result df1 df2 id1 id2.
Proof.
  intros Hc.
  destruct (get_loc id2 (columns df2)) as [ri|] eqn:Hri; last first.
  { unfold match_result. rewrite Hri. by apply find_duplicates_KeyError_2. }
  destruct (get_loc id1 (columns df1)) as [i|] eqn:Hi.
  - destruct (merge_check (columns df1) df2 id2 ri) as [e|] eqn:He;
      [destruct (enrich_rows (columns df1) i df2 id2 ri (rows df1)) as [|o os] eqn:Hen|].
    + by destruct (find_duplicates_ok df1 df2 id1 id2 c i ri Hc Hi Hri)
        as (log & text & -> & _); [by right|].
    + destruct (find_duplicates_raise df1 df2 id1 id2 c i ri Hc Hi Hri e He)
        as (log & -> & _); [by rewrite Hen|].
      symmetry. apply (match_result_raise _ _ _ _ i ri); [done..|by rewrite Hen].
    + by destruct (find_duplicates_ok df1 df2 id1 id2 c i ri Hc Hi Hri)
        as (log & text & -> & _); [by left|].
  - unfold match_result. rewrite Hri, Hi.
    destruct (rows df1) as [|r rs] eqn:Hrows.
    + destruct (find_duplicates_no_rows df1 df2 id1 id2 c ri) as (log & -> & _);
        [lia|done|done|done].
    + eapply find_duplicates_KeyError_1; [done| |done|done]. by rewrite Hrows.
Qed.

(** ** Chunking *)

(** C1: for any two (positive) chunk sizes the matcher returns the same
    Match Result, same rows in the same order, or raises the same
    exception, whatever the two collections and identifier columns are. *)
Theorem chunk_size_invariance df1 df2 id1 id2 c1 c2 :
  0 < c1 → 0 < c2 →
  (find_duplicates df1 df2 id1 id2 c1).2 = (find_duplicates df1 df2 id1 id2 c2).2.
Proof. intros H1 H2. by rewrite !find_duplicates_result. Qed.

Lemma chunk_size_invariance_witness :
  0 < 1 ∧ 0 < 500
  ∧ (find_duplicates frame_3 frame_A7 "ID" "Key" 1).2
    = (find_duplicates frame_3 frame_A7 "ID" "Key" 500).2.
Proof. split; [lia|]. split; [lia|]. apply chunk_size_invariance; lia. Defined.

(** What [range] does with the other chunk sizes: zero stops the matcher
    with Python's [ValueError], a negative size gives no chunk at all. *)
Lemma find_duplicates_chunk_size_zero df1 df2 id1 id2 :
  id2 ∈ columns df2 →
  (find_duplicates df1 df2 id1 id2 0).2
  = Raise (ValueError "range() arg 3 must not be zero").
Proof.
  intros [ri Hri]%get_loc_is_Some. unfold find_duplicates.
  rewrite !emit_bind, (getitem_Some _ _ _ Hri), lift_Ok_bind, emit_bind.
  unfold range. by rewrite bool_decide_eq_true_2, lift_Raise_bind.
Qed.

Lemma find_duplicates_chunk_size_negative df1 df2 id1 id2 c :
  c < 0 → id2 ∈ columns df2 →
  (find_duplicates df1 df2 id1 id2 c).2 = Ok empty_frame.
Proof.
  intros Hc [ri Hri]%get_loc_is_Some. unfold find_duplicates.
  rewrite !emit_bind, (getitem_Some _ _ _ Hri), lift_Ok_bind, emit_bind.
  assert (range 0 (len df1) c = Ok []) as ->.
  { unfold range. rewrite bool_decide_eq_false_2 by lia. f_equal.
    destruct (Z.to_nat _); [done|]. simpl.
    rewrite bool_decide_eq_false_2; [done|]. unfold len. lia. }
  rewrite lift_Ok_bind. simpl for_each. rewrite mret_bind, !emit_bind.
  by rewrite bool_decide_eq_false_2 by (intros H; by apply H).
Qed.

(** ** Row by row *)

Lemma match_result_Some cols rs df2 id1 id2 i ri :
  get_loc id1 cols = Some i →
  get_loc id2 (columns df2) = Some ri →
  merge_check cols df2 id2 ri = None ∨ enrich_rows cols i df2 id2 ri rs = [] →
  match_result (mkDataFrame cols rs) df2 id1 id2
  = Ok (match_frame cols df2 id2 ri (enrich_rows cols i df2 id2 ri rs)).
Proof. intros Hi Hri Hok. by apply (match_result_ok (mkDataFrame cols rs)). Qed.

Lemma match_result_cases cols rs df2 id1 id2 i ri :
  get_loc id1 cols = Some i →
  get_loc id2 (columns df2) = Some ri →
  match_result (mkDataFrame cols rs) df2 id1 id2
  = match enrich_rows cols i df2 id2 ri rs, merge_check cols df2 id2 ri with
    | _ :: _, Some e => Raise e
    | out, _ => Ok (match_frame cols df2 id2 ri out)
    end.
Proof.
  intros Hi Hri. unfold match_result. simpl. rewrite Hi, Hri. by destruct rs.
Qed.

(** A run that returns: no join has failed, and the result is the frame of
    the output rows. *)
Lemma find_duplicates_Ok df1 df2 id1 id2 c i ri out :
  0 < c →
  get_loc id1 (columns df1) = Some i →
  get_loc id2 (columns df2) = Some ri →
  (find_duplicates df1 df2 id1 id2 c).2 = Ok out →
  (merge_check (columns df1) df2 id2 ri = None
   ∨ enrich_rows (columns df1) i df2 id2 ri (rows df1) = [])
  ∧ out = match_frame (columns df1) df2 id2 ri
            (enrich_rows (columns df1) i df2 id2 ri (rows df1)).
Proof.
  intros Hc Hi Hri Hout. rewrite find_duplicates_result in Hout by done.
  destruct df1 as [cols rs]. simpl in *.
  rewrite (match_result_cases _ _ _ _ _ _ _ Hi Hri) in Hout.
  destruct (enrich_rows cols i df2 id2 ri rs) as [|o os].
  - injection Hout as <-. split; [by right|done].
  - destruct (merge_check cols df2 id2 ri); [done|].
    injection Hout as <-. split; [by left|done].
Qed.

Lemma rows_match_frame cols df2 id2 ri out :
  rows (match_frame cols df2 id2 ri out) = out.
Proof. by destruct out. Qed.

Lemma row_get_Some cols c i r : get_loc c cols = Some i → row_get cols c r = at_loc i r.
Proof. unfold row_get. by intros ->. Qed.

Lemma column_Some df c i :
  get_loc c (columns df) = Some i → column df c = at_loc i <$> rows df.
Proof. unfold column, row_get. by intros ->. Qed.

Lemma standard_cell cols i r :
  rectangular cols r →
  at_loc (standard_loc cols) (chunk_row cols i r) = standard_id (at_loc i r).
Proof.
  unfold rectangular, standard_loc, chunk_row, at_loc. intros Hlen.
  destruct (get_loc "Standard_ID" cols) as [j|] eqn:Hj.
  - apply get_loc_lt in Hj. by rewrite list_lookup_insert_eq by lia.
  - rewrite lookup_app_r by lia. by rewrite Hlen, Nat.sub_diag.
Qed.

Lemma enrich_rows_cons cols i df2 id2 ri r rs :
  enrich_rows cols i df2 id2 ri (r :: rs)
  = enrich_rows cols i df2 id2 ri [r] ++ enrich_rows cols i df2 id2 ri rs.
Proof. apply (enrich_rows_app _ _ _ _ _ [r]). Qed.

Lemma enrich_rows_out cols i df2 id2 ri r :
  rectangular cols r →
  standard_id (at_loc i r) ∉ lookup_set (at_loc ri <$> rows df2) →
  enrich_rows cols i df2 id2 ri [r] = [].
Proof.
  intros Hr Hout. unfold enrich_rows. simpl fmap.
  rewrite filter_cons, filter_nil, decide_False; [done|]. by rewrite standard_cell.
Qed.

Lemma enrich_rows_in cols i df2 id2 ri r :
  rectangular cols r →
  standard_id (at_loc i r) ∈ lookup_set (at_loc ri <$> rows df2) →
  enrich_rows cols i df2 id2 ri [r]
  = join_row (rows df2) (standard_loc cols) ri
      (length (right_columns df2 id2 ri)) (right_cells id2 ri) (chunk_row cols i r).
Proof.
  intros Hr Hin. unfold enrich_rows. simpl fmap.
  rewrite filter_cons, filter_nil, decide_True by (by rewrite standard_cell).
  simpl. by rewrite app_nil_r.
Qed.

Lemma elem_of_lookup_set v ids :
  v ∈ lookup_set ids ↔ ∃ x, x ∈ ids ∧ x ≠ VMissing ∧ v = standard_id x.
Proof.
  unfold lookup_set, dropna. rewrite elem_of_list_to_set, list_elem_of_fmap.
  split.
  - intros (x & -> & [Hx Hin]%list_elem_of_filter). eauto.
  - intros (x & Hin & Hx & ->). exists x. split; [done|].
    by apply list_elem_of_filter.
Qed.

(** ** Rows without a match *)



(** The three records of the example with and without the record A9: the
    same three output rows. *)
Example without_A9 :
  (find_duplicates
     (mkDataFrame ["ID"; "Name"]
        [[VStr " A7 "; VStr "x"]; [VStr "A9"; VStr "x"]; [VStr "B2"; VStr "y"]])
     frame_A7 "ID" "Key" 2).2
  = Ok (mkDataFrame ["ID"; "Name"; "Standard_ID"; "Key"; "Flat"]
          [[VStr " A7 "; VStr "x"; VStr "A7"; VStr "A7"; VInt 1];
           [VStr " A7 "; VStr "x"; VStr "A7"; VStr "A7"; VInt 3];
           [VStr "B2"; VStr "y"; VStr "B2"; VStr "B2"; VInt 2]]).
Proof. vm_compute. reflexivity. Qed.

(** ** Fan-out *)

Lemma join_row_matches rrows li ri w f l ms :
  filter (λ m, at_loc ri m = at_loc li l) rrows = ms → ms ≠ [] →
  join_row rrows li ri w f l = (λ m, l ++ f m) <$> ms.
Proof. unfold join_row. intros ->. by destruct ms. Qed.

Lemma chunk_row_new cols i r :
  "Standard_ID" ∉ cols → chunk_row cols i r = r ++ [standard_id (at_loc i r)].
Proof. intros H%get_loc_None. unfold chunk_row. by rewrite H. Qed.

Lemma right_cells_other id2 ri m : id2 ≠ "Standard_ID" → right_cells id2 ri m = m.
Proof. intros H. unfold right_cells. by rewrite bool_decide_eq_false_2. Qed.

Lemma enrich_rows_standardized cols i df2 id2 ri r :
  rectangular cols r →
  Forall (λ m, ∃ v, at_loc ri m = standard_id v) (rows df2) →
  enrich_rows cols i df2 id2 ri [r]
  = (λ m, chunk_row cols i r ++ right_cells id2 ri m)
      <$> filter (λ m, at_loc ri m = standard_id (at_loc i r)) (rows df2).
Proof.
  intros Hr Hstd.
  destruct (filter (λ m, at_loc ri m = standard_id (at_loc i r)) (rows df2))
    as [|m0 ms] eqn:Hms.
  - apply enrich_rows_out; [done|].
    intros (x & (m & -> & Hm)%list_elem_of_fmap & _ & Hx)%elem_of_lookup_set.
    assert (m ∈ filter (λ m, at_loc ri m = standard_id (at_loc i r)) (rows df2)) as Hin.
    { apply list_elem_of_filter. split; [|done].
      eapply Forall_forall in Hstd as [v Hv]; [|exact Hm].
      by rewrite Hx, Hv, standard_id_idem. }
    rewrite Hms in Hin. by apply elem_of_nil in Hin.
  - assert (m0 ∈ filter (λ m, at_loc ri m = standard_id (at_loc i r)) (rows df2))
      as [Hk Hin]%list_elem_of_filter by (rewrite Hms; by left).
    rewrite enrich_rows_in; [|done|].
    + apply join_row_matches; [|done]. by rewrite standard_cell.
    + apply elem_of_lookup_set. exists (at_loc ri m0). split_and!.
      * by apply list_elem_of_fmap_2.
      * by rewrite Hk.
      * by rewrite Hk, standard_id_idem.
Qed.

Lemma standardized_at_loc df id i :
  get_loc id (columns df) = Some i →
  standardized df id → Forall (λ m, ∃ v, at_loc i m = standard_id v) (rows df).
Proof.
  intros Hi Hstd. eapply Forall_impl; [exact Hstd|]. simpl. intros m [v Hv].
  exists v. by rewrite <- (row_get_Some _ _ _ _ Hi).
Qed.

Lemma numeric_key_standardized df id i :
  get_loc id (columns df) = Some i →
  standardized df id → numeric_key (at_loc i <$> rows df) = false.
Proof.
  intros Hi Hstd%(standardized_at_loc _ _ _ Hi). unfold numeric_key.
  destruct Hstd as [|m ms [v Hv] _]; [done|]. simpl. by rewrite Hv.
Qed.

(** The join goes through when the key of the second frame is text and the
    suffixes make no label a duplicate. *)
Lemma merge_check_None cols df2 id2 ri :
  "Standard_ID" ∉ cols → id2 ≠ "Standard_ID" →
  suffix_clashes (cols ++ ["Standard_ID"]) (columns df2) = [] →
  numeric_key (at_loc ri <$> rows df2) = false →
  merge_check cols df2 id2 ri = None.
Proof.
  intros Hnew%get_loc_None Hid2 Hclash Hkey. unfold merge_check, chunk_columns, right_columns.
  rewrite Hkey, Hnew, bool_decide_eq_false_2 by (by intros <-). by rewrite Hclash.
Qed.




(** The identifier appearing in two records of the second collection and
    in one of the first: two output rows. *)
Example fan_out_A7 :
  (find_duplicates (mkDataFrame ["ID"; "Name"] [[VStr " A7 "; VStr "x"]])
     frame_A7 "ID" "Key" 500).2
  = Ok (mkDataFrame ["ID"; "Name"; "Standard_ID"; "Key"; "Flat"]
          [[VStr " A7 "; VStr "x"; VStr "A7"; VStr "A7"; VInt 1];
           [VStr " A7 "; VStr "x"; VStr "A7"; VStr "A7"; VInt 3]]).
Proof. rewrite find_duplicates_result by lia. reflexivity. Qed.

(** ** No match at all *)

Lemma enrich_rows_all_out cols i df2 id2 ri rs :
  Forall (λ r, rectangular cols r
               ∧ standard_id (at_loc i r) ∉ lookup_set (at_loc ri <$> rows df2)) rs →
  enrich_rows cols i df2 id2 ri rs = [].
Proof.
  induction 1 as [|r rs [Hr Hout] _ IH]; [done|].
  by rewrite enrich_rows_cons, enrich_rows_out, IH.
Qed.

(** C8: when no row of the first collection matches, and so when it has no
    row at all, the matcher returns the empty Match Result; the last thing
    it reports is the success message, and it reports no error before. *)
Theorem zero_matches_success df1 df2 id1 id2 c :
  0 < c →
  id2 ∈ columns df2 →
  rows df1 = [] ∨ id1 ∈ columns df1 →
  Forall (λ r, rectangular (columns df1) r
               ∧ standard_id (row_get (columns df1) id1 r)
                   ∉ lookup_set (column df2 id2)) (rows df1) →
  ∃ log,
    find_duplicates df1 df2 id1 id2 c
    = (log ++ [st_success "✅ Comparison complete! No duplicates were found."],
       Ok empty_frame)
    ∧ Forall (λ e, is_error e = false) log.
Proof.
  intros Hc [ri Hri]%get_loc_is_Some Hid1 Hall.
  destruct (get_loc id1 (columns df1)) as [i|] eqn:Hi.
  - assert (enrich_rows (columns df1) i df2 id2 ri (rows df1) = []) as Hnone.
    { apply enrich_rows_all_out. eapply Forall_impl; [exact Hall|].
      simpl. intros r [Hr Hout].
      by rewrite (row_get_Some _ _ _ _ Hi), (column_Some _ _ _ Hri) in Hout. }
    destruct (find_duplicates_ok df1 df2 id1 id2 c i ri Hc Hi Hri (or_intror Hnone))
      as (log & text & Heq & Hlog & Htext).
    exists log. split; [|done]. rewrite Heq, (Htext Hnone). f_equal.
    by rewrite (match_result_ok _ _ _ _ _ _ Hi Hri (or_intror Hnone)), Hnone.
  - destruct Hid1 as [Hrows|Hin%get_loc_is_Some].
    + apply (find_duplicates_no_rows _ _ _ _ _ ri); [lia|done|done].
    + rewrite Hi in Hin. by destruct Hin.
Qed.

Lemma zero_matches_success_witness :
  let df1 := mkDataFrame ["ID"; "Name"] [[VStr "A9"; VStr "x"]; [VMissing; VStr "y"]] in
  0 < 500 ∧ "Key" ∈ columns frame_A7
  ∧ (rows df1 = [] ∨ "ID" ∈ columns df1)
  ∧ Forall (λ r, rectangular (columns df1) r
                 ∧ standard_id (row_get (columns df1) "ID" r)
                     ∉ lookup_set (column frame_A7 "Key")) (rows df1)
  ∧ ∃ log,
      find_duplicates df1 frame_A7 "ID" "Key" 500
      = (log ++ [st_success "✅ Comparison complete! No duplicates were found."],
         Ok empty_frame)
      ∧ Forall (λ e, is_error e = false) log.
Proof.
  intros df1.
  assert (0 < 500) as H1 by lia.
  assert ("Key" ∈ columns frame_A7) as H2 by compute_done.
  assert (rows df1 = [] ∨ "ID" ∈ columns df1) as H3 by (right; compute_done).
  assert (Forall (λ r, rectangular (columns df1) r
                       ∧ standard_id (row_get (columns df1) "ID" r)
                           ∉ lookup_set (column frame_A7 "Key")) (rows df1)) as H4.
  { repeat constructor; compute_done. }
  repeat (split; [assumption|]).
  exact (zero_matches_success df1 frame_A7 "ID" "Key" 500 H1 H2 H3 H4).
Defined.

(** The first collection with no row at all, [pd.DataFrame()]. *)
Example zero_rows :
  find_duplicates empty_frame frame_A7 "ID" "Key" 500
  = ([st_progress 0 1; st_placeholder;
      st_info "Created a lookup set with 2 unique IDs from the second file.";
      st_clear progress_bar; st_clear status_text;
      st_success "✅ Comparison complete! No duplicates were found."],
     Ok empty_frame).
Proof. vm_compute. reflexivity. Qed.

(** ** The Standard_ID column *)

Lemma suffix_File1_not_Standard_ID c : c +:+ "_File1" ≠ "Standard_ID".
Proof.
  intros H.
  do 12 (destruct c as [|? c]; [simpl in H; discriminate H|]).
  simpl in H. discriminate H.
Qed.

Lemma elem_of_enrich_rows cols i df2 id2 ri rs o :
  o ∈ enrich_rows cols i df2 id2 ri rs →
  ∃ r tail, r ∈ rs ∧ o = chunk_row cols i r ++ tail.
Proof.
  unfold enrich_rows. intros (l & Ho & [_ Hl]%list_elem_of_filter)%list_elem_of_bind.
  apply list_elem_of_fmap in Hl as (r & -> & Hr).
  exists r. unfold join_row in Ho. destruct (filter _ (rows df2)).
  - apply list_elem_of_singleton in Ho. eauto.
  - apply list_elem_of_fmap in Ho as (m & -> & _). eauto.
Qed.

Lemma get_loc_result_columns cols df2 id2 ri :
  "Standard_ID" ∉ cols → "Standard_ID" ∉ columns df2 → id2 ∈ columns df2 →
  get_loc "Standard_ID" (result_columns cols df2 id2 ri) = Some (length cols).
Proof.
  intros H1 H2 Hid2.
  assert (right_columns df2 id2 ri = columns df2) as Hright.
  { unfold right_columns. rewrite bool_decide_eq_false_2; [done|]. by intros <-. }
  unfold result_columns, chunk_columns. rewrite Hright.
  rewrite (proj2 (get_loc_None _ _) H1), fmap_app. simpl.
  unfold get_loc.
  assert (suffixed (columns df2) "_File1" "Standard_ID" = "Standard_ID") as ->.
  { unfold suffixed. by rewrite bool_decide_eq_false_2. }
  match goal with |- fst <$> ?f = _ =>
    assert (f = Some (length cols, "Standard_ID")) as ->; [|done] end.
  apply list_find_Some.
  assert (length (suffixed (columns df2) "_File1" <$> cols) = length cols) as Hlen
    by apply length_fmap.
  rewrite <- app_assoc. split_and!; [|done|].
  - rewrite lookup_app_r by lia. by rewrite Hlen, Nat.sub_diag.
  - intros j y Hy Hj ->. rewrite lookup_app_l in Hy by lia.
    apply list_lookup_fmap_Some_1 in Hy as (c & Heq & Hc).
    unfold suffixed in Heq. case_bool_decide.
    + symmetry in Heq. by apply suffix_File1_not_Standard_ID in Heq.
    + subst c. apply H1. by eapply list_elem_of_lookup_2.
Qed.

(** C10: when neither schema has a column named Standard_ID, every row of
    the Match Result is a row of the first collection followed by a cell in
    the column Standard_ID, which holds that row's normalized identifier;
    the column is in the header line of the exported report. *)
Theorem standard_id_column df1 df2 id1 id2 c out o :
  0 < c →
  "Standard_ID" ∉ columns df1 → "Standard_ID" ∉ columns df2 →
  Forall (rectangular (columns df1)) (rows df1) →
  (find_duplicates df1 df2 id1 id2 c).2 = Ok out →
  o ∈ rows out →
  columns out !! length (columns df1) = Some "Standard_ID"
  ∧ "Standard_ID" ∈ hd [] (to_csv out)
  ∧ ∃ r, r ∈ rows df1
      ∧ take (length (columns df1)) o = r
      ∧ row_get (columns out) "Standard_ID" o
        = standard_id (row_get (columns df1) id1 r).
Proof.
  intros Hc H1 H2 Hrect Hout Ho. rewrite find_duplicates_result in Hout by done.
  unfold match_result in Hout.
  destruct (get_loc id2 (columns df2)) as [ri|] eqn:Hri; [|done].
  destruct (rows df1) as [|r0 rs0] eqn:Hrows.
  { injection Hout as <-. by apply elem_of_nil in Ho. }
  destruct (get_loc id1 (columns df1)) as [i|] eqn:Hi; [|done].
  destruct (enrich_rows _ _ _ _ _ _) as [|o0 os] eqn:Hen.
  { injection Hout as <-. by apply elem_of_nil in Ho. }
  destruct (merge_check _ _ _ _); [done|].
  injection Hout as <-. simpl in *. rewrite <- Hen in Ho.
  assert (id2 ∈ columns df2) as Hid2 by (apply get_loc_is_Some; eauto).
  pose proof (get_loc_result_columns _ _ _ ri H1 H2 Hid2) as Hloc.
  apply elem_of_enrich_rows in Ho as (r & tail & Hr & ->).
  assert (rectangular (columns df1) r) as Hlen.
  { eapply Forall_forall in Hrect; [exact Hrect|done]. }
  unfold rectangular in Hlen.
  split_and!.
  - by apply get_loc_Some in Hloc as [? _].
  - apply get_loc_Some in Hloc as [? _]. by eapply list_elem_of_lookup_2.
  - exists r. rewrite chunk_row_new by done. split_and!; [done| |].
    + by rewrite <- app_assoc, take_app_length'.
    + rewrite (row_get_Some _ _ _ _ Hloc), (row_get_Some _ _ _ _ Hi).
      unfold at_loc at 1.
      rewrite <- app_assoc, lookup_app_r by lia. by rewrite Hlen, Nat.sub_diag.
Qed.

Lemma standard_id_column_witness :
  let out := mkDataFrame ["ID"; "Name"; "Standard_ID"; "Key"; "Flat"]
               [[VStr " A7 "; VStr "x"; VStr "A7"; VStr "A7"; VInt 1];
                [VStr " A7 "; VStr "x"; VStr "A7"; VStr "A7"; VInt 3];
                [VStr "B2"; VStr "y"; VStr "B2"; VStr "B2"; VInt 2]] in
  let o := [VStr " A7 "; VStr "x"; VStr "A7"; VStr "A7"; VInt 3] in
  0 < 2
  ∧ ("Standard_ID" ∉ columns frame_3) ∧ ("Standard_ID" ∉ columns frame_A7)
  ∧ Forall (rectangular (columns frame_3)) (rows frame_3)
  ∧ (find_duplicates frame_3 frame_A7 "ID" "Key" 2).2 = Ok out
  ∧ o ∈ rows out
  ∧ columns out !! length (columns frame_3) = Some "Standard_ID"
  ∧ "Standard_ID" ∈ hd [] (to_csv out)
  ∧ ∃ r, r ∈ rows frame_3
      ∧ take (length (columns frame_3)) o = r
      ∧ row_get (columns out) "Standard_ID" o
        = standard_id (row_get (columns frame_3) "ID" r).
Proof.
  intros out o.
  assert (0 < 2) as H1 by lia.
  assert ("Standard_ID" ∉ columns frame_3) as H2 by compute_done.
  assert ("Standard_ID" ∉ columns frame_A7) as H3 by compute_done.
  assert (Forall (rectangular (columns frame_3)) (rows frame_3)) as H4
    by (repeat constructor).
  assert ((find_duplicates frame_3 frame_A7 "ID" "Key" 2).2 = Ok out) as H5
    by (vm_compute; reflexivity).
  assert (o ∈ rows out) as H6 by compute_done.
  repeat (split; [assumption|]).
  exact (standard_id_column frame_3 frame_A7 "ID" "Key" 2 out o H1 H2 H3 H4 H5 H6).
Defined.

(** ** A second collection that did not go through the loader *)

(** C4, on the code: the lookup set is built from the re-normalized
    identifiers of the second collection, the join compares with the raw
    ones.  A first record with identifier A1 passes the filter for a second
    record stored as A1 between blanks, and then finds no join partner: its
    output row carries missing cells where, with the second collection
    normalized beforehand, it carries the second record's fields. *)
Theorem unnormalized_second_collection_not_enriched :
  standardize frame_A1_padded "Key" = frame_A1_trimmed
  ∧ (find_duplicates frame_A1 frame_A1_padded "ID" "Key" 500).2
    = Ok (mkDataFrame ["ID"; "Name"; "Standard_ID"; "Key"; "Flat"]
            [[VStr "A1"; VStr "x"; VStr "A1"; VMissing; VMissing]])
  ∧ (find_duplicates frame_A1 frame_A1_trimmed "ID" "Key" 500).2
    = Ok (mkDataFrame ["ID"; "Name"; "Standard_ID"; "Key"; "Flat"]
            [[VStr "A1"; VStr "x"; VStr "A1"; VStr "A1"; VInt 7]])
  ∧ (find_duplicates frame_A1 frame_A1_padded "ID" "Key" 500).2
    ≠ (find_duplicates frame_A1 frame_A1_trimmed "ID" "Key" 500).2.
Proof.
  split; [reflexivity|]. rewrite !find_duplicates_result by lia.
  split; [reflexivity|]. split; [reflexivity|]. vm_compute. discriminate.
Qed.

(** ** The loader *)

Lemma getitem_column df c : c ∈ columns df → getitem df c = Ok (column df c).
Proof.
  intros [i Hi]%get_loc_is_Some. unfold getitem. rewrite Hi.
  by rewrite (column_Some _ _ _ Hi).
Qed.

Section loader.
Context (file : UploadedFile) (xls : ExcelFile) (id : string) (header : nat).

Lemma load_sheet_ok sheet_name all_dfs :
  (sheet_name ∈ sheet_names xls → ∃ df, read_excel xls sheet_name header = Ok df) →
  ∃ log,
    load_sheet file xls id header sheet_name all_dfs
    = (log, Ok (all_dfs ++ retained_sheets xls [sheet_name] id header))
    ∧ Forall (λ e, is_error e = false) log.
Proof.
  intros Hread. unfold load_sheet, retained_sheets. simpl omap.
  case_bool_decide as Hin.
  - destruct (Hread Hin) as [df Hdf]. rewrite Hdf, lift_Ok_bind.
    case_bool_decide as Hid.
    + rewrite (getitem_column _ _ Hid), lift_Ok_bind, emit_bind, logged_mret.
      eexists. split; [done|]. by repeat constructor.
    + rewrite emit_bind, logged_mret, app_nil_r.
      eexists. split; [done|]. by repeat constructor.
  - rewrite emit_bind, logged_mret, app_nil_r.
    eexists. split; [done|]. by repeat constructor.
Qed.

Lemma retained_sheets_cons n ns :
  retained_sheets xls (n :: ns) id header
  = retained_sheets xls [n] id header ++ retained_sheets xls ns id header.
Proof.
  unfold retained_sheets. simpl.
  by destruct (if bool_decide _ then _ else _).
Qed.

(** The loop over the requested names appends the retained sheets, in the
    order of the names, and reports no error. *)
Lemma for_each_load_sheet names :
  readable xls names header →
  ∀ all_dfs,
    ∃ log,
      for_each names (load_sheet file xls id header) all_dfs
      = (log, Ok (all_dfs ++ retained_sheets xls names id header))
      ∧ Forall (λ e, is_error e = false) log.
Proof.
  induction 1 as [|n ns Hn _ IH]; intros all_dfs.
  - exists []. simpl. by rewrite app_nil_r.
  - simpl for_each.
    destruct (load_sheet_ok n all_dfs Hn) as (log1 & -> & Hlog1).
    destruct (IH (all_dfs ++ retained_sheets xls [n] id header))
      as (log2 & Heq & Hlog2).
    rewrite bind_pair, Heq, logged_pair.
    exists (log1 ++ log2). split.
    + by rewrite (retained_sheets_cons n ns), app_assoc.
    + apply Forall_app. by split.
Qed.

End loader.

Lemma elem_of_union_labels c labels : c ∈ union_labels labels ↔ c ∈ labels.
Proof.
  unfold union_labels.
  assert (∀ acc, c ∈ foldl (λ acc c, if bool_decide (c ∈ acc) then acc else acc ++ [c])
                        acc labels ↔ c ∈ acc ∨ c ∈ labels) as H.
  { induction labels as [|x l IH]; intros acc; simpl.
    - rewrite elem_of_nil. tauto.
    - rewrite IH, elem_of_cons. case_bool_decide as Hx.
      + split; [tauto|]. intros [?|[->|?]]; tauto.
      + rewrite elem_of_app, list_elem_of_singleton. tauto. }
  rewrite H, elem_of_nil. tauto.
Qed.

Lemma bind_rows_id (dfs : list DataFrame) :
  dfs ≫= (λ d, (λ r : list cell, r) <$> rows d) = dfs ≫= rows.
Proof.
  induction dfs as [|d dfs IH]; [done|].
  change (((λ r : list cell, r) <$> rows d)
            ++ (dfs ≫= λ d, (λ r : list cell, r) <$> rows d)
          = rows d ++ (dfs ≫= rows)).
  by rewrite list_fmap_id, IH.
Qed.

(** [pd.concat] keeps the frames in order and the rows of each in order,
    and every cell under the label it had. *)
Lemma concat_cons d ds :
  ∃ out lay,
    concat (d :: ds) = Ok out
    ∧ rows out = (d :: ds) ≫= (λ d', lay d' <$> rows d')
    ∧ ∀ d' c, d' ∈ d :: ds → c ∈ columns d' →
        c ∈ columns out
        ∧ ∀ r, row_get (columns out) c (lay d' r) = row_get (columns d') c r.
Proof.
  unfold concat. case_bool_decide as Hsame.
  - exists (mkDataFrame (columns d) ((d :: ds) ≫= rows)), (λ _ r, r).
    split_and!; [done| |].
    + by rewrite bind_rows_id.
    + intros d' c Hd' Hc. simpl.
      eapply Forall_forall in Hsame; [|exact Hd']. by rewrite <- Hsame.
  - set (cols := union_labels ((d :: ds) ≫= columns)).
    exists (mkDataFrame cols ((d :: ds) ≫= reindex cols)),
      (λ d' r, (λ c, row_get (columns d') c r) <$> cols).
    split_and!; [done|done|].
    intros d' c Hd' Hc. simpl.
    assert (c ∈ cols) as Hin.
    { apply elem_of_union_labels, list_elem_of_bind. eauto. }
    split; [done|]. intros r.
    apply get_loc_is_Some in Hin as [j Hj].
    rewrite (row_get_Some _ _ _ _ Hj). apply get_loc_Some in Hj as [Hj _].
    unfold at_loc. by rewrite list_lookup_fmap, Hj.
Qed.

Lemma try_except_Ok {A} (log : list st_event) (a : A) (handler : exn → St A) :
  try_except (log, Ok a) handler = (log, Ok a).
Proof. done. Qed.

Lemma load_dataframe_ok file xls names id header :
  open_excel file = Ok xls →
  readable xls names header →
  ∃ log,
    Forall (λ e, is_error e = false) log
    ∧ load_dataframe_from_selected_sheets file names id header
      = match retained_sheets xls names id header with
        | [] => (log ++ [no_sheet_error id], Ok empty_frame)
        | dfs => (log, concat dfs)
        end.
Proof.
  intros Hopen Hread. unfold load_dataframe_from_selected_sheets.
  rewrite Hopen, lift_Ok_bind.
  destruct (for_each_load_sheet file xls id header names Hread [])
    as (log & -> & Hlog).
  exists log. split; [done|]. simpl app. rewrite bind_pair.
  destruct (retained_sheets xls names id header) as [|d ds].
  - rewrite bool_decide_eq_true_2 by done.
    by rewrite emit_bind, logged_logged, logged_mret, try_except_Ok.
  - rewrite bool_decide_eq_false_2 by done.
    destruct (concat_cons d ds) as (out & _ & -> & _).
    by rewrite lift_Ok_bind, logged_mret, try_except_Ok.
Qed.

(** The loader always returns a collection: what goes wrong inside is
    reported and answered with [pd.DataFrame()]. *)
Lemma load_dataframe_total file names id header :
  ∃ log df, load_dataframe_from_selected_sheets file names id header = (log, Ok df).
Proof.
  unfold load_dataframe_from_selected_sheets, try_except.
  destruct (_ ≫= _) as [log [df|e]]; [by eauto|].
  rewrite emit_bind, logged_mret. by eauto.
Qed.

(** ** The button handler *)

Lemma on_find_duplicates_empty file1 file2 names1 names2 id1 id2 log1 df1 log2 df2 :
  names1 ≠ [] → names2 ≠ [] →
  load_dataframe_from_selected_sheets file1 names1 id1 0 = (log1, Ok df1) →
  load_dataframe_from_selected_sheets file2 names2 id2 0 = (log2, Ok df2) →
  empty df1 = true ∨ empty df2 = true →
  on_find_duplicates file1 file2 names1 names2 id1 id2
  = (st_spinner "Loading data... This may take a moment." :: log1 ++ log2, Ok ()).
Proof.
  intros Hn1 Hn2 H1 H2 Hempty. unfold on_find_duplicates.
  rewrite !bool_decide_eq_false_2 by done. simpl orb. cbv iota.
  rewrite emit_bind, H1, bind_pair, H2, bind_pair, !logged_logged.
  assert (negb (empty df1) && negb (empty df2) = false) as ->.
  { destruct Hempty as [->| ->]; [done|]. by rewrite andb_false_r. }
  by rewrite logged_mret, <- app_assoc.
Qed.

(** ** The loader's error *)

(** C5, as stated, fails on a sheet that has the identifier column and no
    record: zero records are retained, the loader reports the sheet as
    loaded and no error, and returns the sheet's columns with no row. *)
Lemma header_only_sheet_counterexample :
  load_dataframe_from_selected_sheets file_header_only ["Sheet1"] "ID" 0
  = ([st_info "Loaded data from sheet 'Sheet1' of 'list.xlsx' with 0 rows."],
     Ok (mkDataFrame ["ID"; "Name"] []))
  ∧ ¬ ∃ text,
        st_error text
          ∈ (load_dataframe_from_selected_sheets file_header_only ["Sheet1"] "ID" 0).1.
Proof.
  split; [vm_compute; reflexivity|].
  intros [text Hin]. vm_compute in Hin.
  apply list_elem_of_singleton in Hin. discriminate Hin.
Qed.

(** C5, amended: when no requested sheet is retained (each one is absent
    from the workbook or lacks the identifier column) the loader reports
    the error, as its last event and its only error, and returns
    [pd.DataFrame()]; the button handler then stops after the two loads,
    before any matching, whether the file is the first or the second of
    the comparison and whatever the other file is. *)
Theorem no_sheet_retained_error file xls names id header :
  open_excel file = Ok xls →
  readable xls names header →
  retained_sheets xls names id header = [] →
  ∃ log,
    load_dataframe_from_selected_sheets file names id header
    = (log ++ [no_sheet_error id], Ok empty_frame)
    ∧ Forall (λ e, is_error e = false) log
    ∧ (header = 0%nat → names ≠ [] →
       ∀ file' names' id', names' ≠ [] →
         on_find_duplicates file file' names names' id id'
         = (st_spinner "Loading data... This may take a moment."
              :: (log ++ [no_sheet_error id])
              ++ (load_dataframe_from_selected_sheets file' names' id' 0).1,
            Ok ())
         ∧ on_find_duplicates file' file names' names id' id
           = (st_spinner "Loading data... This may take a moment."
                :: (load_dataframe_from_selected_sheets file' names' id' 0).1
                ++ (log ++ [no_sheet_error id]),
              Ok ())).
Proof.
  intros Hopen Hread Hnone.
  destruct (load_dataframe_ok file xls names id header Hopen Hread) as (log & Hlog & Heq).
  rewrite Hnone in Heq. exists log. split_and!; [done..|].
  intros -> Hnames file' names' id' Hnames'.
  destruct (load_dataframe_total file' names' id' 0) as (log' & df' & Heq').
  rewrite Heq'. simpl fst. split.
  - eapply on_find_duplicates_empty; [done..|]. by left.
  - eapply on_find_duplicates_empty; [done..|]. by right.
Qed.

Lemma no_sheet_retained_error_witness :
  let xls := mkExcelFile
               [("North", λ _, Ok (mkDataFrame ["ID"; "Name"]
                                      [[VStr " A7 "; VStr "x"]; [VInt 12; VStr "y"]]));
                ("Notes", λ _, Ok (mkDataFrame ["Remark"] [[VStr "n/a"]]));
                ("South", λ _, Ok (mkDataFrame ["Name"; "ID"; "Floor"]
                                      [[VStr "z"; VStr "B2"; VStr "3rd"]]))] in
  open_excel file_three_sheets = Ok xls
  ∧ readable xls ["Notes"; "West"] 0
  ∧ retained_sheets xls ["Notes"; "West"] "ID" 0 = []
  ∧ ∃ log,
      load_dataframe_from_selected_sheets file_three_sheets ["Notes"; "West"] "ID" 0
      = (log ++ [no_sheet_error "ID"], Ok empty_frame)
      ∧ Forall (λ e, is_error e = false) log
      ∧ (0%nat = 0%nat → ["Notes"; "West"] ≠ [] →
         ∀ file' names' id', names' ≠ [] →
           on_find_duplicates file_three_sheets file' ["Notes"; "West"] names' "ID" id'
           = (st_spinner "Loading data... This may take a moment."
                :: (log ++ [no_sheet_error "ID"])
                ++ (load_dataframe_from_selected_sheets file' names' id' 0).1,
              Ok ())
           ∧ on_find_duplicates file' file_three_sheets names' ["Notes"; "West"] id' "ID"
             = (st_spinner "Loading data... This may take a moment."
                  :: (load_dataframe_from_selected_sheets file' names' id' 0).1
                  ++ (log ++ [no_sheet_error "ID"]),
                Ok ())).
Proof.
  intros xls.
  assert (open_excel file_three_sheets = Ok xls) as H1 by reflexivity.
  assert (readable xls ["Notes"; "West"] 0) as H2.
  { repeat constructor.
    - intros _. eexists. reflexivity.
    - intros Hin. exfalso. revert Hin. compute_done. }
  assert (retained_sheets xls ["Notes"; "West"] "ID" 0 = []) as H3 by reflexivity.
  repeat (split; [assumption|]).
  exact (no_sheet_retained_error file_three_sheets xls ["Notes"; "West"] "ID" 0 H1 H2 H3).
Defined.

(** A usable first file and a second file of which no sheet is retained:
    the handler stops after the two loads. *)
Example second_file_unusable :
  on_find_duplicates file_blank_2 file_three_sheets ["Flats"] ["Notes"] "Key" "ID"
  = ([st_spinner "Loading data... This may take a moment.";
      st_info "Loaded data from sheet 'Flats' of 'flats.xlsx' with 2 rows.";
      st_warning "Column 'ID' not found in sheet 'Notes'. Skipping this sheet.";
      no_sheet_error "ID"],
     Ok ()).
Proof. vm_compute. reflexivity. Qed.

(** ** Order *)

Lemma enrich_rows_bind cols i df2 id2 ri rs :
  enrich_rows cols i df2 id2 ri rs
  = rs ≫= (λ r, enrich_rows cols i df2 id2 ri [r]).
Proof.
  induction rs as [|r rs IH]; [done|].
  rewrite enrich_rows_cons, IH. done.
Qed.

Lemma columns_standardize df id : id ∈ columns df → columns (standardize df id) = columns df.
Proof.
  intros [i Hi]%get_loc_is_Some. unfold standardize, setitem. by rewrite Hi.
Qed.

Lemma elem_of_retained_sheets xls names id header d :
  d ∈ retained_sheets xls names id header →
  ∃ sheet_name df,
    sheet_name ∈ names ∧ read_excel xls sheet_name header = Ok df
    ∧ id ∈ columns df ∧ d = standardize df id.
Proof.
  unfold retained_sheets. intros (n & Hn & Hd)%list_elem_of_omap.
  case_bool_decide; [|done].
  destruct (read_excel xls n header) as [df|] eqn:Hdf; [|done].
  case_bool_decide; [|done]. injection Hd as <-. eauto 10.
Qed.

Lemma bind_ext_in {A B} (f g : A → list B) (l : list A) :
  (∀ x, x ∈ l → f x = g x) → l ≫= f = l ≫= g.
Proof.
  induction l as [|x l IH]; intros H; [done|].
  change (f x ++ (l ≫= f) = g x ++ (l ≫= g)).
  rewrite H by (by left). rewrite IH; [done|]. intros y Hy. apply H. by right.
Qed.

Lemma fmap_bind {A B C} (f : B → C) (g : A → list B) (l : list A) :
  f <$> (l ≫= g) = l ≫= (λ x, f <$> g x).
Proof.
  induction l as [|x l IH]; [done|].
  change (f <$> (g x ++ (l ≫= g)) = (f <$> g x) ++ (l ≫= λ x, f <$> g x)).
  by rewrite fmap_app, IH.
Qed.

Lemma bind_nil_elem_of {A B} (f : A → list B) (l : list A) x :
  l ≫= f = [] → x ∈ l → f x = [].
Proof.
  induction l as [|y l IH]; intros Hnil Hx; [by apply elem_of_nil in Hx|].
  change (f y ++ (l ≫= f) = []) in Hnil. apply app_eq_nil in Hnil as [Hy Hl].
  apply elem_of_cons in Hx as [->|Hx]; [done|by apply IH].
Qed.

(** C9: the collection the loader returns lists the retained sheets in the
    order of the requested names and the rows of each sheet in their order:
    its identifier column is the identifier columns of the retained sheets
    one after the other, and every row keeps its text and missing cells
    under their labels.  A Match Result for it lists, in the order of its
    rows, the output rows of each row, so matched rows come in the original
    order. *)
Theorem order_preserved file xls names id header :
  open_excel file = Ok xls →
  readable xls names header →
  retained_sheets xls names id header ≠ [] →
  ∃ log combined i lay,
    load_dataframe_from_selected_sheets file names id header = (log, Ok combined)
    ∧ get_loc id (columns combined) = Some i
    ∧ column combined id
      = retained_sheets xls names id header ≫= (λ d, column d id)
    ∧ rows combined
      = retained_sheets xls names id header ≫= (λ d, lay d <$> rows d)
    ∧ (∀ d c r, d ∈ retained_sheets xls names id header → c ∈ columns d →
         is_int (row_get (columns d) c r) = false →
         row_get (columns combined) c (lay d r) = row_get (columns d) c r)
    ∧ ∀ df2 id2 c out,
        0 < c →
        (find_duplicates combined df2 id id2 c).2 = Ok out →
        ∃ g,
          rows out = rows combined ≫= g
          ∧ (∀ r o, o ∈ g r → ∃ tail, o = chunk_row (columns combined) i r ++ tail)
          ∧ ∀ r, r ∈ rows combined →
              length (g r)
              = length (result_rows
                          (find_duplicates (mkDataFrame (columns combined) [r])
                             df2 id id2 c)).
Proof.
  intros Hopen Hread Hsome.
  destruct (load_dataframe_ok file xls names id header Hopen Hread) as (log & Hlog & Heq).
  destruct (retained_sheets xls names id header) as [|d ds] eqn:Hret; [done|].
  destruct (concat_cons d ds) as (combined & lay & Hconcat & Hrows & Hcells).
  rewrite Hconcat in Heq.
  assert (∀ d', d' ∈ d :: ds → id ∈ columns d') as Hids.
  { intros d' Hd'. rewrite <- Hret in Hd'.
    apply elem_of_retained_sheets in Hd' as (n & df & _ & _ & Hid & ->).
    by rewrite columns_standardize. }
  assert (id ∈ columns combined) as [i Hi]%get_loc_is_Some.
  { eapply Hcells; [by left|]. apply Hids. by left. }
  exists log, combined, i, lay. split_and!; [done|done| |done| |].
  - unfold column. rewrite Hrows, fmap_bind. apply bind_ext_in.
    intros d' Hd'. rewrite <- list_fmap_compose.
    apply list_fmap_ext. intros _ r _. simpl. by apply Hcells; [|apply Hids].
  - intros d' c r Hd' Hc _. by apply Hcells.
  - intros df2 id2 c out Hc Hout.
    destruct (get_loc id2 (columns df2)) as [ri|] eqn:Hri; last first.
    { by rewrite find_duplicates_KeyError_2 in Hout. }
    destruct (find_duplicates_Ok _ _ _ _ _ _ _ _ Hc Hi Hri Hout) as [Hok ->].
    exists (λ r, enrich_rows (columns combined) i df2 id2 ri [r]).
    split_and!.
    + rewrite rows_match_frame. apply enrich_rows_bind.
    + intros r o (r' & tail & Hr'%list_elem_of_singleton & ->)%elem_of_enrich_rows.
      subst r'. eauto.
    + intros r Hr. unfold result_rows. rewrite find_duplicates_result by done.
      rewrite (match_result_Some _ _ _ _ _ _ _ Hi Hri).
      * by rewrite rows_match_frame.
      * destruct Hok as [?|Hnil]; [by left|right].
        rewrite enrich_rows_bind in Hnil. by eapply bind_nil_elem_of in Hnil.
Qed.

(** Sheets requested in another order than the workbook has them, one of
    them without the identifier column. *)
Example load_three_sheets :
  load_dataframe_from_selected_sheets file_three_sheets ["South"; "Notes"; "North"] "ID" 0
  = ([st_info "Loaded data from sheet 'South' of 'flats.xlsx' with 1 rows.";
      st_warning "Column 'ID' not found in sheet 'Notes'. Skipping this sheet.";
      st_info "Loaded data from sheet 'North' of 'flats.xlsx' with 2 rows."],
     Ok (mkDataFrame ["Name"; "ID"; "Floor"]
           [[VStr "z"; VStr "B2"; VStr "3rd"];
            [VStr "x"; VStr "A7"; VMissing];
            [VStr "y"; VStr "12"; VMissing]])).
Proof. vm_compute. reflexivity. Qed.

Lemma order_preserved_witness :
  let xls := mkExcelFile
               [("North", λ _, Ok (mkDataFrame ["ID"; "Name"]
                                      [[VStr " A7 "; VStr "x"]; [VInt 12; VStr "y"]]));
                ("Notes", λ _, Ok (mkDataFrame ["Remark"] [[VStr "n/a"]]));
                ("South", λ _, Ok (mkDataFrame ["Name"; "ID"; "Floor"]
                                      [[VStr "z"; VStr "B2"; VStr "3rd"]]))] in
  let names := ["South"; "Notes"; "North"] in
  open_excel file_three_sheets = Ok xls
  ∧ readable xls names 0
  ∧ retained_sheets xls names "ID" 0 ≠ []
  ∧ ∃ log combined i lay,
      load_dataframe_from_selected_sheets file_three_sheets names "ID" 0
      = (log, Ok combined)
      ∧ get_loc "ID" (columns combined) = Some i
      ∧ column combined "ID"
        = retained_sheets xls names "ID" 0 ≫= (λ d, column d "ID")
      ∧ rows combined = retained_sheets xls names "ID" 0 ≫= (λ d, lay d <$> rows d)
      ∧ (∀ d c r, d ∈ retained_sheets xls names "ID" 0 → c ∈ columns d →
           is_int (row_get (columns d) c r) = false →
           row_get (columns combined) c (lay d r) = row_get (columns d) c r)
      ∧ ∀ df2 id2 c out,
          0 < c →
          (find_duplicates combined df2 "ID" id2 c).2 = Ok out →
          ∃ g,
            rows out = rows combined ≫= g
            ∧ (∀ r o, o ∈ g r → ∃ tail, o = chunk_row (columns combined) i r ++ tail)
            ∧ ∀ r, r ∈ rows combined →
                length (g r)
                = length (result_rows
                            (find_duplicates (mkDataFrame (columns combined) [r])
                               df2 "ID" id2 c)).
Proof.
  intros xls names.
  assert (open_excel file_three_sheets = Ok xls) as H1 by reflexivity.
  assert (readable xls names 0) as H2.
  { repeat constructor; intros _; eexists; reflexivity. }
  assert (retained_sheets xls names "ID" 0 ≠ []) as H3 by (vm_compute; discriminate).
  repeat (split; [assumption|]).
  exact (order_preserved file_three_sheets xls names "ID" 0 H1 H2 H3).
Defined.

(** ** The identifiers of the specification *)

(** The three identifiers of the specification, through the matcher. *)
Example A1_matches_padded_A1 :
  (find_duplicates (mkDataFrame ["ID"] [[VStr "A1"]])
     (standardize (mkDataFrame ["Key"] [[VStr " A1 "]]) "Key") "ID" "Key" 500).2
  = Ok (mkDataFrame ["ID"; "Standard_ID"; "Key"] [[VStr "A1"; VStr "A1"; VStr "A1"]]).
Proof. rewrite find_duplicates_result by lia. reflexivity. Qed.

Example A1_does_not_match_a1 :
  (find_duplicates (mkDataFrame ["ID"] [[VStr "A1"]])
     (standardize (mkDataFrame ["Key"] [[VStr "a1"]]) "Key") "ID" "Key" 500).2
  = Ok empty_frame.
Proof. rewrite find_duplicates_result by lia. reflexivity. Qed.

(** ** What the loader leaves in the identifier column *)

Lemma standardize_rows df id i :
  get_loc id (columns df) = Some i →
  standardize df id
  = mkDataFrame (columns df) ((λ r, <[i:=standard_id (at_loc i r)]> r) <$> rows df).
Proof.
  intros Hi. unfold standardize, setitem.
  rewrite Hi, str_strip_astype_str, (column_Some _ _ _ Hi), <- list_fmap_compose.
  by rewrite zip_with_fmap_r, zip_with_diag.
Qed.

Lemma standardized_standardize df id :
  id ∈ columns df →
  Forall (rectangular (columns df)) (rows df) →
  standardized (standardize df id) id.
Proof.
  intros [i Hi]%get_loc_is_Some Hrect. unfold standardized.
  rewrite (standardize_rows _ _ _ Hi). simpl.
  apply Forall_fmap. eapply Forall_impl; [exact Hrect|]. simpl.
  intros r Hr. exists (at_loc i r). rewrite (row_get_Some _ _ _ _ Hi).
  unfold at_loc at 1. rewrite list_lookup_insert_eq; [done|].
  apply get_loc_lt in Hi. unfold rectangular in Hr. lia.
Qed.

(** Every collection the loader returns has its identifier column
    standardized, when the sheets it reads are rectangular. *)
Lemma loader_standardized file xls names id header log df :
  open_excel file = Ok xls →
  readable xls names header →
  (∀ n d, read_excel xls n header = Ok d → Forall (rectangular (columns d)) (rows d)) →
  load_dataframe_from_selected_sheets file names id header = (log, Ok df) →
  standardized df id.
Proof.
  intros Hopen Hread Hrect Hload.
  destruct (load_dataframe_ok file xls names id header Hopen Hread) as (log' & _ & Heq).
  rewrite Hload in Heq.
  destruct (retained_sheets xls names id header) as [|d ds] eqn:Hret.
  { injection Heq as _ ->. constructor. }
  destruct (concat_cons d ds) as (out & lay & Hconcat & Hrows & Hcells).
  rewrite Hconcat in Heq. injection Heq as _ ->.
  unfold standardized. rewrite Hrows. apply Forall_forall.
  intros o (d' & (r & -> & Hr)%list_elem_of_fmap & Hd')%list_elem_of_bind.
  rewrite <- Hret in Hd'.
  apply elem_of_retained_sheets in Hd' as Hsheet.
  destruct Hsheet as (n & df' & _ & Hread' & Hid & ->).
  rewrite Hret in Hd'.
  destruct (Hcells _ id Hd') as [_ ->]; [by rewrite columns_standardize|].
  pose proof (standardized_standardize df' id Hid (Hrect _ _ Hread')) as Hstd.
  by eapply Forall_forall in Hstd.
Qed.

(** ** Exact comparison of normalized identifiers *)





(** Three identifiers against four: A1 between blanks is joined with both
    records A1, a1 with the record a1 followed by a blank, B2 with none. *)
Example three_identifiers :
  (find_duplicates
     (mkDataFrame ["ID"] [[VStr " A1 "]; [VStr "B2"]; [VStr "a1"]])
     (standardize (mkDataFrame ["Key"] [[VStr "A1"]; [VInt 7]; [VStr "a1 "]; [VStr "A1"]])
        "Key") "ID" "Key" 2).2
  = Ok (mkDataFrame ["ID"; "Standard_ID"; "Key"]
          [[VStr " A1 "; VStr "A1"; VStr "A1"];
           [VStr " A1 "; VStr "A1"; VStr "A1"];
           [VStr "a1"; VStr "a1"; VStr "a1"]]).
Proof. vm_compute. reflexivity. Qed.

(** ** Missing and blank identifiers *)

(** C3, on the code: through the pipeline a row of the first collection
    with a missing identifier does match.  The loader's cast to text turns
    the missing marker of either workbook into the string [nan]; the
    [dropna] of the matcher, which drops the missing identifiers of a second
    collection that bypassed the loader, then finds nothing to drop, [nan]
    enters the lookup set and the two rows are joined and shown. *)
Theorem missing_identifier_matches_through_loader :
  (load_dataframe_from_selected_sheets file_missing_1 ["Waiting"] "ID" 0).2
  = Ok (mkDataFrame ["ID"; "Name"] [[VStr "nan"; VStr "x"]])
  ∧ (load_dataframe_from_selected_sheets file_missing_2 ["Flats"] "Key" 0).2
    = Ok (mkDataFrame ["Key"; "Flat"] [[VStr "nan"; VInt 4]; [VStr "A7"; VInt 5]])
  ∧ (find_duplicates (mkDataFrame ["ID"; "Name"] [[VStr "nan"; VStr "x"]])
       (mkDataFrame ["Key"; "Flat"] [[VStr "nan"; VInt 4]; [VStr "A7"; VInt 5]])
       "ID" "Key" 500).2
    = Ok (mkDataFrame ["ID"; "Name"; "Standard_ID"; "Key"; "Flat"]
            [[VStr "nan"; VStr "x"; VStr "nan"; VStr "nan"; VInt 4]])
  ∧ st_dataframe (mkDataFrame ["ID"; "Name"; "Standard_ID"; "Key"; "Flat"]
                    [[VStr "nan"; VStr "x"; VStr "nan"; VStr "nan"; VInt 4]])
      ∈ (on_find_duplicates file_missing_1 file_missing_2 ["Waiting"] ["Flats"]
           "ID" "Key").1
  ∧ (find_duplicates (mkDataFrame ["ID"; "Name"] [[VMissing; VStr "x"]])
       (mkDataFrame ["Key"; "Flat"] [[VMissing; VInt 4]; [VStr "A7"; VInt 5]])
       "ID" "Key" 500).2
    = Ok empty_frame.
Proof.
  split; [vm_compute; reflexivity|]. split; [vm_compute; reflexivity|].
  split; [rewrite find_duplicates_result by lia; reflexivity|].
  split; [|rewrite find_duplicates_result by lia; reflexivity].
  vm_compute. do 13 right. left.
Qed.

(** A blank identifier, whitespace only, is stripped to the empty string,
    an identifier like any other: blank matches blank. *)
Example blank_identifier_matches_blank :
  (load_dataframe_from_selected_sheets file_blank_1 ["Waiting"] "ID" 0).2
  = Ok (mkDataFrame ["ID"; "Name"] [[VStr ""; VStr "x"]])
  ∧ (load_dataframe_from_selected_sheets file_blank_2 ["Flats"] "Key" 0).2
    = Ok (mkDataFrame ["Key"; "Flat"] [[VStr ""; VInt 4]; [VStr "A7"; VInt 5]])
  ∧ (find_duplicates (mkDataFrame ["ID"; "Name"] [[VStr ""; VStr "x"]])
       (mkDataFrame ["Key"; "Flat"] [[VStr ""; VInt 4]; [VStr "A7"; VInt 5]])
       "ID" "Key" 500).2
    = Ok (mkDataFrame ["ID"; "Name"; "Standard_ID"; "Key"; "Flat"]
            [[VStr ""; VStr "x"; VStr ""; VStr ""; VInt 4]]).
Proof.
  split; [vm_compute; reflexivity|]. split; [vm_compute; reflexivity|].
  rewrite find_duplicates_result by lia. reflexivity.
Qed.

(** * Further properties of the three stages *)

(** ** The loader, whatever the workbook *)

Lemma columns_setitem_in df c values :
  c ∈ columns df → columns (setitem df c values) = columns df.
Proof. intros [i Hi]%get_loc_is_Some. unfold setitem. by rewrite Hi. Qed.

Lemma try_except_Raise {A} (log : list st_event) (e : exn) (handler : exn → St A) :
  try_except (log, Raise e) handler = logged log (handler e).
Proof. unfold try_except, logged. by destruct (handler e). Qed.

Lemma bind_Raise {A B} (log : list st_event) (e : exn) (f : A → St B) :
  (log, Raise e) ≫= f = (log, Raise e).
Proof. done. Qed.

(** One requested name: no error is reported, and a sheet that is appended
    has the identifier column. *)
Lemma load_sheet_cases file xls id header n acc :
  ∃ log r,
    load_sheet file xls id header n acc = (log, r)
    ∧ Forall (λ e, is_error e = false) log
    ∧ match r with
      | Ok dfs => ∃ new, dfs = acc ++ new ∧ Forall (λ d, id ∈ columns d) new
      | Raise _ => True
      end.
Proof.
  unfold load_sheet. case_bool_decide as Hin.
  - destruct (read_excel xls n header) as [df|e].
    + rewrite lift_Ok_bind. case_bool_decide as Hid.
      * rewrite (getitem_column _ _ Hid), lift_Ok_bind, emit_bind, logged_mret.
        do 2 eexists. split_and!; [done|by repeat constructor|].
        eexists. split; [done|]. repeat constructor.
        by rewrite columns_setitem_in.
      * rewrite emit_bind, logged_mret.
        do 2 eexists. split_and!; [done|by repeat constructor|].
        exists []. by rewrite app_nil_r.
    + rewrite lift_Raise_bind. do 2 eexists. split_and!; [done|constructor|done].
  - rewrite emit_bind, logged_mret.
    do 2 eexists. split_and!; [done|by repeat constructor|].
    exists []. by rewrite app_nil_r.
Qed.

Lemma for_each_load_sheet_cases file xls id header names :
  ∀ acc,
    ∃ log r,
      for_each names (load_sheet file xls id header) acc = (log, r)
      ∧ Forall (λ e, is_error e = false) log
      ∧ match r with
        | Ok dfs => ∃ new, dfs = acc ++ new ∧ Forall (λ d, id ∈ columns d) new
        | Raise _ => True
        end.
Proof.
  induction names as [|n ns IH]; intros acc.
  - exists [], (Ok acc). split_and!; [done|constructor|].
    exists []. by rewrite app_nil_r.
  - simpl for_each.
    destruct (load_sheet_cases file xls id header n acc) as (log1 & r1 & -> & Hlog1 & Hr1).
    destruct r1 as [dfs|e].
    + destruct Hr1 as (new1 & -> & Hnew1).
      destruct (IH (acc ++ new1)) as (log2 & r2 & Heq & Hlog2 & Hr2).
      rewrite bind_pair, Heq, logged_pair.
      do 2 eexists. split_and!; [done|by apply Forall_app|].
      destruct r2 as [dfs|e]; [|done].
      destruct Hr2 as (new2 & -> & Hnew2). exists (new1 ++ new2).
      split; [by rewrite app_assoc|by apply Forall_app].
    + rewrite bind_Raise. by do 2 eexists.
Qed.

(** The two ways the loader ends: an error as its last event and
    [pd.DataFrame()], or no error and a collection with the identifier
    column. *)
Lemma load_dataframe_cases file names id header :
  ∃ log df,
    load_dataframe_from_selected_sheets file names id header = (log, Ok df)
    ∧ ((∃ log' text, log = log' ++ [st_error text]
          ∧ Forall (λ e, is_error e = false) log' ∧ df = empty_frame)
       ∨ (Forall (λ e, is_error e = false) log ∧ id ∈ columns df)).
Proof.
  unfold load_dataframe_from_selected_sheets.
  destruct (open_excel file) as [xls|e].
  - rewrite lift_Ok_bind.
    destruct (for_each_load_sheet_cases file xls id header names [])
      as (log & r & -> & Hlog & Hr).
    destruct r as [dfs|e].
    + destruct Hr as (new & -> & Hnew). simpl app. rewrite bind_pair.
      destruct new as [|d ds].
      * rewrite bool_decide_eq_true_2 by done.
        rewrite emit_bind, logged_logged, logged_mret, try_except_Ok.
        do 2 eexists. split; [done|]. left. by do 2 eexists.
      * rewrite bool_decide_eq_false_2 by done.
        destruct (concat_cons d ds) as (out & lay & -> & _ & Hcells).
        rewrite lift_Ok_bind, logged_mret, try_except_Ok.
        do 2 eexists. split; [done|]. right. split; [done|].
        eapply Hcells; [by left|]. by apply Forall_inv in Hnew.
    + rewrite bind_Raise, try_except_Raise, emit_bind, logged_logged, logged_mret.
      do 2 eexists. split; [done|]. left. by do 2 eexists.
  - rewrite lift_Raise_bind, try_except_Raise, emit_bind, logged_logged, logged_mret.
    do 2 eexists. split; [done|]. left. exists []. eexists. by split_and!.
Qed.

(** The loader never raises.  Either it reports an error, as its last
    event and only there, and returns [pd.DataFrame()]; or it reports no
    error and returns a collection that has the identifier column. *)
Theorem loader_error_or_identifier_column file names id header :
  ∃ log df,
    load_dataframe_from_selected_sheets file names id header = (log, Ok df)
    ∧ ((∃ log' text, log = log' ++ [st_error text]
          ∧ Forall (λ e, is_error e = false) log' ∧ df = empty_frame)
       ∨ (Forall (λ e, is_error e = false) log ∧ id ∈ columns df)).
Proof. apply load_dataframe_cases. Qed.

(** ** The button handler, stage after stage *)

Lemma dataframe_NoDup df : NoDup (columns df) → dataframe df = emit (st_dataframe df).
Proof. intros H. unfold dataframe. by rewrite bool_decide_eq_true_2. Qed.

Lemma dataframe_dup df :
  ¬ NoDup (columns df) → dataframe df = lift (Raise (duplicate_labels_error df)).
Proof. intros H. unfold dataframe. by rewrite bool_decide_eq_false_2. Qed.

(** The exceptions of the join. *)
Lemma merge_check_exn cols df2 id2 ri e :
  merge_check cols df2 id2 ri = Some e →
  (∃ msg, e = MergeError msg)
  ∨ (∃ rdtype, e = ValueError (merge_keys_message "object" rdtype "Standard_ID")).
Proof.
  unfold merge_check. destruct (numeric_key _).
  - intros [= <-]. right. eauto.
  - destruct (suffix_clashes _ _); [done|]. intros [= <-]. left. eauto.
Qed.

Lemma find_duplicates_exn df1 df2 id1 id2 c e :
  0 < c →
  id1 ∈ columns df1 → id2 ∈ columns df2 →
  (find_duplicates df1 df2 id1 id2 c).2 = Raise e →
  (∃ msg, e = MergeError msg)
  ∨ (∃ rdtype, e = ValueError (merge_keys_message "object" rdtype "Standard_ID")).
Proof.
  intros Hc [i Hi]%get_loc_is_Some [ri Hri]%get_loc_is_Some Hrun.
  rewrite find_duplicates_result in Hrun by done.
  destruct df1 as [cols rs]. simpl in *.
  rewrite (match_result_cases _ _ _ _ _ _ _ Hi Hri) in Hrun.
  destruct (enrich_rows cols i df2 id2 ri rs); [done|].
  destruct (merge_check cols df2 id2 ri) as [e'|] eqn:He; [|done].
  injection Hrun as <-. by eapply merge_check_exn.
Qed.

(** The handler once both loads have returned a collection with rows: the
    matcher runs, and its result, when it has rows, is shown and offered
    for download. *)
Lemma on_find_duplicates_loaded file1 file2 names1 names2 id1 id2 log1 df1 log2 df2 :
  names1 ≠ [] → names2 ≠ [] →
  load_dataframe_from_selected_sheets file1 names1 id1 0 = (log1, Ok df1) →
  load_dataframe_from_selected_sheets file2 names2 id2 0 = (log2, Ok df2) →
  empty df1 = false → empty df2 = false →
  on_find_duplicates file1 file2 names1 names2 id1 id2
  = logged (st_spinner "Loading data... This may take a moment."
              :: log1 ++ log2 ++ [st_header "Processing and Finding Duplicates..."])
      (duplicates_df ← find_duplicates df1 df2 id1 id2 500;
       if negb (empty duplicates_df) then
         emit (st_header "Results: Duplicate Records Found");;
         dataframe duplicates_df;;
         emit (st_download_button "📥 Download Results as CSV" (to_csv duplicates_df)
                 "duplicate_report.csv" "text/csv")
       else mret ()).
Proof.
  intros Hn1 Hn2 H1 H2 He1 He2. unfold on_find_duplicates.
  rewrite !bool_decide_eq_false_2 by done. simpl orb. cbv iota.
  rewrite emit_bind, H1, bind_pair, H2, bind_pair, !logged_logged.
  rewrite He1, He2. simpl andb. cbv iota.
  rewrite emit_bind, logged_logged. f_equal. simpl. by rewrite <- !app_assoc.
Qed.

Lemma on_find_duplicates_run file1 file2 names1 names2 id1 id2
    log1 df1 log2 df2 logm out :
  names1 ≠ [] → names2 ≠ [] →
  load_dataframe_from_selected_sheets file1 names1 id1 0 = (log1, Ok df1) →
  load_dataframe_from_selected_sheets file2 names2 id2 0 = (log2, Ok df2) →
  empty df1 = false → empty df2 = false →
  find_duplicates df1 df2 id1 id2 500 = (logm, Ok out) →
  on_find_duplicates file1 file2 names1 names2 id1 id2
  = (st_spinner "Loading data... This may take a moment."
       :: log1 ++ log2 ++ st_header "Processing and Finding Duplicates..."
       :: logm
       ++ (if empty out then []
           else if bool_decide (NoDup (columns out)) then
             [st_header "Results: Duplicate Records Found";
              st_dataframe out;
              st_download_button "📥 Download Results as CSV" (to_csv out)
                "duplicate_report.csv" "text/csv"]
           else [st_header "Results: Duplicate Records Found"]),
     if empty out || bool_decide (NoDup (columns out)) then Ok ()
     else Raise (duplicate_labels_error out)).
Proof.
  intros Hn1 Hn2 H1 H2 He1 He2 Hm.
  rewrite (on_find_duplicates_loaded _ _ _ _ _ _ _ _ _ _ Hn1 Hn2 H1 H2 He1 He2).
  rewrite Hm, bind_pair, logged_logged.
  destruct (empty out); simpl negb; cbv iota; simpl orb.
  - rewrite logged_mret. f_equal. simpl. by rewrite <- !app_assoc, app_nil_r.
  - rewrite emit_bind, logged_logged. case_bool_decide as Hdup.
    + rewrite (dataframe_NoDup _ Hdup), emit_bind, logged_logged.
      unfold emit. rewrite logged_pair. f_equal. simpl. by rewrite <- !app_assoc.
    + rewrite (dataframe_dup _ Hdup), lift_Raise_bind, logged_pair.
      f_equal. simpl. by rewrite <- !app_assoc.
Qed.

Lemma on_find_duplicates_raise file1 file2 names1 names2 id1 id2
    log1 df1 log2 df2 logm e :
  names1 ≠ [] → names2 ≠ [] →
  load_dataframe_from_selected_sheets file1 names1 id1 0 = (log1, Ok df1) →
  load_dataframe_from_selected_sheets file2 names2 id2 0 = (log2, Ok df2) →
  empty df1 = false → empty df2 = false →
  find_duplicates df1 df2 id1 id2 500 = (logm, Raise e) →
  on_find_duplicates file1 file2 names1 names2 id1 id2
  = (st_spinner "Loading data... This may take a moment."
       :: log1 ++ log2 ++ st_header "Processing and Finding Duplicates..." :: logm,
     Raise e).
Proof.
  intros Hn1 Hn2 H1 H2 He1 He2 Hm.
  rewrite (on_find_duplicates_loaded _ _ _ _ _ _ _ _ _ _ Hn1 Hn2 H1 H2 He1 He2).
  rewrite Hm, bind_Raise, logged_pair. f_equal. simpl. by rewrite <- !app_assoc.
Qed.

(** What the button handler can end in.  A failure of a load is caught in
    the loader and a missing identifier column stops the handler before
    the matcher, so the handler never ends in a [KeyError] or in an error
    of a workbook: it returns, or it ends in the [MergeError] or the
    [ValueError] of the join, or in the [ValueError] of [st.dataframe] for
    a result with a repeated label. *)
Theorem handler_raises_only_from_join_or_table file1 file2 names1 names2 id1 id2 e :
  (on_find_duplicates file1 file2 names1 names2 id1 id2).2 = Raise e →
  (∃ msg, e = MergeError msg) ∨ (∃ msg, e = ValueError msg).
Proof.
  intros Hrun.
  destruct (decide (names1 = [])) as [->|Hn1]; [done|].
  destruct (decide (names2 = [])) as [->|Hn2].
  { unfold on_find_duplicates in Hrun. by rewrite bool_decide_eq_false_2 in Hrun. }
  destruct (load_dataframe_cases file1 names1 id1 0) as (log1 & df1 & H1 & Hc1).
  destruct (load_dataframe_cases file2 names2 id2 0) as (log2 & df2 & H2 & Hc2).
  destruct (empty df1) eqn:He1.
  { erewrite on_find_duplicates_empty in Hrun; eauto. done. }
  destruct (empty df2) eqn:He2.
  { erewrite on_find_duplicates_empty in Hrun; eauto. done. }
  destruct Hc1 as [(? & ? & _ & _ & ->)|[_ Hid1]]; [done|].
  destruct Hc2 as [(? & ? & _ & _ & ->)|[_ Hid2]]; [done|].
  destruct (find_duplicates df1 df2 id1 id2 500) as [logm [out|e']] eqn:Hm.
  - rewrite (on_find_duplicates_run _ _ _ _ _ _ _ _ _ _ _ _ Hn1 Hn2 H1 H2 He1 He2 Hm)
      in Hrun.
    simpl in Hrun. destruct (empty out); [done|]. simpl in Hrun.
    case_bool_decide as Hdup; [done|]. injection Hrun as <-. right. eauto.
  - rewrite (on_find_duplicates_raise _ _ _ _ _ _ _ _ _ _ _ _ Hn1 Hn2 H1 H2 He1 He2 Hm)
      in Hrun.
    injection Hrun as <-.
    destruct (find_duplicates_exn df1 df2 id1 id2 500 e') as [?|[? ->]];
      [lia|done|done|by rewrite Hm|by left|right; eauto].
Qed.

Lemma handler_raises_only_from_join_or_table_witness :
  let e := MergeError
             "Passing 'suffixes' which cause duplicate columns {'Name_File1'} is not allowed." in
  (on_find_duplicates file_suffix_1 file_suffix_2 ["Waiting"] ["Flats"] "ID" "Key").2
  = Raise e
  ∧ ((∃ msg, e = MergeError msg) ∨ (∃ msg, e = ValueError msg)).
Proof.
  intros e.
  assert ((on_find_duplicates file_suffix_1 file_suffix_2 ["Waiting"] ["Flats"]
             "ID" "Key").2 = Raise e) as H1 by (vm_compute; reflexivity).
  split; [assumption|].
  exact (handler_raises_only_from_join_or_table file_suffix_1 file_suffix_2
           ["Waiting"] ["Flats"] "ID" "Key" e H1).
Defined.

(** The log of a run of the handler that reaches the matcher and whose
    result has no repeated label, stage after stage: the spinner, the two
    loads, the header, the matcher, and then, only for a result with rows,
    the result header, the table and the download button, whose data is
    the table written by [to_csv]. *)
Theorem handler_log_by_stage file1 file2 names1 names2 id1 id2
    log1 df1 log2 df2 logm out :
  names1 ≠ [] → names2 ≠ [] →
  load_dataframe_from_selected_sheets file1 names1 id1 0 = (log1, Ok df1) →
  load_dataframe_from_selected_sheets file2 names2 id2 0 = (log2, Ok df2) →
  empty df1 = false → empty df2 = false →
  find_duplicates df1 df2 id1 id2 500 = (logm, Ok out) →
  NoDup (columns out) →
  on_find_duplicates file1 file2 names1 names2 id1 id2
  = (st_spinner "Loading data... This may take a moment."
       :: log1 ++ log2 ++ st_header "Processing and Finding Duplicates..."
       :: logm
       ++ (if empty out then []
           else [st_header "Results: Duplicate Records Found";
                 st_dataframe out;
                 st_download_button "📥 Download Results as CSV" (to_csv out)
                   "duplicate_report.csv" "text/csv"]),
     Ok ()).
Proof.
  intros Hn1 Hn2 H1 H2 He1 He2 Hm Hdup.
  rewrite (on_find_duplicates_run _ _ _ _ _ _ _ _ _ _ _ _ Hn1 Hn2 H1 H2 He1 He2 Hm).
  rewrite (bool_decide_eq_true_2 _ Hdup). by rewrite orb_true_r.
Qed.

(** A result with rows and a repeated label, which the join makes when a
    label with a suffix meets a label of the other file: the handler ends
    in the [ValueError] of [st.dataframe], after the result header and
    before the table and the download button. *)
Theorem handler_stops_at_repeated_label file1 file2 names1 names2 id1 id2
    log1 df1 log2 df2 logm out :
  names1 ≠ [] → names2 ≠ [] →
  load_dataframe_from_selected_sheets file1 names1 id1 0 = (log1, Ok df1) →
  load_dataframe_from_selected_sheets file2 names2 id2 0 = (log2, Ok df2) →
  empty df1 = false → empty df2 = false →
  find_duplicates df1 df2 id1 id2 500 = (logm, Ok out) →
  empty out = false →
  ¬ NoDup (columns out) →
  ∃ msg,
    on_find_duplicates file1 file2 names1 names2 id1 id2
    = (st_spinner "Loading data... This may take a moment."
         :: log1 ++ log2 ++ st_header "Processing and Finding Duplicates..."
         :: logm ++ [st_header "Results: Duplicate Records Found"],
       Raise (ValueError msg)).
Proof.
  intros Hn1 Hn2 H1 H2 He1 He2 Hm Hout Hdup.
  rewrite (on_find_duplicates_run _ _ _ _ _ _ _ _ _ _ _ _ Hn1 Hn2 H1 H2 He1 He2 Hm).
  rewrite Hout, (bool_decide_eq_false_2 _ Hdup). simpl orb. cbv iota.
  unfold duplicate_labels_error. by eexists.
Qed.

Lemma handler_stops_at_repeated_label_witness :
  let df1 := mkDataFrame ["ID"; "Name"; "Name_File2"] [[VStr "A7"; VStr "x"; VStr "old"]] in
  let df2 := mkDataFrame ["Key"; "Name"] [[VStr "A7"; VStr "y"]] in
  let out := mkDataFrame ["ID"; "Name_File1"; "Name_File2"; "Standard_ID"; "Key"; "Name_File2"]
               [[VStr "A7"; VStr "x"; VStr "old"; VStr "A7"; VStr "A7"; VStr "y"]] in
  let log1 := (load_dataframe_from_selected_sheets file_suffix_3 ["Waiting"] "ID" 0).1 in
  let log2 := (load_dataframe_from_selected_sheets file_suffix_2 ["Flats"] "Key" 0).1 in
  let logm := (find_duplicates df1 df2 "ID" "Key" 500).1 in
  ["Waiting"] ≠ [] ∧ ["Flats"] ≠ []
  ∧ load_dataframe_from_selected_sheets file_suffix_3 ["Waiting"] "ID" 0 = (log1, Ok df1)
  ∧ load_dataframe_from_selected_sheets file_suffix_2 ["Flats"] "Key" 0 = (log2, Ok df2)
  ∧ empty df1 = false ∧ empty df2 = false
  ∧ find_duplicates df1 df2 "ID" "Key" 500 = (logm, Ok out)
  ∧ empty out = false
  ∧ ¬ NoDup (columns out)
  ∧ ∃ msg,
      on_find_duplicates file_suffix_3 file_suffix_2 ["Waiting"] ["Flats"] "ID" "Key"
      = (st_spinner "Loading data... This may take a moment."
           :: log1 ++ log2 ++ st_header "Processing and Finding Duplicates..."
           :: logm ++ [st_header "Results: Duplicate Records Found"],
         Raise (ValueError msg)).
Proof.
  intros df1 df2 out log1 log2 logm.
  assert (["Waiting"] ≠ ([] : list string)) as H1 by done.
  assert (["Flats"] ≠ ([] : list string)) as H2 by done.
  assert (load_dataframe_from_selected_sheets file_suffix_3 ["Waiting"] "ID" 0
          = (log1, Ok df1)) as H3 by (vm_compute; reflexivity).
  assert (load_dataframe_from_selected_sheets file_suffix_2 ["Flats"] "Key" 0
          = (log2, Ok df2)) as H4 by (vm_compute; reflexivity).
  assert (empty df1 = false) as H5 by reflexivity.
  assert (empty df2 = false) as H6 by reflexivity.
  assert (find_duplicates df1 df2 "ID" "Key" 500 = (logm, Ok out)) as H7
    by (vm_compute; reflexivity).
  assert (empty out = false) as H8 by reflexivity.
  assert (¬ NoDup (columns out)) as H9 by compute_done.
  repeat (split; [assumption|]).
  exact (handler_stops_at_repeated_label file_suffix_3 file_suffix_2 ["Waiting"] ["Flats"]
           "ID" "Key" log1 df1 log2 df2 logm out H1 H2 H3 H4 H5 H6 H7 H8 H9).
Defined.

(** ** Files whose labels are all different *)

Lemma new_duplicates_same labels : new_duplicates labels labels = [].
Proof.
  unfold new_duplicates. generalize (duplicated labels).
  induction labels as [|c l IH]; intros [|b bs]; simpl; try done.
  destruct b; simpl; apply IH.
Qed.

Lemma suffixed_disjoint (other : list string) (suffix : string) (labels : list string) :
  (∀ c, c ∈ labels → c ∉ other) → suffixed other suffix <$> labels = labels.
Proof.
  induction labels as [|c l IH]; intros H; [done|].
  rewrite fmap_cons, IH by (intros x Hx; apply H; by right).
  unfold suffixed. rewrite bool_decide_eq_false_2; [done|]. apply H. by left.
Qed.

Lemma suffix_clashes_disjoint lcols rcols :
  (∀ c, c ∈ lcols → c ∉ rcols) → suffix_clashes lcols rcols = [].
Proof.
  intros H. unfold suffix_clashes.
  rewrite !suffixed_disjoint, !new_duplicates_same; [done| |done].
  intros c Hr Hl. by apply (H c).
Qed.

(** When the labels of the two loaded collections are all different, and
    none of them is Standard_ID, the handler returns: the join adds no
    suffix and the result has no repeated label.  The identifiers of the
    second collection are normalized, as the loader leaves them. *)
Theorem handler_returns_for_distinct_labels file1 file2 names1 names2 id1 id2
    log1 df1 log2 df2 :
  load_dataframe_from_selected_sheets file1 names1 id1 0 = (log1, Ok df1) →
  load_dataframe_from_selected_sheets file2 names2 id2 0 = (log2, Ok df2) →
  standardized df2 id2 →
  NoDup (columns df1 ++ "Standard_ID" :: columns df2) →
  (on_find_duplicates file1 file2 names1 names2 id1 id2).2 = Ok ().
Proof.
  intros H1 H2 Hstd Hnd.
  destruct (decide (names1 = [])) as [->|Hn1]; [done|].
  destruct (decide (names2 = [])) as [->|Hn2].
  { unfold on_find_duplicates. by rewrite bool_decide_eq_false_2. }
  destruct (empty df1) eqn:He1.
  { erewrite on_find_duplicates_empty; eauto. }
  destruct (empty df2) eqn:He2.
  { erewrite on_find_duplicates_empty; eauto. }
  destruct (load_dataframe_cases file1 names1 id1 0) as (l1 & d1 & Heq1 & Hc1).
  rewrite H1 in Heq1. injection Heq1 as <- <-.
  destruct (load_dataframe_cases file2 names2 id2 0) as (l2 & d2 & Heq2 & Hc2).
  rewrite H2 in Heq2. injection Heq2 as <- <-.
  destruct Hc1 as [(? & ? & _ & _ & ->)|[_ [i Hi]%get_loc_is_Some]]; [done|].
  destruct Hc2 as [(? & ? & _ & _ & ->)|[_ Hid2]]; [done|].
  apply NoDup_app in Hnd as Hparts. destruct Hparts as (_ & Hdisj & Hright).
  apply NoDup_cons in Hright as [Hstd2 _].
  assert ("Standard_ID" ∉ columns df1) as Hnew.
  { intros Hin. apply (Hdisj _ Hin). by left. }
  assert (id2 ≠ "Standard_ID") as Hother by (by intros ->).
  assert (∀ c, c ∈ columns df1 ++ ["Standard_ID"] → c ∉ columns df2) as Hdisj'.
  { intros c [Hc| ->%list_elem_of_singleton]%elem_of_app; [|done].
    intros Hc2. apply (Hdisj _ Hc). by right. }
  apply get_loc_is_Some in Hid2 as [ri Hri].
  assert (merge_check (columns df1) df2 id2 ri = None) as Hok.
  { apply merge_check_None; [done..| |by apply (numeric_key_standardized _ id2)].
    by apply suffix_clashes_disjoint. }
  destruct (find_duplicates_ok df1 df2 id1 id2 500 i ri) as (logm & text & Hm & _);
    [lia|done|done|by left|].
  rewrite (match_result_ok _ _ _ _ _ _ Hi Hri) in Hm by (by left).
  rewrite (on_find_duplicates_run _ _ _ _ _ _ _ _ _ _ _ _ Hn1 Hn2 H1 H2 He1 He2 Hm).
  simpl snd. unfold match_frame.
  destruct (enrich_rows _ _ _ _ _ _) as [|o os]; [done|].
  simpl empty. rewrite (bool_decide_eq_true_2 (NoDup _)); [by rewrite orb_true_r|].
  simpl columns. unfold result_columns, chunk_columns, right_columns.
  rewrite (proj2 (get_loc_None _ _) Hnew), bool_decide_eq_false_2 by (by intros <-).
  rewrite !suffixed_disjoint; [by rewrite <- app_assoc|..]; [|done].
  intros c Hc2 Hc1. by apply (Hdisj' c).
Qed.

Lemma handler_returns_for_distinct_labels_witness :
  let df1 := mkDataFrame ["ID"; "Name"] [[VStr "A7"; VStr "x"]; [VStr "12"; VStr "y"]] in
  let df2 := mkDataFrame ["Key"; "Flat"] [[VStr ""; VInt 4]; [VStr "A7"; VInt 5]] in
  let log1 := (load_dataframe_from_selected_sheets file_three_sheets ["North"] "ID" 0).1 in
  let log2 := (load_dataframe_from_selected_sheets file_blank_2 ["Flats"] "Key" 0).1 in
  load_dataframe_from_selected_sheets file_three_sheets ["North"] "ID" 0 = (log1, Ok df1)
  ∧ load_dataframe_from_selected_sheets file_blank_2 ["Flats"] "Key" 0 = (log2, Ok df2)
  ∧ standardized df2 "Key"
  ∧ NoDup (columns df1 ++ "Standard_ID" :: columns df2)
  ∧ (on_find_duplicates file_three_sheets file_blank_2 ["North"] ["Flats"] "ID" "Key").2
    = Ok ().
Proof.
  intros df1 df2 log1 log2.
  assert (load_dataframe_from_selected_sheets file_three_sheets ["North"] "ID" 0
          = (log1, Ok df1)) as H1 by (vm_compute; reflexivity).
  assert (load_dataframe_from_selected_sheets file_blank_2 ["Flats"] "Key" 0
          = (log2, Ok df2)) as H2 by (vm_compute; reflexivity).
  assert (standardized df2 "Key") as H3.
  { repeat constructor; [by exists (VStr "")|by exists (VStr "A7")]. }
  assert (NoDup (columns df1 ++ "Standard_ID" :: columns df2)) as H4 by compute_done.
  repeat (split; [assumption|]).
  exact (handler_returns_for_distinct_labels file_three_sheets file_blank_2
           ["North"] ["Flats"] "ID" "Key" log1 df1 log2 df2 H1 H2 H3 H4).
Defined.

(** ** The loader's messages and row count *)

Lemma len_standardize df id : id ∈ columns df → len (standardize df id) = len df.
Proof.
  intros [i Hi]%get_loc_is_Some. rewrite (standardize_rows _ _ _ Hi).
  unfold len. simpl. by rewrite length_fmap.
Qed.

Section loader_log.
Context (file : UploadedFile) (xls : ExcelFile) (id : string) (header : nat).

Lemma load_sheet_log sheet_name all_dfs :
  (sheet_name ∈ sheet_names xls → ∃ df, read_excel xls sheet_name header = Ok df) →
  load_sheet file xls id header sheet_name all_dfs
  = (sheet_message file xls id header sheet_name,
     Ok (all_dfs ++ retained_sheets xls [sheet_name] id header)).
Proof.
  intros Hread. unfold load_sheet, sheet_message, retained_sheets. simpl omap.
  case_bool_decide as Hin.
  - destruct (Hread Hin) as [df Hdf]. rewrite Hdf, lift_Ok_bind.
    case_bool_decide as Hid.
    + rewrite (getitem_column _ _ Hid), lift_Ok_bind, emit_bind, logged_mret.
      fold (standardize df id). by rewrite (len_standardize _ _ Hid).
    + by rewrite emit_bind, logged_mret, app_nil_r.
  - by rewrite emit_bind, logged_mret, app_nil_r.
Qed.

Lemma for_each_load_sheet_log names :
  readable xls names header →
  ∀ all_dfs,
    for_each names (load_sheet file xls id header) all_dfs
    = (names ≫= sheet_message file xls id header,
       Ok (all_dfs ++ retained_sheets xls names id header)).
Proof.
  induction 1 as [|n ns Hn _ IH]; intros all_dfs.
  - simpl. by rewrite app_nil_r.
  - simpl for_each. rewrite (load_sheet_log n all_dfs Hn), bind_pair, IH, logged_pair.
    by rewrite (retained_sheets_cons xls id header n ns), app_assoc.
Qed.

End loader_log.

Lemma length_bind_rows {A} (f : DataFrame → list cell → A) (dfs : list DataFrame) :
  length (dfs ≫= (λ d, f d <$> rows d)) = sum_list ((λ d, length (rows d)) <$> dfs).
Proof.
  induction dfs as [|d dfs IH]; [done|].
  change (length ((f d <$> rows d) ++ (dfs ≫= λ d, f d <$> rows d))
          = (length (rows d) + sum_list ((λ d, length (rows d)) <$> dfs))%nat).
  by rewrite length_app, length_fmap, IH.
Qed.

Lemma load_dataframe_log file xls names id header :
  open_excel file = Ok xls →
  readable xls names header →
  load_dataframe_from_selected_sheets file names id header
  = match retained_sheets xls names id header with
    | [] => ((names ≫= sheet_message file xls id header) ++ [no_sheet_error id],
             Ok empty_frame)
    | dfs => (names ≫= sheet_message file xls id header, concat dfs)
    end.
Proof.
  intros Hopen Hread. unfold load_dataframe_from_selected_sheets.
  rewrite Hopen, lift_Ok_bind, (for_each_load_sheet_log file xls id header names Hread).
  simpl app. rewrite bind_pair.
  destruct (retained_sheets xls names id header) as [|d ds].
  - rewrite bool_decide_eq_true_2 by done.
    by rewrite emit_bind, logged_logged, logged_mret, try_except_Ok.
  - rewrite bool_decide_eq_false_2 by done.
    destruct (concat_cons d ds) as (out & _ & -> & _).
    by rewrite lift_Ok_bind, logged_mret, try_except_Ok.
Qed.

(** The loader accounts for every requested sheet name, in the order of
    the request, by one message: the sheet as loaded with its number of
    rows, a warning that the sheet lacks the identifier column, or a
    warning that the workbook has no such sheet; the error that no sheet
    was retained comes after them. *)
Theorem loader_messages file xls names id header :
  open_excel file = Ok xls →
  readable xls names header →
  (load_dataframe_from_selected_sheets file names id header).1
  = (names ≫= sheet_message file xls id header)
      ++ (if bool_decide (retained_sheets xls names id header = [])
          then [no_sheet_error id] else [])
  ∧ length (names ≫= sheet_message file xls id header) = length names.
Proof.
  intros Hopen Hread. split.
  - rewrite (load_dataframe_log _ _ _ _ _ Hopen Hread).
    destruct (retained_sheets xls names id header) as [|d ds]; [done|].
    rewrite bool_decide_eq_false_2 by done. by rewrite app_nil_r.
  - induction Hread as [|n ns Hn _ IH]; [done|].
    change (length (sheet_message file xls id header n
                      ++ (ns ≫= sheet_message file xls id header))
            = S (length ns)).
    rewrite length_app, IH. unfold sheet_message.
    case_bool_decide as Hin; [|done].
    destruct (Hn Hin) as [df ->]. by case_bool_decide.
Qed.

Lemma loader_messages_witness :
  let xls := mkExcelFile
               [("North", λ _, Ok (mkDataFrame ["ID"; "Name"]
                                      [[VStr " A7 "; VStr "x"]; [VInt 12; VStr "y"]]));
                ("Notes", λ _, Ok (mkDataFrame ["Remark"] [[VStr "n/a"]]));
                ("South", λ _, Ok (mkDataFrame ["Name"; "ID"; "Floor"]
                                      [[VStr "z"; VStr "B2"; VStr "3rd"]]))] in
  let names := ["South"; "West"; "Notes"] in
  open_excel file_three_sheets = Ok xls
  ∧ readable xls names 0
  ∧ (load_dataframe_from_selected_sheets file_three_sheets names "ID" 0).1
    = (names ≫= sheet_message file_three_sheets xls "ID" 0)
        ++ (if bool_decide (retained_sheets xls names "ID" 0 = [])
            then [no_sheet_error "ID"] else [])
  ∧ length (names ≫= sheet_message file_three_sheets xls "ID" 0) = length names.
Proof.
  intros xls names.
  assert (open_excel file_three_sheets = Ok xls) as H1 by reflexivity.
  assert (readable xls names 0) as H2.
  { repeat constructor.
    - intros _. eexists. reflexivity.
    - intros Hin. exfalso. revert Hin. compute_done.
    - intros _. eexists. reflexivity. }
  repeat (split; [assumption|]).
  exact (loader_messages file_three_sheets xls names "ID" 0 H1 H2).
Defined.

(** The collection the loader returns has as many rows as the retained
    sheets have together: a sheet that is missing or lacks the identifier
    column contributes none, and no row of a retained sheet is lost. *)
Theorem loader_row_count file xls names id header log df :
  open_excel file = Ok xls →
  readable xls names header →
  load_dataframe_from_selected_sheets file names id header = (log, Ok df) →
  length (rows df)
  = sum_list ((λ d, length (rows d)) <$> retained_sheets xls names id header).
Proof.
  intros Hopen Hread Hload.
  rewrite (load_dataframe_log _ _ _ _ _ Hopen Hread) in Hload.
  destruct (retained_sheets xls names id header) as [|d ds].
  { by injection Hload as _ <-. }
  destruct (concat_cons d ds) as (out & lay & Hconcat & Hrows & _).
  rewrite Hconcat in Hload. injection Hload as _ <-.
  by rewrite Hrows, length_bind_rows.
Qed.

Lemma loader_row_count_witness :
  let xls := mkExcelFile
               [("North", λ _, Ok (mkDataFrame ["ID"; "Name"]
                                      [[VStr " A7 "; VStr "x"]; [VInt 12; VStr "y"]]));
                ("Notes", λ _, Ok (mkDataFrame ["Remark"] [[VStr "n/a"]]));
                ("South", λ _, Ok (mkDataFrame ["Name"; "ID"; "Floor"]
                                      [[VStr "z"; VStr "B2"; VStr "3rd"]]))] in
  let names := ["South"; "Notes"; "North"] in
  let df := mkDataFrame ["Name"; "ID"; "Floor"]
              [[VStr "z"; VStr "B2"; VStr "3rd"];
               [VStr "x"; VStr "A7"; VMissing];
               [VStr "y"; VStr "12"; VMissing]] in
  let log := [st_info "Loaded data from sheet 'South' of 'flats.xlsx' with 1 rows.";
              st_warning "Column 'ID' not found in sheet 'Notes'. Skipping this sheet.";
              st_info "Loaded data from sheet 'North' of 'flats.xlsx' with 2 rows."] in
  open_excel file_three_sheets = Ok xls
  ∧ readable xls names 0
  ∧ load_dataframe_from_selected_sheets file_three_sheets names "ID" 0 = (log, Ok df)
  ∧ length (rows df)
    = sum_list ((λ d, length (rows d)) <$> retained_sheets xls names "ID" 0).
Proof.
  intros xls names df log.
  assert (open_excel file_three_sheets = Ok xls) as H1 by reflexivity.
  assert (readable xls names 0) as H2.
  { repeat constructor; intros _; eexists; reflexivity. }
  assert (load_dataframe_from_selected_sheets file_three_sheets names "ID" 0
          = (log, Ok df)) as H3 by (vm_compute; reflexivity).
  repeat (split; [assumption|]).
  exact (loader_row_count file_three_sheets xls names "ID" 0 log df H1 H2 H3).
Defined.

Lemma handler_log_by_stage_witness :
  let df1 := mkDataFrame ["ID"; "Name"] [[VStr "A7"; VStr "x"]; [VStr "12"; VStr "y"]] in
  let df2 := mkDataFrame ["Key"; "Flat"] [[VStr ""; VInt 4]; [VStr "A7"; VInt 5]] in
  let out := mkDataFrame ["ID"; "Name"; "Standard_ID"; "Key"; "Flat"]
               [[VStr "A7"; VStr "x"; VStr "A7"; VStr "A7"; VInt 5]] in
  let log1 := (load_dataframe_from_selected_sheets file_three_sheets ["North"] "ID" 0).1 in
  let log2 := (load_dataframe_from_selected_sheets file_blank_2 ["Flats"] "Key" 0).1 in
  let logm := (find_duplicates df1 df2 "ID" "Key" 500).1 in
  ["North"] ≠ [] ∧ ["Flats"] ≠ []
  ∧ load_dataframe_from_selected_sheets file_three_sheets ["North"] "ID" 0
    = (log1, Ok df1)
  ∧ load_dataframe_from_selected_sheets file_blank_2 ["Flats"] "Key" 0 = (log2, Ok df2)
  ∧ empty df1 = false ∧ empty df2 = false
  ∧ find_duplicates df1 df2 "ID" "Key" 500 = (logm, Ok out)
  ∧ NoDup (columns out)
  ∧ on_find_duplicates file_three_sheets file_blank_2 ["North"] ["Flats"] "ID" "Key"
    = (st_spinner "Loading data... This may take a moment."
         :: log1 ++ log2 ++ st_header "Processing and Finding Duplicates..."
         :: logm
         ++ (if empty out then []
             else [st_header "Results: Duplicate Records Found";
                   st_dataframe out;
                   st_download_button "📥 Download Results as CSV" (to_csv out)
                     "duplicate_report.csv" "text/csv"]),
       Ok ()).
Proof.
  intros df1 df2 out log1 log2 logm.
  assert (["North"] ≠ ([] : list string)) as H1 by done.
  assert (["Flats"] ≠ ([] : list string)) as H2 by done.
  assert (load_dataframe_from_selected_sheets file_three_sheets ["North"] "ID" 0
          = (log1, Ok df1)) as H3 by (vm_compute; reflexivity).
  assert (load_dataframe_from_selected_sheets file_blank_2 ["Flats"] "Key" 0
          = (log2, Ok df2)) as H4 by (vm_compute; reflexivity).
  assert (empty df1 = false) as H5 by reflexivity.
  assert (empty df2 = false) as H6 by reflexivity.
  assert (find_duplicates df1 df2 "ID" "Key" 500 = (logm, Ok out)) as H7
    by (vm_compute; reflexivity).
  assert (NoDup (columns out)) as H8 by compute_done.
  repeat (split; [assumption|]).
  exact (handler_log_by_stage file_three_sheets file_blank_2 ["North"] ["Flats"]
           "ID" "Key" log1 df1 log2 df2 logm out H1 H2 H3 H4 H5 H6 H7 H8).
Defined.

(** ** Identifier columns that are not there, and other chunk sizes *)

(** Without the identifier column in the second collection the matcher
    stops with [KeyError] on that column before it reports the lookup set
    or looks at any row; chunk size and first collection do not matter. *)
Theorem second_identifier_column_missing df1 df2 id1 id2 c :
  id2 ∉ columns df2 →
  find_duplicates df1 df2 id1 id2 c
  = ([st_progress 0 1; st_placeholder], Raise (KeyError id2)).
Proof.
  intros Hri%get_loc_None. unfold find_duplicates.
  by rewrite !emit_bind, (getitem_None _ _ Hri), lift_Raise_bind.
Qed.

Lemma second_identifier_column_missing_witness :
  ("Code" ∉ columns frame_A7)
  ∧ find_duplicates frame_3 frame_A7 "ID" "Code" 500
    = ([st_progress 0 1; st_placeholder], Raise (KeyError "Code")).
Proof.
  assert ("Code" ∉ columns frame_A7) as H1 by compute_done.
  split; [assumption|].
  exact (second_identifier_column_missing frame_3 frame_A7 "ID" "Code" 500 H1).
Defined.

(** Without the identifier column in a first collection that has rows, the
    matcher stops with [KeyError] on that column in its first chunk: the
    lookup set has been reported, no chunk has. *)
Theorem first_identifier_column_missing df1 df2 id1 id2 c :
  0 < c →
  id2 ∈ columns df2 →
  id1 ∉ columns df1 →
  rows df1 ≠ [] →
  find_duplicates df1 df2 id1 id2 c
  = ([st_progress 0 1; st_placeholder;
      st_info ("Created a lookup set with "
                 +:+ pretty (size (lookup_set (column df2 id2)))
                 +:+ " unique IDs from the second file.")],
     Raise (KeyError id1)).
Proof.
  intros Hc [ri Hri]%get_loc_is_Some Hi%get_loc_None Hrows.
  unfold find_duplicates.
  rewrite !emit_bind, (getitem_Some _ _ _ Hri), lift_Ok_bind, emit_bind.
  rewrite lookup_set_eq, <- (column_Some _ _ _ Hri).
  rewrite range_positive, lift_Ok_bind by done.
  assert (0 < len df1) as Hlen.
  { unfold len. destruct (rows df1); [done|]. simpl length. lia. }
  destruct (Z.to_nat (Z.abs (len df1 - 0))) as [|fuel] eqn:Hfuel; [lia|].
  simpl range_from. rewrite bool_decide_eq_true_2 by lia. simpl for_each.
  rewrite (find_duplicates_chunk_KeyError _ _ _ _ _ _ _ _ _ Hi).
  by rewrite !bind_Raise.
Qed.

Lemma first_identifier_column_missing_witness :
  0 < 500 ∧ "Key" ∈ columns frame_A7 ∧ ("Code" ∉ columns frame_3)
  ∧ rows frame_3 ≠ []
  ∧ find_duplicates frame_3 frame_A7 "Code" "Key" 500
    = ([st_progress 0 1; st_placeholder;
        st_info ("Created a lookup set with "
                   +:+ pretty (size (lookup_set (column frame_A7 "Key")))
                   +:+ " unique IDs from the second file.")],
       Raise (KeyError "Code")).
Proof.
  assert (0 < 500) as H1 by lia.
  assert ("Key" ∈ columns frame_A7) as H2 by compute_done.
  assert ("Code" ∉ columns frame_3) as H3 by compute_done.
  assert (rows frame_3 ≠ []) as H4 by done.
  repeat (split; [assumption|]).
  exact (first_identifier_column_missing frame_3 frame_A7 "Code" "Key" 500 H1 H2 H3 H4).
Defined.

(** The chunk size 0 stops the matcher with the [ValueError] of [range],
    after the lookup set is reported and before any row is looked at. *)
Theorem chunk_size_zero_raises df1 df2 id1 id2 :
  id2 ∈ columns df2 →
  find_duplicates df1 df2 id1 id2 0
  = ([st_progress 0 1; st_placeholder;
      st_info ("Created a lookup set with "
                 +:+ pretty (size (lookup_set (column df2 id2)))
                 +:+ " unique IDs from the second file.")],
     Raise (ValueError "range() arg 3 must not be zero")).
Proof.
  intros [ri Hri]%get_loc_is_Some. unfold find_duplicates.
  rewrite !emit_bind, (getitem_Some _ _ _ Hri), lift_Ok_bind, emit_bind.
  rewrite lookup_set_eq, <- (column_Some _ _ _ Hri).
  unfold range. by rewrite bool_decide_eq_true_2, lift_Raise_bind.
Qed.

Lemma chunk_size_zero_raises_witness :
  "Key" ∈ columns frame_A7
  ∧ find_duplicates frame_3 frame_A7 "ID" "Key" 0
    = ([st_progress 0 1; st_placeholder;
        st_info ("Created a lookup set with "
                   +:+ pretty (size (lookup_set (column frame_A7 "Key")))
                   +:+ " unique IDs from the second file.")],
       Raise (ValueError "range() arg 3 must not be zero")).
Proof.
  assert ("Key" ∈ columns frame_A7) as H1 by compute_done.
  split; [assumption|].
  exact (chunk_size_zero_raises frame_3 frame_A7 "ID" "Key" H1).
Defined.

(** With a negative chunk size [range] is empty: the matcher looks at no
    row, reports no progress and announces that no duplicates were found,
    whatever the two collections hold. *)
Theorem negative_chunk_size_finds_nothing df1 df2 id1 id2 c :
  c < 0 →
  id2 ∈ columns df2 →
  find_duplicates df1 df2 id1 id2 c
  = ([st_progress 0 1; st_placeholder;
      st_info ("Created a lookup set with "
                 +:+ pretty (size (lookup_set (column df2 id2)))
                 +:+ " unique IDs from the second file.");
      st_clear progress_bar; st_clear status_text;
      st_success "✅ Comparison complete! No duplicates were found."],
     Ok empty_frame).
Proof.
  intros Hc [ri Hri]%get_loc_is_Some. unfold find_duplicates.
  rewrite !emit_bind, (getitem_Some _ _ _ Hri), lift_Ok_bind, emit_bind.
  rewrite lookup_set_eq, <- (column_Some _ _ _ Hri).
  assert (range 0 (len df1) c = Ok []) as ->.
  { unfold range. rewrite bool_decide_eq_false_2 by lia. f_equal.
    destruct (Z.to_nat _); [done|]. simpl.
    rewrite bool_decide_eq_false_2; [done|]. unfold len. lia. }
  rewrite lift_Ok_bind. simpl for_each. rewrite mret_bind, !emit_bind.
  rewrite bool_decide_eq_false_2 by (intros H; by apply H).
  by rewrite !logged_logged, logged_mret.
Qed.

Lemma negative_chunk_size_finds_nothing_witness :
  -1 < 0 ∧ "Key" ∈ columns frame_A7
  ∧ find_duplicates frame_3 frame_A7 "ID" "Key" (-1)
    = ([st_progress 0 1; st_placeholder;
        st_info ("Created a lookup set with "
                   +:+ pretty (size (lookup_set (column frame_A7 "Key")))
                   +:+ " unique IDs from the second file.");
        st_clear progress_bar; st_clear status_text;
        st_success "✅ Comparison complete! No duplicates were found."],
       Ok empty_frame).
Proof.
  assert (-1 < 0) as H1 by lia.
  assert ("Key" ∈ columns frame_A7) as H2 by compute_done.
  repeat (split; [assumption|]).
  exact (negative_chunk_size_finds_nothing frame_3 frame_A7 "ID" "Key" (-1) H1 H2).
Defined.

(** ** A join that fails *)

Lemma enrich_rows_elem_of cols i df2 id2 ri rs r :
  r ∈ rs → rectangular cols r →
  standard_id (at_loc i r) ∈ lookup_set (at_loc ri <$> rows df2) →
  enrich_rows cols i df2 id2 ri rs ≠ [].
Proof.
  intros (pre & post & ->)%list_elem_of_split Hr Hin.
  rewrite enrich_rows_app, (enrich_rows_cons _ _ _ _ _ r), enrich_rows_in by done.
  intros [_ [H _]%app_eq_nil]%app_eq_nil. by apply join_row_nonempty in H.
Qed.

Lemma dtype_int64 s : dtype s = "int64" → numeric_key s = true.
Proof.
  unfold dtype, numeric_key. destruct s as [|v s]; [done|].
  rewrite bool_decide_eq_false_2 by done. cbn [orb negb andb].
  by destruct (existsb is_text (v :: s)).
Qed.

(** A second collection whose identifier column holds integers only, as a
    caller that bypasses the loader can pass it: as soon as a row of the
    first collection passes the filter the join refuses to compare its
    text key with the integers, and the matcher ends in [ValueError],
    without a result and without a message of its own. *)
Theorem numeric_key_column_raises df1 df2 id1 id2 c r :
  0 < c →
  id1 ∈ columns df1 → id2 ∈ columns df2 →
  dtype (column df2 id2) = "int64" →
  r ∈ rows df1 → rectangular (columns df1) r →
  standard_id (row_get (columns df1) id1 r) ∈ lookup_set (column df2 id2) →
  ∃ log msg,
    find_duplicates df1 df2 id1 id2 c = (log, Raise (ValueError msg))
    ∧ Forall (λ e, is_error e = false) log.
Proof.
  intros Hc [i Hi]%get_loc_is_Some [ri Hri]%get_loc_is_Some Hint Hr Hrect Hin.
  rewrite (row_get_Some _ _ _ _ Hi) in Hin.
  rewrite (column_Some _ _ _ Hri) in Hint, Hin.
  destruct (find_duplicates_raise df1 df2 id1 id2 c i ri Hc Hi Hri
              (ValueError (merge_keys_message "object" "int64" "Standard_ID")))
    as (log & Heq & Hlog).
  - unfold merge_check. by rewrite (dtype_int64 _ Hint), Hint.
  - by eapply enrich_rows_elem_of.
  - eauto.
Qed.

Lemma numeric_key_column_raises_witness :
  let df1 := mkDataFrame ["ID"; "Name"] [[VStr "A9"; VStr "x"]; [VStr " 5"; VStr "y"]] in
  let df2 := mkDataFrame ["Key"; "Flat"] [[VInt 5; VStr "a"]; [VInt 7; VStr "b"]] in
  let r := [VStr " 5"; VStr "y"] in
  0 < 500
  ∧ "ID" ∈ columns df1 ∧ "Key" ∈ columns df2
  ∧ dtype (column df2 "Key") = "int64"
  ∧ r ∈ rows df1 ∧ rectangular (columns df1) r
  ∧ standard_id (row_get (columns df1) "ID" r) ∈ lookup_set (column df2 "Key")
  ∧ ∃ log msg,
      find_duplicates df1 df2 "ID" "Key" 500 = (log, Raise (ValueError msg))
      ∧ Forall (λ e, is_error e = false) log.
Proof.
  intros df1 df2 r.
  assert (0 < 500) as H1 by lia.
  assert ("ID" ∈ columns df1) as H2 by compute_done.
  assert ("Key" ∈ columns df2) as H3 by compute_done.
  assert (dtype (column df2 "Key") = "int64") as H4 by reflexivity.
  assert (r ∈ rows df1) as H5 by compute_done.
  assert (rectangular (columns df1) r) as H6 by reflexivity.
  assert (standard_id (row_get (columns df1) "ID" r) ∈ lookup_set (column df2 "Key"))
    as H7 by compute_done.
  repeat (split; [assumption|]).
  exact (numeric_key_column_raises df1 df2 "ID" "Key" 500 r H1 H2 H3 H4 H5 H6 H7).
Defined.

(** Integer keys in the second collection, and a first record 5. *)
Example integer_keys :
  find_duplicates
    (mkDataFrame ["ID"; "Name"] [[VStr "A9"; VStr "x"]; [VStr " 5"; VStr "y"]])
    (mkDataFrame ["Key"; "Flat"] [[VInt 5; VStr "a"]; [VInt 7; VStr "b"]])
    "ID" "Key" 500
  = ([st_progress 0 1; st_placeholder;
      st_info "Created a lookup set with 2 unique IDs from the second file."],
     Raise (ValueError "You are trying to merge on object and int64 columns for key 'Standard_ID'. If you wish to proceed you should use pd.concat")).
Proof. vm_compute. reflexivity. Qed.

(** Labels that the suffixes of the join turn into duplicates within one
    collection, as Name and Name_File1 in the first one when the second
    one has a label Name: as soon as a row of the first collection passes
    the filter the matcher ends in [MergeError]. *)
Theorem suffix_clash_raises df1 df2 id1 id2 c r :
  0 < c →
  id1 ∈ columns df1 → id2 ∈ columns df2 →
  "Standard_ID" ∉ columns df1 → id2 ≠ "Standard_ID" →
  numeric_key (column df2 id2) = false →
  suffix_clashes (columns df1 ++ ["Standard_ID"]) (columns df2) ≠ [] →
  r ∈ rows df1 → rectangular (columns df1) r →
  standard_id (row_get (columns df1) id1 r) ∈ lookup_set (column df2 id2) →
  ∃ log msg,
    find_duplicates df1 df2 id1 id2 c = (log, Raise (MergeError msg))
    ∧ Forall (λ e, is_error e = false) log.
Proof.
  intros Hc [i Hi]%get_loc_is_Some [ri Hri]%get_loc_is_Some Hnew%get_loc_None Hid2
    Hnum Hclash Hr Hrect Hin.
  rewrite (row_get_Some _ _ _ _ Hi) in Hin.
  rewrite (column_Some _ _ _ Hri) in Hnum, Hin.
  destruct (find_duplicates_raise df1 df2 id1 id2 c i ri Hc Hi Hri
              (MergeError
                 (duplicate_columns_message
                    (suffix_clashes (columns df1 ++ ["Standard_ID"]) (columns df2)))))
    as (log & Heq & Hlog).
  - unfold merge_check, chunk_columns, right_columns.
    rewrite Hnum, Hnew, bool_decide_eq_false_2 by (by intros <-).
    by destruct (suffix_clashes _ _).
  - by eapply enrich_rows_elem_of.
  - eauto.
Qed.

Lemma suffix_clash_raises_witness :
  let df1 := mkDataFrame ["ID"; "Name"; "Name_File1"] [[VStr "A7"; VStr "x"; VStr "old"]] in
  let df2 := mkDataFrame ["Key"; "Name"] [[VStr "A7"; VStr "y"]] in
  let r := [VStr "A7"; VStr "x"; VStr "old"] in
  0 < 500
  ∧ "ID" ∈ columns df1 ∧ "Key" ∈ columns df2
  ∧ ("Standard_ID" ∉ columns df1) ∧ "Key" ≠ "Standard_ID"
  ∧ numeric_key (column df2 "Key") = false
  ∧ suffix_clashes (columns df1 ++ ["Standard_ID"]) (columns df2) ≠ []
  ∧ r ∈ rows df1 ∧ rectangular (columns df1) r
  ∧ standard_id (row_get (columns df1) "ID" r) ∈ lookup_set (column df2 "Key")
  ∧ ∃ log msg,
      find_duplicates df1 df2 "ID" "Key" 500 = (log, Raise (MergeError msg))
      ∧ Forall (λ e, is_error e = false) log.
Proof.
  intros df1 df2 r.
  assert (0 < 500) as H1 by lia.
  assert ("ID" ∈ columns df1) as H2 by compute_done.
  assert ("Key" ∈ columns df2) as H3 by compute_done.
  assert ("Standard_ID" ∉ columns df1) as H4 by compute_done.
  assert ("Key" ≠ "Standard_ID") as H5 by compute_done.
  assert (numeric_key (column df2 "Key") = false) as H6 by reflexivity.
  assert (suffix_clashes (columns df1 ++ ["Standard_ID"]) (columns df2) ≠ []) as H7
    by (vm_compute; discriminate).
  assert (r ∈ rows df1) as H8 by compute_done.
  assert (rectangular (columns df1) r) as H9 by reflexivity.
  assert (standard_id (row_get (columns df1) "ID" r) ∈ lookup_set (column df2 "Key"))
    as H10 by compute_done.
  repeat (split; [assumption|]).
  exact (suffix_clash_raises df1 df2 "ID" "Key" 500 r H1 H2 H3 H4 H5 H6 H7 H8 H9 H10).
Defined.

(** The labels Name and Name_File1 against Name, with a match and without
    one. *)
Example name_and_name_File1 :
  find_duplicates
    (mkDataFrame ["ID"; "Name"; "Name_File1"] [[VStr "A7"; VStr "x"; VStr "old"]])
    (mkDataFrame ["Key"; "Name"] [[VStr "A7"; VStr "y"]]) "ID" "Key" 500
  = ([st_progress 0 1; st_placeholder;
      st_info "Created a lookup set with 1 unique IDs from the second file."],
     Raise (MergeError "Passing 'suffixes' which cause duplicate columns {'Name_File1'} is not allowed."))
  ∧ (find_duplicates
       (mkDataFrame ["ID"; "Name"; "Name_File1"] [[VStr "A9"; VStr "x"; VStr "old"]])
       (mkDataFrame ["Key"; "Name"] [[VStr "A7"; VStr "y"]]) "ID" "Key" 500).2
    = Ok empty_frame.
Proof. split; vm_compute; reflexivity. Qed.

(** ** The shape of the Match Result *)

(** Whatever the chunk size, a Match Result is [pd.DataFrame()] or has
    rows: the matcher never returns a header without records. *)
Theorem result_empty_or_has_rows df1 df2 id1 id2 c out :
  (find_duplicates df1 df2 id1 id2 c).2 = Ok out →
  out = empty_frame ∨ rows out ≠ [].
Proof.
  intros Hout.
  destruct (decide (id2 ∈ columns df2)) as [Hid2|Hid2]; last first.
  { apply get_loc_None in Hid2.
    by rewrite (find_duplicates_KeyError_2 _ _ _ _ _ Hid2) in Hout. }
  destruct (Z.lt_trichotomy c 0) as [Hc|[->|Hc]].
  - rewrite find_duplicates_chunk_size_negative in Hout by done.
    left. by injection Hout.
  - by rewrite find_duplicates_chunk_size_zero in Hout.
  - rewrite find_duplicates_result in Hout by done. unfold match_result in Hout.
    destruct (get_loc id2 (columns df2)) as [ri|]; [|done].
    destruct (rows df1); [left; by injection Hout|].
    destruct (get_loc id1 (columns df1)) as [i|]; [|done].
    destruct (enrich_rows _ _ _ _ _ _) as [|o os]; [left; by injection Hout|].
    destruct (merge_check _ _ _ _); [done|]. injection Hout as <-. by right.
Qed.

Lemma result_empty_or_has_rows_witness :
  (find_duplicates frame_3 frame_A7 "ID" "Key" 2).2
  = Ok (mkDataFrame ["ID"; "Name"; "Standard_ID"; "Key"; "Flat"]
          [[VStr " A7 "; VStr "x"; VStr "A7"; VStr "A7"; VInt 1];
           [VStr " A7 "; VStr "x"; VStr "A7"; VStr "A7"; VInt 3];
           [VStr "B2"; VStr "y"; VStr "B2"; VStr "B2"; VInt 2]])
  ∧ (mkDataFrame ["ID"; "Name"; "Standard_ID"; "Key"; "Flat"]
       [[VStr " A7 "; VStr "x"; VStr "A7"; VStr "A7"; VInt 1];
        [VStr " A7 "; VStr "x"; VStr "A7"; VStr "A7"; VInt 3];
        [VStr "B2"; VStr "y"; VStr "B2"; VStr "B2"; VInt 2]] = empty_frame
     ∨ rows (mkDataFrame ["ID"; "Name"; "Standard_ID"; "Key"; "Flat"]
               [[VStr " A7 "; VStr "x"; VStr "A7"; VStr "A7"; VInt 1];
                [VStr " A7 "; VStr "x"; VStr "A7"; VStr "A7"; VInt 3];
                [VStr "B2"; VStr "y"; VStr "B2"; VStr "B2"; VInt 2]]) ≠ []).
Proof.
  assert ((find_duplicates frame_3 frame_A7 "ID" "Key" 2).2
          = Ok (mkDataFrame ["ID"; "Name"; "Standard_ID"; "Key"; "Flat"]
                  [[VStr " A7 "; VStr "x"; VStr "A7"; VStr "A7"; VInt 1];
                   [VStr " A7 "; VStr "x"; VStr "A7"; VStr "A7"; VInt 3];
                   [VStr "B2"; VStr "y"; VStr "B2"; VStr "B2"; VInt 2]])) as H1
    by (vm_compute; reflexivity).
  split; [assumption|].
  exact (result_empty_or_has_rows frame_3 frame_A7 "ID" "Key" 2 _ H1).
Defined.

Lemma match_result_inv df1 df2 id1 id2 out o :
  match_result df1 df2 id1 id2 = Ok out → o ∈ rows out →
  ∃ i ri,
    get_loc id1 (columns df1) = Some i ∧ get_loc id2 (columns df2) = Some ri
    ∧ out = mkDataFrame (result_columns (columns df1) df2 id2 ri)
              (enrich_rows (columns df1) i df2 id2 ri (rows df1)).
Proof.
  unfold match_result. intros Hout Ho.
  destruct (get_loc id2 (columns df2)) as [ri|]; [|done].
  destruct (rows df1) as [|r0 rs0] eqn:Hrows.
  { injection Hout as <-. by apply elem_of_nil in Ho. }
  destruct (get_loc id1 (columns df1)) as [i|]; [|done].
  destruct (enrich_rows _ _ _ _ _ _) as [|o0 os] eqn:Hen.
  { injection Hout as <-. by apply elem_of_nil in Ho. }
  destruct (merge_check _ _ _ _); [done|].
  injection Hout as <-. exists i, ri. by rewrite Hen.
Qed.

(** ** One output row per match when identifiers are distinct *)

Lemma filter_key_NoDup {A} (f : A → cell) (k : cell) (l : list A) :
  NoDup (f <$> l) → (length (filter (λ x, f x = k) l) ≤ 1)%nat.
Proof.
  induction l as [|x l IH]; [simpl; lia|].
  rewrite fmap_cons, NoDup_cons, filter_cons. intros [Hx Hl].
  destruct (decide (f x = k)) as [Hk|Hk]; [|by apply IH].
  destruct (filter (λ x, f x = k) l) as [|y ys] eqn:Hf; [simpl; lia|].
  assert (y ∈ filter (λ x, f x = k) l) as [Hyk Hy]%list_elem_of_filter
    by (rewrite Hf; by left).
  destruct Hx. rewrite Hk, <- Hyk. by apply list_elem_of_fmap_2.
Qed.

Lemma length_join_row_NoDup rrows li ri w f l :
  NoDup (at_loc ri <$> rrows) → length (join_row rrows li ri w f l) = 1%nat.
Proof.
  intros Hnd. unfold join_row.
  pose proof (filter_key_NoDup (at_loc ri) (at_loc li l) rrows Hnd) as Hle.
  destruct (filter _ rrows) as [|m ms]; [done|].
  rewrite length_fmap. simpl in *. lia.
Qed.

Lemma length_bind_one {A B} (g : A → list B) (l : list A) :
  (∀ x, length (g x) = 1%nat) → length (l ≫= g) = length l.
Proof.
  intros Hg. induction l as [|x l IH]; [done|].
  change (length (g x ++ (l ≫= g)) = S (length l)).
  by rewrite length_app, Hg, IH.
Qed.

Lemma filter_chunk_rows cols i (S : gset cell) rs :
  Forall (rectangular cols) rs →
  length (filter (λ r, at_loc (standard_loc cols) r ∈ S) (chunk_row cols i <$> rs))
  = length (filter (λ r, standard_id (at_loc i r) ∈ S) rs).
Proof.
  induction 1 as [|r rs Hr _ IH]; [done|].
  rewrite fmap_cons, !filter_cons, (standard_cell _ _ _ Hr).
  destruct (decide _); simpl; by rewrite IH.
Qed.

(** When no two records of the second collection hold the same identifier
    there is no fan-out: the Match Result has exactly one row for each row
    of the first collection that passes the filter. *)
Theorem distinct_identifiers_one_row_each df1 df2 id1 id2 c out :
  0 < c →
  id1 ∈ columns df1 → id2 ∈ columns df2 →
  Forall (rectangular (columns df1)) (rows df1) →
  NoDup (column df2 id2) →
  (find_duplicates df1 df2 id1 id2 c).2 = Ok out →
  length (rows out) = length (matched_rows df1 df2 id1 id2).
Proof.
  intros Hc [i Hi]%get_loc_is_Some [ri Hri]%get_loc_is_Some Hrect Hnd Hout.
  destruct (find_duplicates_Ok _ _ _ _ _ _ _ _ Hc Hi Hri Hout) as [_ ->].
  destruct df1 as [cols rs]. simpl in *.
  rewrite rows_match_frame. unfold matched_rows, enrich_rows. simpl.
  rewrite (column_Some _ _ _ Hri) in Hnd |- *.
  rewrite length_bind_one by (intros l; by apply length_join_row_NoDup).
  rewrite filter_chunk_rows by done. f_equal.
  apply list_filter_iff. intros r. by rewrite (row_get_Some _ _ _ _ Hi).
Qed.

Lemma distinct_identifiers_one_row_each_witness :
  let df2 := mkDataFrame ["Key"; "Flat"] [[VStr " A7 "; VInt 4]; [VStr "B2"; VInt 5]] in
  let out := mkDataFrame ["ID"; "Name"; "Standard_ID"; "Key"; "Flat"]
               [[VStr " A7 "; VStr "x"; VStr "A7"; VMissing; VMissing];
                [VStr "B2"; VStr "y"; VStr "B2"; VStr "B2"; VInt 5]] in
  0 < 2 ∧ "ID" ∈ columns frame_3 ∧ "Key" ∈ columns df2
  ∧ Forall (rectangular (columns frame_3)) (rows frame_3)
  ∧ NoDup (column df2 "Key")
  ∧ (find_duplicates frame_3 df2 "ID" "Key" 2).2 = Ok out
  ∧ length (rows out) = length (matched_rows frame_3 df2 "ID" "Key").
Proof.
  intros df2 out.
  assert (0 < 2) as H1 by lia.
  assert ("ID" ∈ columns frame_3) as H2 by compute_done.
  assert ("Key" ∈ columns df2) as H3 by compute_done.
  assert (Forall (rectangular (columns frame_3)) (rows frame_3)) as H4
    by (repeat constructor).
  assert (NoDup (column df2 "Key")) as H5 by compute_done.
  assert ((find_duplicates frame_3 df2 "ID" "Key" 2).2 = Ok out) as H6
    by (vm_compute; reflexivity).
  repeat (split; [assumption|]).
  exact (distinct_identifiers_one_row_each frame_3 df2 "ID" "Key" 2 out
           H1 H2 H3 H4 H5 H6).
Defined.

(** ** Output rows through the pipeline *)

Lemma elem_of_enrich_rows_single cols i df2 id2 ri rs o :
  o ∈ enrich_rows cols i df2 id2 ri rs →
  ∃ r, r ∈ rs ∧ o ∈ enrich_rows cols i df2 id2 ri [r].
Proof.
  rewrite enrich_rows_bind. intros (r & Ho & Hr)%list_elem_of_bind. eauto.
Qed.

(** With both collections standardized as the loader leaves them, every
    row of the Match Result is a row of the first collection, its
    identifier again in the column Standard_ID, and a record of the second
    collection that holds this very identifier: no output row is left
    without the fields of a second record. *)
Theorem pipeline_rows_join_equal_identifiers df1 df2 id1 id2 c out o :
  0 < c →
  "Standard_ID" ∉ columns df1 → id2 ≠ "Standard_ID" →
  Forall (rectangular (columns df1)) (rows df1) →
  standardized df1 id1 → standardized df2 id2 →
  (find_duplicates df1 df2 id1 id2 c).2 = Ok out →
  o ∈ rows out →
  ∃ r m s,
    r ∈ rows df1 ∧ m ∈ rows df2
    ∧ row_get (columns df1) id1 r = VStr s
    ∧ row_get (columns df2) id2 m = VStr s
    ∧ o = r ++ VStr s :: m.
Proof.
  intros Hc Hnew Hid2 Hrect Hstd1 Hstd2 Hout Ho.
  rewrite find_duplicates_result in Hout by done.
  destruct (match_result_inv _ _ _ _ _ _ Hout Ho) as (i & ri & Hi & Hri & ->).
  simpl in Ho.
  apply elem_of_enrich_rows_single in Ho as (r & Hr & Ho).
  assert (rectangular (columns df1) r) as Hlen.
  { eapply Forall_forall in Hrect; [exact Hrect|done]. }
  rewrite enrich_rows_standardized in Ho;
    [|done|by apply (standardized_at_loc _ id2)].
  apply list_elem_of_fmap in Ho as (m & -> & [Hk Hm]%list_elem_of_filter).
  eapply Forall_forall in Hstd1 as [v Hv]; [|exact Hr].
  rewrite (row_get_Some _ _ _ _ Hi) in Hv.
  exists r, m, (strip (py_str v)).
  rewrite (row_get_Some _ _ _ _ Hi), (row_get_Some _ _ _ _ Hri).
  rewrite Hv, standard_id_idem in Hk.
  split_and!; [done..|].
  by rewrite chunk_row_new, right_cells_other, Hv, standard_id_idem, <- app_assoc.
Qed.

Lemma pipeline_rows_join_equal_identifiers_witness :
  let df1 := mkDataFrame ["ID"; "Name"] [[VStr "A7"; VStr "x"]; [VStr "12"; VStr "y"]] in
  let df2 := mkDataFrame ["Key"; "Flat"] [[VStr ""; VInt 4]; [VStr "A7"; VInt 5]] in
  let out := mkDataFrame ["ID"; "Name"; "Standard_ID"; "Key"; "Flat"]
               [[VStr "A7"; VStr "x"; VStr "A7"; VStr "A7"; VInt 5]] in
  let o := [VStr "A7"; VStr "x"; VStr "A7"; VStr "A7"; VInt 5] in
  0 < 500
  ∧ ("Standard_ID" ∉ columns df1) ∧ "Key" ≠ "Standard_ID"
  ∧ Forall (rectangular (columns df1)) (rows df1)
  ∧ standardized df1 "ID" ∧ standardized df2 "Key"
  ∧ (find_duplicates df1 df2 "ID" "Key" 500).2 = Ok out
  ∧ o ∈ rows out
  ∧ ∃ r m s,
      r ∈ rows df1 ∧ m ∈ rows df2
      ∧ row_get (columns df1) "ID" r = VStr s
      ∧ row_get (columns df2) "Key" m = VStr s
      ∧ o = r ++ VStr s :: m.
Proof.
  intros df1 df2 out o.
  assert (0 < 500) as H1 by lia.
  assert ("Standard_ID" ∉ columns df1) as H2 by compute_done.
  assert ("Key" ≠ "Standard_ID") as H3 by compute_done.
  assert (Forall (rectangular (columns df1)) (rows df1)) as H4 by (repeat constructor).
  assert (standardized df1 "ID") as H5.
  { repeat constructor; [by exists (VStr "A7")|by exists (VStr "12")]. }
  assert (standardized df2 "Key") as H6.
  { repeat constructor; [by exists (VStr "")|by exists (VStr "A7")]. }
  assert ((find_duplicates df1 df2 "ID" "Key" 500).2 = Ok out) as H7.
  { rewrite find_duplicates_result by lia. reflexivity. }
  assert (o ∈ rows out) as H8 by compute_done.
  repeat (split; [assumption|]).
  exact (pipeline_rows_join_equal_identifiers df1 df2 "ID" "Key" 500 out o
           H1 H2 H3 H4 H5 H6 H7 H8).
Defined.

(** ** The Match Result is rectangular *)

Lemma length_chunk_row cols i r :
  rectangular cols r → length (chunk_row cols i r) = length (chunk_columns cols).
Proof.
  unfold rectangular, chunk_row, chunk_columns. intros Hr.
  destruct (get_loc "Standard_ID" cols).
  - by rewrite length_insert.
  - rewrite !length_app. simpl. lia.
Qed.

Lemma length_right_cells df2 id2 ri m :
  get_loc id2 (columns df2) = Some ri →
  rectangular (columns df2) m →
  length (right_cells id2 ri m) = length (right_columns df2 id2 ri).
Proof.
  unfold rectangular, right_cells, right_columns. intros Hri%get_loc_lt Hm.
  case_bool_decide; [|done].
  rewrite !length_delete; [lia| |]; apply lookup_lt_is_Some; lia.
Qed.

(** From rectangular collections the matcher makes a rectangular Match
    Result: every output row has one cell for each column of the result. *)
Theorem result_rectangular df1 df2 id1 id2 c out :
  0 < c →
  Forall (rectangular (columns df1)) (rows df1) →
  Forall (rectangular (columns df2)) (rows df2) →
  (find_duplicates df1 df2 id1 id2 c).2 = Ok out →
  Forall (rectangular (columns out)) (rows out).
Proof.
  intros Hc Hrect1 Hrect2 Hout. apply Forall_forall. intros o Ho.
  rewrite find_duplicates_result in Hout by done.
  destruct (match_result_inv _ _ _ _ _ _ Hout Ho) as (i & ri & Hi & Hri & ->).
  simpl in *. unfold enrich_rows in Ho.
  apply list_elem_of_bind in Ho as (l & Ho & [_ Hl]%list_elem_of_filter).
  apply list_elem_of_fmap in Hl as (r & -> & Hr).
  assert (rectangular (columns df1) r) as Hlen.
  { eapply Forall_forall in Hrect1; [exact Hrect1|done]. }
  unfold rectangular, result_columns. rewrite length_app, !length_fmap.
  unfold join_row in Ho. destruct (filter _ (rows df2)) as [|m0 ms] eqn:Hf.
  - apply list_elem_of_singleton in Ho as ->.
    by rewrite length_app, length_replicate, length_chunk_row.
  - apply list_elem_of_fmap in Ho as (m & -> & Hm). rewrite <- Hf in Hm.
    apply list_elem_of_filter in Hm as [_ Hm].
    rewrite length_app, length_chunk_row by done.
    rewrite (length_right_cells df2) by
      (done || (eapply Forall_forall in Hrect2; [exact Hrect2|done])).
    done.
Qed.

Lemma result_rectangular_witness :
  let df2 := mkDataFrame ["Key"; "Flat"] [[VStr " A7 "; VInt 4]; [VStr "B2"; VInt 5]] in
  let out := mkDataFrame ["ID"; "Name"; "Standard_ID"; "Key"; "Flat"]
               [[VStr " A7 "; VStr "x"; VStr "A7"; VMissing; VMissing];
                [VStr "B2"; VStr "y"; VStr "B2"; VStr "B2"; VInt 5]] in
  0 < 2
  ∧ Forall (rectangular (columns frame_3)) (rows frame_3)
  ∧ Forall (rectangular (columns df2)) (rows df2)
  ∧ (find_duplicates frame_3 df2 "ID" "Key" 2).2 = Ok out
  ∧ Forall (rectangular (columns out)) (rows out).
Proof.
  intros df2 out.
  assert (0 < 2) as H1 by lia.
  assert (Forall (rectangular (columns frame_3)) (rows frame_3)) as H2
    by (repeat constructor).
  assert (Forall (rectangular (columns df2)) (rows df2)) as H3 by (repeat constructor).
  assert ((find_duplicates frame_3 df2 "ID" "Key" 2).2 = Ok out) as H4
    by (vm_compute; reflexivity).
  repeat (split; [assumption|]).
  exact (result_rectangular frame_3 df2 "ID" "Key" 2 out H1 H2 H3 H4).
Defined.

(** ** Column labels of the Match Result *)

(** In a Match Result with rows, a label of the first collection that the
    second collection has too appears twice, once with the suffix _File1
    and once with the suffix _File2; a label only the first collection has
    is kept as it is. *)
Theorem shared_labels_get_suffixes df1 df2 id1 id2 c out label :
  0 < c →
  id2 ≠ "Standard_ID" →
  (find_duplicates df1 df2 id1 id2 c).2 = Ok out →
  rows out ≠ [] →
  label ∈ columns df1 →
  (label ∈ columns df2 →
   label +:+ "_File1" ∈ columns out ∧ label +:+ "_File2" ∈ columns out)
  ∧ (label ∉ columns df2 → label ∈ columns out).
Proof.
  intros Hc Hid2 Hout Hrows Hlabel.
  rewrite find_duplicates_result in Hout by done.
  destruct (rows out) as [|o os] eqn:Ho; [done|].
  assert (o ∈ rows out) as Hin by (rewrite Ho; by left).
  destruct (match_result_inv _ _ _ _ _ _ Hout Hin) as (i & ri & Hi & Hri & ->).
  simpl. unfold result_columns.
  assert (right_columns df2 id2 ri = columns df2) as ->.
  { unfold right_columns. rewrite bool_decide_eq_false_2; [done|]. by intros <-. }
  assert (label ∈ chunk_columns (columns df1)) as Hchunk.
  { unfold chunk_columns. destruct (get_loc "Standard_ID" _); [done|].
    apply elem_of_app. by left. }
  split.
  - intros Hboth. split; apply elem_of_app; [left|right].
    + apply list_elem_of_fmap. exists label. split; [|done].
      unfold suffixed. by rewrite bool_decide_eq_true_2.
    + apply list_elem_of_fmap. exists label. split; [|done].
      unfold suffixed. by rewrite bool_decide_eq_true_2.
  - intros Hone. apply elem_of_app. left.
    apply list_elem_of_fmap. exists label. split; [|done].
    unfold suffixed. by rewrite bool_decide_eq_false_2.
Qed.

Lemma shared_labels_get_suffixes_witness :
  let df1 := mkDataFrame ["ID"; "Name"] [[VStr "A7"; VStr "x"]] in
  let df2 := mkDataFrame ["ID"; "Flat"] [[VStr "A7"; VInt 5]] in
  let out := mkDataFrame ["ID_File1"; "Name"; "Standard_ID"; "ID_File2"; "Flat"]
               [[VStr "A7"; VStr "x"; VStr "A7"; VStr "A7"; VInt 5]] in
  0 < 500 ∧ "ID" ≠ "Standard_ID"
  ∧ (find_duplicates df1 df2 "ID" "ID" 500).2 = Ok out
  ∧ rows out ≠ []
  ∧ "ID" ∈ columns df1
  ∧ ("ID" ∈ columns df2 →
     "ID" +:+ "_File1" ∈ columns out ∧ "ID" +:+ "_File2" ∈ columns out)
  ∧ ("ID" ∉ columns df2 → "ID" ∈ columns out).
Proof.
  intros df1 df2 out.
  assert (0 < 500) as H1 by lia.
  assert ("ID" ≠ "Standard_ID") as H2 by compute_done.
  assert ((find_duplicates df1 df2 "ID" "ID" 500).2 = Ok out) as H3.
  { rewrite find_duplicates_result by lia. reflexivity. }
  assert (rows out ≠ []) as H4 by done.
  assert ("ID" ∈ columns df1) as H5 by compute_done.
  repeat (split; [assumption|]).
  exact (shared_labels_get_suffixes df1 df2 "ID" "ID" 500 out "ID" H1 H2 H3 H4 H5).
Defined.

(** ** Progress *)

(** One chunk, whatever it meets: it reports its progress, after its work,
    or it raises and reports nothing. *)
Lemma find_duplicates_chunk_progress df1 df2 id1 id2 c valid start dups :
  ∃ log r,
    find_duplicates_chunk df1 df2 id1 id2 c (len df1) valid start dups = (log, r)
    ∧ ((log = [] ∧ ∃ e, r = Raise e)
       ∨ (log = chunk_log (len df1) (Z.min (start + c) (len df1)) ∧ ∃ dups', r = Ok dups')).
Proof.
  unfold find_duplicates_chunk.
  destruct (getitem (iloc df1 start _) id1) as [ids|e].
  2: { rewrite lift_Raise_bind. do 2 eexists. split; [done|]. left. eauto. }
  rewrite lift_Ok_bind.
  destruct (getitem (setitem _ _ _) "Standard_ID") as [standard|e].
  2: { rewrite lift_Raise_bind. do 2 eexists. split; [done|]. left. eauto. }
  rewrite lift_Ok_bind. destruct (empty _).
  - rewrite mret_bind, !emit_bind, logged_logged, logged_mret.
    do 2 eexists. split; [done|]. right. eauto.
  - destruct (merge _ _ _ _ _) as [enriched|e].
    + rewrite lift_Ok_bind, mret_bind, !emit_bind, logged_logged, logged_mret.
      do 2 eexists. split; [done|]. right. eauto.
    + rewrite lift_Raise_bind, bind_Raise. do 2 eexists. split; [done|]. left. eauto.
Qed.

Lemma chunk_log_in_range total start c :
  0 ≤ start < total → 0 < c →
  Forall progress_in_range (chunk_log total (Z.min (start + c) total)).
Proof. intros Hs Hc. repeat constructor; simpl; lia. Qed.

(** The loop, whatever it meets: every progress it reports is in range,
    and when it comes to its end the last one is total / total. *)
Lemma for_each_chunks_progress df1 df2 id1 id2 c valid fuel :
  0 < c →
  ∀ start dups,
    0 ≤ start →
    ∃ log r,
      for_each (range_from fuel start (len df1) c)
        (find_duplicates_chunk df1 df2 id1 id2 c (len df1) valid) dups
      = (log, r)
      ∧ Forall progress_in_range log
      ∧ (∀ dups', r = Ok dups' →
         start < len df1 → len df1 - start ≤ Z.of_nat fuel →
         ∃ log', log = log' ++ chunk_log (len df1) (len df1)).
Proof.
  intros Hc. induction fuel as [|fuel IH]; intros start dups Hs.
  - exists [], (Ok dups). split_and!; [done|constructor|]. intros; lia.
  - simpl range_from. case_bool_decide as Hlt; last first.
    { exists [], (Ok dups). split_and!; [done|constructor|]. intros; lia. }
    simpl for_each.
    destruct (find_duplicates_chunk_progress df1 df2 id1 id2 c valid start dups)
      as (log1 & r1 & -> & [[-> [e ->]]|[-> [dups1 ->]]]).
    { rewrite bind_Raise. exists [], (Raise e). split_and!; [done|constructor|done]. }
    destruct (IH (start + c) dups1) as (log2 & r2 & Heq & Hlog2 & Hlast); [lia|].
    rewrite bind_pair, Heq, logged_pair.
    do 2 eexists. split_and!; [done| |].
    + apply Forall_app. split; [apply chunk_log_in_range; lia|done].
    + intros dups' -> _ Hfuel.
      destruct (decide (start + c < len df1)) as [Hmore|Hdone].
      * destruct (Hlast dups' eq_refl Hmore) as [log' ->]; [lia|].
        exists (chunk_log (len df1) (Z.min (start + c) (len df1)) ++ log').
        by rewrite app_assoc.
      * assert (log2 = []) as ->.
        { destruct fuel; simpl in Heq; [by injection Heq|].
          rewrite bool_decide_eq_false_2 in Heq by lia. by injection Heq. }
        exists []. rewrite app_nil_r. simpl. by rewrite Z.min_r by lia.
Qed.

(** Every value the matcher passes to the progress bar is end / total with
    0 <= end <= total and 0 < total, so the division is defined and the
    fraction lies between 0 and 1, whatever the two collections are and
    also when the matcher raises.  When it returns, it has cleared the bar
    and the status text and then reported its success, and, when the first
    collection has rows, the last progress it has reported is total /
    total. *)
Theorem progress_in_range_and_complete df1 df2 id1 id2 c :
  0 < c →
  Forall progress_in_range (find_duplicates df1 df2 id1 id2 c).1
  ∧ ∀ out,
      (find_duplicates df1 df2 id1 id2 c).2 = Ok out →
      ∃ log text,
        (find_duplicates df1 df2 id1 id2 c).1
        = log ++ [st_clear progress_bar; st_clear status_text; st_success text]
        ∧ (rows df1 ≠ [] → ∃ log', log = log' ++ chunk_log (len df1) (len df1)).
Proof.
  intros Hc. unfold find_duplicates. rewrite !emit_bind.
  destruct (getitem df2 id2) as [ids|e].
  2: { rewrite lift_Raise_bind, !logged_logged, logged_pair. simpl.
       split; [|done]. repeat constructor; simpl; lia. }
  rewrite lift_Ok_bind, emit_bind, range_positive, lift_Ok_bind by done.
  destruct (for_each_chunks_progress df1 df2 id1 id2 c
              (to_set (str_strip (astype_str (dropna ids))))
              (Z.to_nat (Z.abs (len df1 - 0))) Hc 0 [])
    as (log & r & -> & Hlog & Hlast); [lia|].
  assert (Forall progress_in_range
            (([st_progress 0 1] ++ [st_placeholder])
               ++ [st_info ("Created a lookup set with "
                              +:+ pretty (size (to_set (str_strip (astype_str (dropna ids)))))
                              +:+ " unique IDs from the second file.")])) as Hhead.
  { repeat constructor; simpl; lia. }
  destruct r as [dups|e].
  2: { rewrite bind_Raise, !logged_logged, logged_pair. cbn [fst snd].
       split; [|done]. apply Forall_app. by split. }
  rewrite bind_pair, !emit_bind, !logged_logged.
  assert (∃ text r,
            (if bool_decide (dups ≠ [])
             then lift (concat dups)
                  ≫= λ result : DataFrame,
                       emit (st_success ("✅ Comparison complete! Found "
                                           +:+ pretty (len result)
                                           +:+ " duplicate records."))
                       ≫= λ _ : (), mret result
             else logged [st_success "✅ Comparison complete! No duplicates were found."]
                    (mret empty_frame))
            = ([st_success text], r)) as (text & r & ->).
  { destruct dups as [|d ds].
    - rewrite bool_decide_eq_false_2 by (intros H; by apply H).
      rewrite logged_mret. by do 2 eexists.
    - rewrite bool_decide_eq_true_2 by done.
      destruct (concat_cons d ds) as (out & _ & -> & _).
      rewrite lift_Ok_bind, emit_bind, logged_mret. by do 2 eexists. }
  rewrite logged_pair. cbn [fst snd]. split.
  - repeat (apply Forall_app; split); try done; by repeat constructor.
  - intros out _.
    exists ((([st_progress 0 1] ++ [st_placeholder])
               ++ [st_info ("Created a lookup set with "
                              +:+ pretty (size (to_set (str_strip (astype_str (dropna ids)))))
                              +:+ " unique IDs from the second file.")]) ++ log), text.
    split; [by rewrite <- !app_assoc|].
    intros Hrows. destruct (Hlast dups eq_refl) as [log' ->].
    + unfold len. destruct (rows df1); [done|]. simpl length. lia.
    + unfold len. lia.
    + eexists. by rewrite app_assoc.
Qed.

Lemma progress_in_range_and_complete_witness :
  0 < 2
  ∧ Forall progress_in_range (find_duplicates frame_3 frame_A7 "ID" "Key" 2).1
  ∧ ∀ out,
      (find_duplicates frame_3 frame_A7 "ID" "Key" 2).2 = Ok out →
      ∃ log text,
        (find_duplicates frame_3 frame_A7 "ID" "Key" 2).1
        = log ++ [st_clear progress_bar; st_clear status_text; st_success text]
        ∧ (rows frame_3 ≠ [] → ∃ log', log = log' ++ chunk_log (len frame_3) (len frame_3)).
Proof.
  assert (0 < 2) as H1 by lia.
  split; [assumption|].
  exact (progress_in_range_and_complete frame_3 frame_A7 "ID" "Key" 2 H1).
Defined.

(** Three rows in two chunks. *)
Example progress_of_two_chunks :
  (find_duplicates frame_3 frame_A7 "ID" "Key" 2).1
  = [st_progress 0 1; st_placeholder;
     st_info "Created a lookup set with 2 unique IDs from the second file.";
     st_progress 2 3;
     st_info "Processing... Checked 2 of 3 rows from the first file.";
     st_progress 3 3;
     st_info "Processing... Checked 3 of 3 rows from the first file.";
     st_clear progress_bar; st_clear status_text;
     st_success "✅ Comparison complete! Found 3 duplicate records."].
Proof. vm_compute. reflexivity. Qed.

(** ** Sheets offered for selection *)

Lemma load_sheet_found file xls id header n acc :
  n ∈ sheet_names xls →
  ∃ log r,
    load_sheet file xls id header n acc = (log, r)
    ∧ Forall (λ e, ∀ m, e ≠ sheet_not_found file m) log.
Proof.
  intros Hin. unfold load_sheet. rewrite bool_decide_eq_true_2 by done.
  destruct (read_excel xls n header) as [df|e].
  - rewrite lift_Ok_bind. case_bool_decide as Hid.
    + rewrite (getitem_column _ _ Hid), lift_Ok_bind, emit_bind, logged_mret.
      do 2 eexists. split; [done|]. by repeat constructor.
    + rewrite emit_bind, logged_mret.
      do 2 eexists. split; [done|]. repeat constructor.
      by intros m [=].
  - rewrite lift_Raise_bind. do 2 eexists. split; [done|constructor].
Qed.

Lemma for_each_load_sheet_found file xls id header names :
  names ⊆ sheet_names xls →
  ∀ acc,
    ∃ log r,
      for_each names (load_sheet file xls id header) acc = (log, r)
      ∧ Forall (λ e, ∀ m, e ≠ sheet_not_found file m) log.
Proof.
  induction names as [|n ns IH]; intros Hsub acc.
  - exists [], (Ok acc). split; [done|constructor].
  - simpl for_each.
    destruct (load_sheet_found file xls id header n acc) as (log1 & r1 & -> & Hlog1).
    { apply Hsub. by left. }
    destruct r1 as [dfs|e].
    + destruct (IH (λ x Hx, Hsub x (list_elem_of_further _ _ _ Hx)) dfs)
        as (log2 & r2 & Heq & Hlog2).
      rewrite bind_pair, Heq, logged_pair.
      do 2 eexists. split; [done|by apply Forall_app].
    + rewrite bind_Raise. by do 2 eexists.
Qed.

Lemma load_dataframe_found file xls names id header :
  open_excel file = Ok xls →
  names ⊆ sheet_names xls →
  Forall (λ e, ∀ m, e ≠ sheet_not_found file m)
    (load_dataframe_from_selected_sheets file names id header).1.
Proof.
  intros Hopen Hsub. unfold load_dataframe_from_selected_sheets.
  rewrite Hopen, lift_Ok_bind.
  destruct (for_each_load_sheet_found file xls id header names Hsub [])
    as (log & r & -> & Hlog).
  destruct r as [dfs|e].
  - rewrite bind_pair. destruct dfs as [|d ds].
    + rewrite bool_decide_eq_true_2 by done.
      rewrite emit_bind, logged_logged, logged_mret, try_except_Ok. simpl.
      apply Forall_app. split; [done|]. by repeat constructor.
    + rewrite bool_decide_eq_false_2 by done.
      destruct (concat_cons d ds) as (out & _ & -> & _).
      by rewrite lift_Ok_bind, logged_mret, try_except_Ok.
  - rewrite bind_Raise, try_except_Raise, emit_bind, logged_logged, logged_mret.
    simpl. apply Forall_app. split; [done|]. by repeat constructor.
Qed.

(** The sheet names [get_sheet_names] offers for selection are the sheets of
    the workbook the loader opens: whatever is selected among them, the
    loader never warns that a sheet was not found.  When the workbook
    cannot be opened no name is offered. *)
Theorem offered_sheets_are_found file names id header offered :
  (get_sheet_names (Some file)).2 = Ok offered →
  names ⊆ offered →
  (∀ e, open_excel file = Raise e → offered = [])
  ∧ ∀ n, sheet_not_found file n
         ∉ (load_dataframe_from_selected_sheets file names id header).1.
Proof.
  intros Hoff Hsub. unfold get_sheet_names in Hoff.
  destruct (open_excel file) as [xls|e] eqn:Hopen.
  - rewrite lift_Ok_bind in Hoff. injection Hoff as <-.
    split; [done|]. intros n Hn.
    pose proof (load_dataframe_found file xls names id header Hopen Hsub) as Hlog.
    eapply Forall_forall in Hlog; [|exact Hn]. by eapply Hlog.
  - rewrite lift_Raise_bind, try_except_Raise, emit_bind, logged_logged, logged_mret
      in Hoff.
    injection Hoff as <-. split; [done|]. intros n.
    unfold load_dataframe_from_selected_sheets.
    rewrite Hopen, lift_Raise_bind, try_except_Raise, emit_bind, logged_logged,
      logged_mret.
    simpl. by intros [=]%list_elem_of_singleton.
Qed.

Lemma offered_sheets_are_found_witness :
  (get_sheet_names (Some file_three_sheets)).2 = Ok ["North"; "Notes"; "South"]
  ∧ ["South"; "North"] ⊆ ["North"; "Notes"; "South"]
  ∧ (∀ e, open_excel file_three_sheets = Raise e → ["North"; "Notes"; "South"] = [])
  ∧ ∀ n, sheet_not_found file_three_sheets n
         ∉ (load_dataframe_from_selected_sheets file_three_sheets
              ["South"; "North"] "ID" 0).1.
Proof.
  assert ((get_sheet_names (Some file_three_sheets)).2 = Ok ["North"; "Notes"; "South"])
    as H1 by reflexivity.
  assert (["South"; "North"] ⊆ ["North"; "Notes"; "South"]) as H2 by compute_done.
  repeat (split; [assumption|]).
  exact (offered_sheets_are_found file_three_sheets ["South"; "North"] "ID" 0
           ["North"; "Notes"; "South"] H1 H2).
Defined.

(** ** Standardizing twice *)

(** The loader's standardization of the identifier column is idempotent:
    applied to a collection it has already been applied to, it changes
    nothing. *)
Theorem standardize_idempotent df id :
  id ∈ columns df →
  standardize (standardize df id) id = standardize df id.
Proof.
  intros Hid. destruct (proj2 (get_loc_is_Some id (columns df)) Hid) as [i Hi].
  rewrite (standardize_rows (standardize df id) id i)
    by (by rewrite columns_standardize).
  rewrite (standardize_rows df id i Hi). simpl. f_equal.
  rewrite <- list_fmap_compose. apply list_fmap_ext. intros _ r _. simpl.
  destruct (decide (i < length r)%nat) as [Hlt|Hge].
  - unfold at_loc at 1. rewrite list_lookup_insert_eq by done. simpl.
    by rewrite standard_id_idem, list_insert_insert_eq.
  - by rewrite !list_insert_ge by (rewrite ?length_insert; lia).
Qed.

Lemma standardize_idempotent_witness :
  "ID" ∈ columns frame_3
  ∧ standardize (standardize frame_3 "ID") "ID" = standardize frame_3 "ID".
Proof.
  assert ("ID" ∈ columns frame_3) as H1 by compute_done.
  split; [assumption|]. exact (standardize_idempotent frame_3 "ID" H1).
Defined.

(** ** What the loader keeps of a sheet *)

(** Every record of a retained sheet is in the collection the loader
    returns, each of its text and missing cells under the label it had in
    the sheet, also when the sheets do not have the same columns.  (An
    integer cell is left out of the statement: pandas hands it back as a
    float when its column is filled with missing values for another
    sheet.) *)
Theorem loader_keeps_every_cell file xls names id header log df d r :
  open_excel file = Ok xls →
  readable xls names header →
  load_dataframe_from_selected_sheets file names id header = (log, Ok df) →
  d ∈ retained_sheets xls names id header →
  r ∈ rows d →
  ∃ o, o ∈ rows df
       ∧ ∀ c, c ∈ columns d →
           c ∈ columns df
           ∧ (is_int (row_get (columns d) c r) = false →
              row_get (columns df) c o = row_get (columns d) c r).
Proof.
  intros Hopen Hread Hload Hd Hr.
  rewrite (load_dataframe_log _ _ _ _ _ Hopen Hread) in Hload.
  destruct (retained_sheets xls names id header) as [|d0 ds].
  { by apply elem_of_nil in Hd. }
  destruct (concat_cons d0 ds) as (out & lay & Hconcat & Hrows & Hcells).
  rewrite Hconcat in Hload. injection Hload as _ <-.
  exists (lay d r). split.
  - rewrite Hrows. apply list_elem_of_bind. exists d. split; [|done].
    apply list_elem_of_fmap. by exists r.
  - intros c Hc. destruct (Hcells d c Hd Hc) as [Hin Hget]. by split.
Qed.

Lemma loader_keeps_every_cell_witness :
  let xls := mkExcelFile
               [("North", λ _, Ok (mkDataFrame ["ID"; "Name"]
                                      [[VStr " A7 "; VStr "x"]; [VInt 12; VStr "y"]]));
                ("Notes", λ _, Ok (mkDataFrame ["Remark"] [[VStr "n/a"]]));
                ("South", λ _, Ok (mkDataFrame ["Name"; "ID"; "Floor"]
                                      [[VStr "z"; VStr "B2"; VStr "3rd"]]))] in
  let names := ["North"; "Notes"; "South"] in
  let df := mkDataFrame ["ID"; "Name"; "Floor"]
              [[VStr "A7"; VStr "x"; VMissing];
               [VStr "12"; VStr "y"; VMissing];
               [VStr "B2"; VStr "z"; VStr "3rd"]] in
  let log := [st_info "Loaded data from sheet 'North' of 'flats.xlsx' with 2 rows.";
              st_warning "Column 'ID' not found in sheet 'Notes'. Skipping this sheet.";
              st_info "Loaded data from sheet 'South' of 'flats.xlsx' with 1 rows."] in
  let d := mkDataFrame ["Name"; "ID"; "Floor"] [[VStr "z"; VStr "B2"; VStr "3rd"]] in
  let r := [VStr "z"; VStr "B2"; VStr "3rd"] in
  open_excel file_three_sheets = Ok xls
  ∧ readable xls names 0
  ∧ load_dataframe_from_selected_sheets file_three_sheets names "ID" 0 = (log, Ok df)
  ∧ d ∈ retained_sheets xls names "ID" 0
  ∧ r ∈ rows d
  ∧ ∃ o, o ∈ rows df
         ∧ ∀ c, c ∈ columns d →
             c ∈ columns df
             ∧ (is_int (row_get (columns d) c r) = false →
                row_get (columns df) c o = row_get (columns d) c r).
Proof.
  intros xls names df log d r.
  assert (open_excel file_three_sheets = Ok xls) as H1 by reflexivity.
  assert (readable xls names 0) as H2.
  { repeat constructor; intros _; eexists; reflexivity. }
  assert (load_dataframe_from_selected_sheets file_three_sheets names "ID" 0
          = (log, Ok df)) as H3 by (vm_compute; reflexivity).
  assert (d ∈ retained_sheets xls names "ID" 0) as H4.
  { right. left. }
  assert (r ∈ rows d) as H5.
  { left. }
  repeat (split; [assumption|]).
  exact (loader_keeps_every_cell file_three_sheets xls names "ID" 0 log df d r
           H1 H2 H3 H4 H5).
Defined.

(** ** A loaded collection is standardized *)

Lemma loader_standardized_witness :
  let xls := mkExcelFile
               [("North", λ _, Ok (mkDataFrame ["ID"; "Name"]
                                      [[VStr " A7 "; VStr "x"]; [VInt 12; VStr "y"]]));
                ("Notes", λ _, Ok (mkDataFrame ["Remark"] [[VStr "n/a"]]));
                ("South", λ _, Ok (mkDataFrame ["Name"; "ID"; "Floor"]
                                      [[VStr "z"; VStr "B2"; VStr "3rd"]]))] in
  let names := ["South"; "Notes"; "North"] in
  let df := mkDataFrame ["Name"; "ID"; "Floor"]
              [[VStr "z"; VStr "B2"; VStr "3rd"];
               [VStr "x"; VStr "A7"; VMissing];
               [VStr "y"; VStr "12"; VMissing]] in
  let log := [st_info "Loaded data from sheet 'South' of 'flats.xlsx' with 1 rows.";
              st_warning "Column 'ID' not found in sheet 'Notes'. Skipping this sheet.";
              st_info "Loaded data from sheet 'North' of 'flats.xlsx' with 2 rows."] in
  open_excel file_three_sheets = Ok xls
  ∧ readable xls names 0
  ∧ (∀ n d, read_excel xls n 0 = Ok d → Forall (rectangular (columns d)) (rows d))
  ∧ load_dataframe_from_selected_sheets file_three_sheets names "ID" 0 = (log, Ok df)
  ∧ standardized df "ID".
Proof.
  intros xls names df log.
  assert (open_excel file_three_sheets = Ok xls) as H1 by reflexivity.
  assert (readable xls names 0) as H2.
  { repeat constructor; intros _; eexists; reflexivity. }
  assert (∀ n d, read_excel xls n 0 = Ok d → Forall (rectangular (columns d)) (rows d))
    as H3.
  { intros n d. unfold read_excel. simpl.
    repeat case_decide; simpl; intros [= <-]; by repeat constructor. }
  assert (load_dataframe_from_selected_sheets file_three_sheets names "ID" 0
          = (log, Ok df)) as H4 by (vm_compute; reflexivity).
  repeat (split; [assumption|]).
  exact (loader_standardized file_three_sheets xls names "ID" 0 log df H1 H2 H3 H4).
Defined.

(** ** The success message *)

Section success.
Context (df1 df2 : DataFrame) (id1 id2 : string) (c : Z) (i ri : nat).
Hypothesis Hc : 0 < c.
Hypothesis Hi : get_loc id1 (columns df1) = Some i.
Hypothesis Hri : get_loc id2 (columns df2) = Some ri.

Lemma find_duplicates_success_text :
  merge_check (columns df1) df2 id2 ri = None
  ∨ enrich_rows (columns df1) i df2 id2 ri (rows df1) = [] →
  ∃ log out,
    find_duplicates df1 df2 id1 id2 c = (log ++ [st_success (success_text out)], Ok out).
Proof.
  intros Hok. unfold find_duplicates.
  rewrite !emit_bind, (getitem_Some _ _ _ Hri), lift_Ok_bind, emit_bind.
  rewrite lookup_set_eq, range_positive, lift_Ok_bind by done.
  destruct (for_each_chunks df1 df2 id1 id2 c i ri Hc Hi Hri
              (Z.to_nat (Z.abs (len df1 - 0))) 0 [])
    as (log & new & Heq & _ & _ & Hnew); [lia|unfold len; lia|done|].
  rewrite Heq, bind_pair, !emit_bind, !logged_logged.
  match goal with |- context [logged ?l (if _ then _ else _)] => set (log' := l) end.
  destruct new as [|d ds].
  - rewrite bool_decide_eq_false_2 by (intros H; by apply H).
    rewrite logged_logged, logged_mret. by exists log', empty_frame.
  - change ([] ++ d :: ds) with (d :: ds).
    rewrite bool_decide_eq_true_2 by done.
    rewrite (concat_same_columns _ _ _ Hnew), lift_Ok_bind, emit_bind.
    rewrite !logged_logged, logged_mret.
    exists log'. eexists. f_equal. f_equal. f_equal. f_equal.
    unfold success_text. cbn [rows].
    pose proof (Forall_inv Hnew) as [_ Hd].
    change ((d :: ds) ≫= rows) with (rows d ++ (ds ≫= rows)).
    by destruct (rows d).
Qed.

End success.

(** The message the matcher ends with agrees with what it returns: the
    number of duplicate records it announces is the number of rows of the
    Match Result, and it announces that none were found exactly when the
    Match Result has no row. *)
Theorem success_message_reports_row_count df1 df2 id1 id2 c log out :
  0 < c →
  find_duplicates df1 df2 id1 id2 c = (log, Ok out) →
  ∃ log', log = log' ++ [st_success (success_text out)].
Proof.
  intros Hc Hrun.
  destruct (get_loc id2 (columns df2)) as [ri|] eqn:Hri; last first.
  { pose proof (find_duplicates_KeyError_2 df1 df2 id1 id2 c Hri) as H.
    by rewrite Hrun in H. }
  destruct (decide (rows df1 = [])) as [Hrows|Hrows].
  { destruct (find_duplicates_no_rows df1 df2 id1 id2 c ri) as (log' & Heq & _);
      [lia|done|done|].
    rewrite Hrun in Heq. injection Heq as -> ->. by exists log'. }
  destruct (get_loc id1 (columns df1)) as [i|] eqn:Hi; last first.
  { pose proof (find_duplicates_KeyError_1 df1 df2 id1 id2 c ri Hc Hrows Hi Hri) as H.
    by rewrite Hrun in H. }
  destruct (find_duplicates_Ok df1 df2 id1 id2 c i ri out Hc Hi Hri) as [Hok _];
    [by rewrite Hrun|].
  destruct (find_duplicates_success_text df1 df2 id1 id2 c i ri Hc Hi Hri Hok)
    as (log' & out' & Heq).
  rewrite Hrun in Heq. injection Heq as -> ->. by exists log'.
Qed.

Lemma success_message_reports_row_count_witness :
  let out := mkDataFrame ["ID"; "Name"; "Standard_ID"; "Key"; "Flat"]
               [[VStr " A7 "; VStr "x"; VStr "A7"; VStr "A7"; VInt 1];
                [VStr " A7 "; VStr "x"; VStr "A7"; VStr "A7"; VInt 3];
                [VStr "B2"; VStr "y"; VStr "B2"; VStr "B2"; VInt 2]] in
  let log := (find_duplicates frame_3 frame_A7 "ID" "Key" 2).1 in
  0 < 2
  ∧ find_duplicates frame_3 frame_A7 "ID" "Key" 2 = (log, Ok out)
  ∧ ∃ log', log = log' ++ [st_success (success_text out)].
Proof.
  intros out log.
  assert (0 < 2) as H1 by lia.
  assert (find_duplicates frame_3 frame_A7 "ID" "Key" 2 = (log, Ok out)) as H2
    by (vm_compute; reflexivity).
  repeat (split; [assumption|]).
  exact (success_message_reports_row_count frame_3 frame_A7 "ID" "Key" 2 log out H1 H2).
Defined.
